(** * Vulnhalla: CodeQL database lookup ([src/codeql/db_lookup.py])

    A shallow embedding of [CodeQLDBLookup] and the properties of its
    resolvers, caller walk and snippet helpers.

    Conventions of the embedding
    - a Python [str] is a [string]; characters are the bytes of the text;
    - a Python [int] is a [Z];
    - a row dictionary is an association list in insertion order;
    - a call either returns or raises ([outcome]) and leaves the list of the
      files it opened, in order ([io]). *)

From Stdlib Require Import String Ascii List ZArith Lia Bool DecimalString.
Import ListNotations.
Local Open Scope list_scope.
Local Open Scope string_scope.

(** ** Python string primitives used by the module *)

Module PyStr.

(** [needle in hay] *)
Fixpoint contains (needle hay : string) : bool :=
  prefix needle hay
  || match hay with
     | EmptyString => false
     | String _ rest => contains needle rest
     end.

(** [s.replace(old, empty)] for a one-character [old] *)
Fixpoint remove_char (old : ascii) (s : string) : string :=
  match s with
  | EmptyString => EmptyString
  | String c rest =>
      if Ascii.eqb c old then remove_char old rest
      else String c (remove_char old rest)
  end.

(** The double-quote character, code 34. *)
Definition quote : ascii := ascii_of_nat 34.

(** [s.replace(quote, empty)]: every double-quote character is removed. *)
Definition remove_quotes (s : string) : string := remove_char quote s.

(** [s[1:]] *)
Definition drop_first (s : string) : string :=
  match s with
  | EmptyString => EmptyString
  | String _ rest => rest
  end.

(** [bool(s)] *)
Definition nonempty (s : string) : bool :=
  match s with
  | EmptyString => false
  | String _ _ => true
  end.

(** [c.isspace()] on the ASCII range: TAB, LF, VT, FF, CR, FS, GS, RS, US
    and the space. *)
Definition is_space (c : ascii) : bool :=
  let n := nat_of_ascii c in
  ((9 <=? n) && (n <=? 13) || (28 <=? n) && (n <=? 32))%nat.

Fixpoint lstrip (s : string) : string :=
  match s with
  | EmptyString => EmptyString
  | String c rest => if is_space c then lstrip rest else s
  end.

Fixpoint rstrip (s : string) : string :=
  match s with
  | EmptyString => EmptyString
  | String c rest =>
      match rstrip rest with
      | EmptyString => if is_space c then EmptyString else String c EmptyString
      | kept => String c kept
      end
  end.

(** [s.strip()] *)
Definition strip (s : string) : string := rstrip (lstrip s).

(** [s.split(sep)] for a non-empty [sep]: the separators are found from
    left to right and do not overlap.  [skip] counts the characters of a
    separator already recognised that are still to be passed over, [cur] is
    the part being read. *)
Fixpoint split_go (sep : string) (skip : nat) (cur : string) (s : string)
  : list string :=
  match s with
  | EmptyString => [cur]
  | String c rest =>
      match skip with
      | S k => split_go sep k cur rest
      | O =>
          if prefix sep s
          then cur :: split_go sep (String.length sep - 1) EmptyString rest
          else split_go sep 0 (cur ++ String c EmptyString) rest
      end
  end.

Definition split (sep s : string) : list string :=
  split_go sep 0 EmptyString s.

(** [parts[-1]] of a split result (never empty) *)
Definition last_part (parts : list string) : string :=
  List.last parts EmptyString.

(** [sep.join(parts)] *)
Fixpoint join (sep : string) (parts : list string) : string :=
  match parts with
  | [] => EmptyString
  | [p] => p
  | p :: rest => p ++ sep ++ join sep rest
  end.

(** [enumerate(xs)], counting from [start] *)
Fixpoint enumerate_from {A : Type} (start : Z) (xs : list A)
  : list (Z * A) :=
  match xs with
  | [] => []
  | x :: rest => (start, x) :: enumerate_from (start + 1) rest
  end.

Definition enumerate {A : Type} (xs : list A) : list (Z * A) :=
  enumerate_from 0 xs.

(** [str(n)] for an [int] *)
Definition str_of_int (n : Z) : string :=
  NilZero.string_of_int (Z.to_int n).

Definition digit_value (c : ascii) : option Z :=
  let n := nat_of_ascii c in
  if ((48 <=? n) && (n <=? 57))%nat then Some (Z.of_nat (n - 48)) else None.

(** The digits of an integer literal: decimal digits, with single
    underscores allowed between two digits. *)
Fixpoint int_digits (acc : Z) (after_digit : bool) (s : string)
  : option Z :=
  match s with
  | EmptyString => if after_digit then Some acc else None
  | String c rest =>
      match digit_value c with
      | Some d => int_digits (10 * acc + d) true rest
      | None =>
          if Ascii.eqb c "_"%char && after_digit
          then int_digits acc false rest
          else None
      end
  end.

(** [int(s)]: [None] stands for [ValueError]. *)
Definition int_of_str (s : string) : option Z :=
  match strip s with
  | String "+"%char digits => int_digits 0 false digits
  | String "-"%char digits => option_map Z.opp (int_digits 0 false digits)
  | digits => int_digits 0 false digits
  end.

End PyStr.

(** ** Errors, outcomes and the record of file accesses *)

(** The exceptions the module meets.  [OSError] stands for an operating-system
    failure that is neither of its two subclasses listed before it.
    [CodeQLError] carries its message and the exception it was raised from. *)
Inductive py_error : Type :=
| FileNotFoundError
| PermissionError
| OSError
| ValueError
| KeyError (key : string)
| CodeQLError (message : string) (cause : py_error).

(** [isinstance(e, OSError)]: what the clause
    [except (FileNotFoundError, PermissionError, OSError)] catches. *)
Definition is_os_error (e : py_error) : bool :=
  match e with
  | FileNotFoundError | PermissionError | OSError => true
  | _ => false
  end.

Inductive outcome (A : Type) : Type :=
| Return (a : A)
| Raise (e : py_error).
Arguments Return {A} a.
Arguments Raise {A} e.

(** A file as the text layer shows it: [file_rows] are the lines that
    successive [readline()] calls give before the empty string of the end of
    file (each one non-empty, terminator included); [file_failure] is the
    exception that [open()] or the [readline()] after the last of these lines
    raises, if any.  A file that cannot be opened has no rows and a failure. *)
Record file : Type := mk_file {
  file_rows : list string;
  file_failure : option py_error
}.

Inductive event : Type :=
| Open (path : string).

(** A call: the files it opened, in order, and how it ended. *)
Definition io (A : Type) : Type := (list event * outcome A)%type.

Definition ret {A : Type} (a : A) : io A := ([], Return a).
Definition raise {A : Type} (e : py_error) : io A := ([], Raise e).
Definition open_file (path : string) : io unit := ([Open path], Return tt).

Definition bind {A B : Type} (m : io A) (k : A -> io B) : io B :=
  match m with
  | (log, Return a) => let (log', r) := k a in ((log ++ log')%list, r)
  | (log, Raise e) => (log, Raise e)
  end.

Definition io_log {A : Type} (m : io A) : list event := fst m.
Definition io_result {A : Type} (m : io A) : outcome A := snd m.

(** The number of times a call opened a file: its passes over the table. *)
Definition passes {A : Type} (m : io A) : nat := List.length (io_log m).

Notation "x <- m ;; k" := (bind m (fun x => k))
  (at level 61, m at next level, right associativity).

(** One turn of a loop body: go on with the next row, or leave the function
    (by [return] or by an exception). *)
Inductive step (A : Type) : Type :=
| Continue
| Leave (r : outcome A).
Arguments Continue {A}.
Arguments Leave {A} r.

Notation "'let?' x ':=' e 'in' k" :=
  (match e with
   | Return x => k
   | Raise err => Leave (Raise err)
   end)
  (at level 10, x name, e at level 100, k at level 200).

Fixpoint for_rows {A : Type} (body : string -> step A) (rows : list string)
  : step A :=
  match rows with
  | [] => Continue
  | row :: rest =>
      match body row with
      | Continue => for_rows body rest
      | Leave r => Leave r
      end
  end.

(** ** Row dictionaries *)

Definition dict : Type := list (string * string).

Fixpoint lookup (d : dict) (k : string) : option string :=
  match d with
  | [] => None
  | (k', v) :: rest => if String.eqb k' k then Some v else lookup rest k
  end.

(** [d[k]] *)
Definition getitem (d : dict) (k : string) : outcome string :=
  match lookup d k with
  | Some v => Return v
  | None => Raise (KeyError k)
  end.

(** [bool(d)] for [Optional[Dict]]: [None] and the empty dictionary are
    false. *)
Definition truthy (d : option dict) : bool :=
  match d with
  | Some (_ :: _) => true
  | _ => false
  end.

(** [Union[str, Dict[str, str]]]: what a resolver returns. *)
Inductive found : Type :=
| Record (d : dict)
| Message (text : string).

(** Modelled from the spec: [parse_csv_row] of [src/utils/csv_parser.py],
    which is not among the sources.  The spec says it turns one raw line into
    a fixed ordered field list given named keys, or yields an absent result
    for a malformed row.  This instance takes the line without its
    surrounding whitespace, cuts it at every comma and binds the keys to the
    fields in order; a line with another number of fields is malformed.  The
    resolvers take the parser as a parameter: this instance only serves the
    concrete tables below. *)
Definition parse_csv_row_model (row : string) (keys : list string)
  : option dict :=
  let fields := PyStr.split "," (PyStr.strip row) in
  if Nat.eqb (List.length fields) (List.length keys)
  then Some (List.combine keys fields)
  else None.

(** Modelled from the spec: [Path(a) / b] rendered as text, for the concrete
    tables below. *)
Definition path_join_model (a b : string) : string := a ++ "/" ++ b.

(** ** The class [CodeQLDBLookup] *)

Section CodeQLDBLookup.

(** [parse_csv_row] of [src/utils/csv_parser.py] (not among the sources). *)
Variable parse_csv_row : string -> list string -> option dict.

(** The files of the machine, by path. *)
Variable fs : string -> file.

(** [str(Path(a) / b)] *)
Variable path_join : string -> string -> string.

(** [read_file_lines_from_zip(zip_path, entry)] of
    [src/utils/common_functions.py] (not among the sources): the text of an
    archive entry. *)
Variable read_file_lines_from_zip : string -> string -> outcome string.

Definition _convert_csv_file_error
  (error : py_error) (file_path file_type_name : string) : py_error :=
  let file_path_str := file_path in
  match error with
  | FileNotFoundError =>
      CodeQLError (file_type_name ++ " not found: " ++ file_path_str) error
  | PermissionError =>
      CodeQLError ("Permission denied reading " ++ file_type_name ++ ": "
                   ++ file_path_str) error
  | OSError =>
      CodeQLError ("OS error while reading " ++ file_type_name ++ ": "
                   ++ file_path_str) error
  | _ =>
      CodeQLError ("Error reading " ++ file_type_name ++ ": "
                   ++ file_path_str) error
  end.

(** What the [try] block around the reading of [file_path] ends with once
    its rows are used up: nothing at the end of the file, the converted
    error for a failure the [except] clause catches, the failure itself
    otherwise. *)
Definition reading_ends (file_path file_type_name : string)
  : option py_error :=
  match file_failure (fs file_path) with
  | None => None
  | Some e =>
      if is_os_error e
      then Some (_convert_csv_file_error e file_path file_type_name)
      else Some e
  end.

(** The generator [_iter_csv_lines]: the lines it yields and how it ends. *)
Definition _iter_csv_lines (file_path file_type_name : string)
  : list string * option py_error :=
  (file_rows (fs file_path), reading_ends file_path file_type_name).

(** [for line in self._iter_csv_lines(file_path, file_type_name): body]
    followed by the statements [after] the loop. *)
Definition for_csv_lines {A : Type} (file_path file_type_name : string)
  (body : string -> step A) (after : io A) : io A :=
  let '(lines, ending) := _iter_csv_lines file_path file_type_name in
  _ <- open_file file_path ;;
  match for_rows body lines with
  | Leave r => ([], r)
  | Continue =>
      match ending with
      | Some e => raise e
      | None => after
      end
  end.

Definition function_keys : list string :=
  ["function_name"; "file"; "start_line"; "function_id"; "end_line";
   "caller_id"].

(** *** get_function_by_line *)

Definition get_function_by_line_body (file : string) (line : Z)
  (function : string) : step (option dict) :=
  if PyStr.contains file function then
    let row_dict := parse_csv_row function function_keys in
    match row_dict with
    | Some d =>
        if truthy row_dict then
          let? start_line := getitem d "start_line" in
          if PyStr.nonempty start_line then
            let? end_line := getitem d "end_line" in
            if PyStr.nonempty end_line then
              match PyStr.int_of_str start_line with
              | None => Leave (Raise ValueError)
              | Some start =>
                  match PyStr.int_of_str end_line with
                  | None => Leave (Raise ValueError)
                  | Some end_ =>
                      if ((start <=? line) && (line <=? end_))%Z
                      then Leave (Return (Some d))
                      else Continue
                  end
              end
            else Continue
          else Continue
        else Continue
    | None => Continue
    end
  else Continue.

Definition get_function_by_line (function_tree_file file : string)
  (line : Z) : io (option dict) :=
  for_csv_lines function_tree_file "Function tree file"
    (get_function_by_line_body file line)
    (ret None).

(** *** get_function_by_name *)

Definition function_not_found (function_name : string) : string :=
  "Function '" ++ function_name ++ "' not found. Make sure you're using "
  ++ "the correct tool and args.".

Definition get_function_by_name_body (function_name_only : string)
  (less_strict : bool) (current_function : dict) (row : string)
  : step (found * option dict) :=
  let? function_id := getitem current_function "function_id" in
  if PyStr.contains function_id row then
    let row_dict := parse_csv_row row function_keys in
    match row_dict with
    | Some d =>
        if negb (truthy row_dict) then Continue
        else
          let? name := getitem d "function_name" in
          let candidate_name := PyStr.remove_quotes name in
          if String.eqb candidate_name function_name_only
             || (less_strict
                 && PyStr.contains function_name_only candidate_name)
          then Leave (Return (Record d, Some current_function))
          else Continue
    | None => Continue
    end
  else Continue.

(** The loop [for current_function in all_function], which opens and reads
    the file once for every known function, followed by [after]. *)
Fixpoint get_function_by_name_loop (function_tree_file : string)
  (function_name_only : string) (less_strict : bool)
  (all_function : list dict) (after : io (found * option dict))
  : io (found * option dict) :=
  match all_function with
  | [] => after
  | current_function :: rest =>
      _ <- open_file function_tree_file ;;
      match for_rows
              (get_function_by_name_body function_name_only less_strict
                 current_function)
              (file_rows (fs function_tree_file)) with
      | Leave r => ([], r)
      | Continue =>
          match reading_ends function_tree_file "Function tree file" with
          | Some e => raise e
          | None =>
              get_function_by_name_loop function_tree_file
                function_name_only less_strict rest after
          end
      end
  end.

(** The recursive call always passes [True] for [less_strict], and a call
    with [True] makes no recursive call, so the recursion is written out:
    the strict loop is followed by the loop of the recursive call
    (see [get_function_by_name_eq]). *)
Definition get_function_by_name (function_tree_file : string)
  (function_name : string) (all_function : list dict) (less_strict : bool)
  : io (found * option dict) :=
  let function_name_only :=
    PyStr.last_part (PyStr.split "::" function_name) in
  let err := function_not_found function_name in
  let fallback :=
    get_function_by_name_loop function_tree_file function_name_only true
      all_function (ret (Message err, None)) in
  if negb less_strict then
    get_function_by_name_loop function_tree_file function_name_only false
      all_function fallback
  else fallback.

(** *** get_macro *)

Definition macro_keys : list string := ["macro_name"; "body"].

Definition macro_not_found (macro_name : string) : string :=
  "Macro '" ++ macro_name ++ "' not found. Make sure you're using the "
  ++ "correct tool with correct args.".

Definition get_macro_body (macro_name : string) (less_strict : bool)
  (macro : string) : step found :=
  if PyStr.contains macro_name macro then
    let row_dict := parse_csv_row macro macro_keys in
    match row_dict with
    | Some d =>
        if negb (truthy row_dict) then Continue
        else
          let? name := getitem d "macro_name" in
          let actual_name := PyStr.remove_quotes name in
          if String.eqb actual_name macro_name
             || (less_strict && PyStr.contains macro_name actual_name)
          then Leave (Return (Record d))
          else Continue
    | None => Continue
    end
  else Continue.

Definition get_macro (curr_db macro_name : string) (less_strict : bool)
  : io found :=
  let macro_file := path_join curr_db "Macros.csv" in
  let fallback :=
    for_csv_lines macro_file "Macros CSV" (get_macro_body macro_name true)
      (ret (Message (macro_not_found macro_name))) in
  if negb less_strict then
    for_csv_lines macro_file "Macros CSV" (get_macro_body macro_name false)
      fallback
  else fallback.

(** *** get_global_var *)

Definition global_var_keys : list string :=
  ["global_var_name"; "file"; "start_line"; "end_line"].

Definition global_var_not_found (global_var_name : string) : string :=
  "Global var '" ++ global_var_name ++ "' not found. "
  ++ "Could it be a macro or should you use another tool?".

Definition get_global_var_body (var_name_only : string)
  (less_strict : bool) (line : string) : step found :=
  if PyStr.contains var_name_only line then
    let data_dict := parse_csv_row line global_var_keys in
    match data_dict with
    | Some d =>
        if negb (truthy data_dict) then Continue
        else
          let? name := getitem d "global_var_name" in
          let actual_name := PyStr.remove_quotes name in
          if String.eqb actual_name var_name_only
             || (less_strict && PyStr.contains var_name_only actual_name)
          then Leave (Return (Record d))
          else Continue
    | None => Continue
    end
  else Continue.

Definition get_global_var (curr_db global_var_name : string)
  (less_strict : bool) : io found :=
  let global_var_file := path_join curr_db "GlobalVars.csv" in
  let var_name_only :=
    PyStr.last_part (PyStr.split "::" global_var_name) in
  let fallback :=
    for_csv_lines global_var_file "GlobalVars CSV"
      (get_global_var_body var_name_only true)
      (ret (Message (global_var_not_found global_var_name))) in
  if negb less_strict then
    for_csv_lines global_var_file "GlobalVars CSV"
      (get_global_var_body var_name_only false) fallback
  else fallback.

(** *** get_class *)

Definition class_keys : list string :=
  ["type"; "class_name"; "file"; "start_line"; "end_line"; "simple_name"].

Definition class_not_found (class_name : string) : string :=
  "Class '" ++ class_name ++ "' not found. Could it be a Namespace?".

Definition get_class_body (class_name_only : string) (less_strict : bool)
  (row : string) : step found :=
  if PyStr.contains class_name_only row then
    let row_dict := parse_csv_row row class_keys in
    match row_dict with
    | Some d =>
        if negb (truthy row_dict) then Continue
        else
          let? cname := getitem d "class_name" in
          let actual_class := PyStr.remove_quotes cname in
          let? sname := getitem d "simple_name" in
          let simple_class := PyStr.remove_quotes sname in
          if String.eqb actual_class class_name_only
             || String.eqb simple_class class_name_only
             || (less_strict
                 && PyStr.contains class_name_only actual_class)
             || (less_strict
                 && PyStr.contains class_name_only simple_class)
          then Leave (Return (Record d))
          else Continue
    | None => Continue
    end
  else Continue.

Definition get_class (curr_db class_name : string) (less_strict : bool)
  : io found :=
  let classes_file := path_join curr_db "Classes.csv" in
  let class_name_only := PyStr.last_part (PyStr.split "::" class_name) in
  let fallback :=
    for_csv_lines classes_file "Classes CSV"
      (get_class_body class_name_only true)
      (ret (Message (class_not_found class_name))) in
  if negb less_strict then
    for_csv_lines classes_file "Classes CSV"
      (get_class_body class_name_only false) fallback
  else fallback.

(** *** get_caller_function *)

Definition caller_not_found : string :=
  "Caller function was not found. "
  ++ "Make sure you are using the correct tool with the correct args.".

Definition get_caller_function_body (caller_id : string) (line : string)
  : step found :=
  if PyStr.contains caller_id line then
    let data_dict := parse_csv_row line function_keys in
    match data_dict with
    | Some d =>
        if negb (truthy data_dict) then Continue
        else
          let? function_id := getitem d "function_id" in
          if String.eqb (PyStr.strip (PyStr.remove_quotes function_id))
               caller_id
          then Leave (Return (Record d))
          else Continue
    | None => Continue
    end
  else Continue.

(** The statements after the loop of [get_caller_function]. *)
Definition get_caller_function_fallback (function_tree_file : string)
  (caller_id : string) : io found :=
  let maybe_line := PyStr.split ":" caller_id in
  match maybe_line with
  | [file_part; line_part] =>
      match PyStr.int_of_str line_part with
      | None => raise ValueError
      | Some line =>
          function <- get_function_by_line function_tree_file
                        (PyStr.drop_first file_part) line ;;
          if truthy function then
            match function with
            | Some d => ret (Record d)
            | None => ret (Message caller_not_found)
            end
          else ret (Message caller_not_found)
      end
  | _ => ret (Message caller_not_found)
  end.

Definition get_caller_function (function_tree_file : string)
  (current_function : dict) : io found :=
  match getitem current_function "caller_id" with
  | Raise e => raise e
  | Return raw =>
      let caller_id := PyStr.strip (PyStr.remove_quotes raw) in
      for_csv_lines function_tree_file "Function tree file"
        (get_caller_function_body caller_id)
        (get_caller_function_fallback function_tree_file caller_id)
  end.

(** *** extract_function_lines_from_db *)

Definition extract_function_lines_from_db (db_path : string)
  (current_function : dict)
  : outcome (string * Z * Z * list string) :=
  let src_zip := path_join db_path "src.zip" in
  match getitem current_function "file" with
  | Raise e => Raise e
  | Return file =>
      let file_path := PyStr.drop_first (PyStr.remove_quotes file) in
      match read_file_lines_from_zip src_zip file_path with
      | Raise e => Raise e
      | Return code_file =>
          let lines := PyStr.split (String (ascii_of_nat 10) "") code_file in
          match getitem current_function "start_line" with
          | Raise e => Raise e
          | Return s =>
              match PyStr.int_of_str s with
              | None => Raise ValueError
              | Some start_line =>
                  match getitem current_function "end_line" with
                  | Raise e => Raise e
                  | Return t =>
                      match PyStr.int_of_str t with
                      | None => Raise ValueError
                      | Some end_line =>
                          Return (file_path, start_line, end_line, lines)
                      end
                  end
              end
          end
      end
  end.

End CodeQLDBLookup.

(** *** format_numbered_snippet (a static method) *)

Definition newline : string := String (ascii_of_nat 10) "".

Definition format_numbered_snippet (file_path : string) (start_line : Z)
  (snippet_lines : list string) : string :=
  let snippet :=
    PyStr.join newline
      (List.map
         (fun '(i, text) =>
            (PyStr.str_of_int (start_line + i) ++ ": " ++ text)%string)
         (PyStr.enumerate snippet_lines)) in
  "file: " ++ file_path ++ newline ++ snippet.

(** The shape that [get_macro], [get_global_var] and [get_class] share: a
    loop with the strict body, then, in the recursive call, the loop with the
    fallback body, then the not-found text. *)
Definition two_phase (fs : string -> file) (path label : string)
  (body : bool -> string -> step found) (text : string) (less_strict : bool)
  : io found :=
  let fallback :=
    for_csv_lines fs path label (body true) (ret (Message text)) in
  if negb less_strict then for_csv_lines fs path label (body false) fallback
  else fallback.

(** What the strict-then-fallback protocol promises for a resolver [call]
    (a function of [less_strict]) over the [rows] of the table at [path],
    [hit] being the predicate of a phase: at most two passes; the first
    strict hit in file order is returned after one pass; a second pass is
    made only when no row is a strict hit. *)
Definition strict_then_fallback (call : bool -> io found) (path : string)
  (rows : list string) (hit : bool -> string -> dict -> Prop) : Prop :=
  (forall less_strict, (passes (call less_strict) <= 2)%nat)
  /\ (forall pre row post d,
         rows = (pre ++ row :: post)%list ->
         hit false row d ->
         (forall p d', In p pre -> ~ hit false p d') ->
         call false = ([Open path], Return (Record d)))
  /\ (passes (call false) = 2%nat ->
      forall row d, In row rows -> ~ hit false row d).

(** What the fallback phase promises for a resolver [call] over the [rows]
    of the table at [path]: called with the fallback enabled it makes one
    pass and returns the first row in file order that is a hit of the
    fallback; called with the fallback disabled it returns that row after a
    second pass, when no row is a strict hit. *)
Definition fallback_first (call : bool -> io found) (path : string)
  (rows : list string) (hit : bool -> string -> dict -> Prop) : Prop :=
  forall pre row post d,
    rows = (pre ++ row :: post)%list ->
    hit true row d ->
    (forall p d', In p pre -> ~ hit true p d') ->
    call true = ([Open path], Return (Record d))
    /\ ((forall r d', In r rows -> ~ hit false r d') ->
        call false = ([Open path; Open path], Return (Record d))).

(** ** Specification predicates *)

Section Predicates.

Variable parse_csv_row : string -> list string -> option dict.

(** A row of the function table covers [line] of [file]: its raw text
    contains [file] and its parsed line range contains [line]. *)
Definition covers (file : string) (line : Z) (row : string) (d : dict)
  : Prop :=
  PyStr.contains file row = true
  /\ parse_csv_row row function_keys = Some d
  /\ exists s e a b,
       lookup d "start_line" = Some s
       /\ lookup d "end_line" = Some e
       /\ PyStr.int_of_str s = Some a
       /\ PyStr.int_of_str e = Some b
       /\ (a <= line <= b)%Z.

Definition int_or_empty (v : option string) : bool :=
  match v with
  | Some s =>
      negb (PyStr.nonempty s)
      || match PyStr.int_of_str s with Some _ => true | None => false end
  | None => false
  end.

(** A row of a function table carries line fields that are integers (or
    empty), when it parses at all. *)
Definition numeric_lines (row : string) : bool :=
  match parse_csv_row row function_keys with
  | None => true
  | Some [] => true
  | Some d =>
      int_or_empty (lookup d "start_line")
      && int_or_empty (lookup d "end_line")
  end.

(** The rows of a table that mention [file] have numeric line fields. *)
Definition function_table (file : string) (rows : list string) : bool :=
  forallb (fun row => implb (PyStr.contains file row) (numeric_lines row))
    rows.

(** The stored name, without its quote characters, is the term; in the
    fallback phase it may also contain the term. *)
Definition name_matches (less_strict : bool) (term stored : string) : Prop :=
  PyStr.remove_quotes stored = term
  \/ (less_strict = true
      /\ PyStr.contains term (PyStr.remove_quotes stored) = true).

(** A row of a name table is a hit for [term]: its raw text contains the
    term, it parses, and the field [name_key] matches. *)
Definition name_hit (keys : list string) (name_key : string)
  (less_strict : bool) (term row : string) (d : dict) : Prop :=
  PyStr.contains term row = true
  /\ parse_csv_row row keys = Some d
  /\ exists v, lookup d name_key = Some v /\ name_matches less_strict term v.

Definition macro_hit : bool -> string -> string -> dict -> Prop :=
  name_hit macro_keys "macro_name".

Definition global_var_hit : bool -> string -> string -> dict -> Prop :=
  name_hit global_var_keys "global_var_name".

(** A class row is a hit on its qualified name or on its simple name. *)
Definition class_hit (less_strict : bool) (term row : string) (d : dict)
  : Prop :=
  PyStr.contains term row = true
  /\ parse_csv_row row class_keys = Some d
  /\ exists c s,
       lookup d "class_name" = Some c
       /\ lookup d "simple_name" = Some s
       /\ (name_matches less_strict term c \/ name_matches less_strict term s).

(** A row of the function table is a hit for [term] through the known
    function [known]: its raw text contains the id of [known], it parses,
    and its name matches. *)
Definition function_hit (less_strict : bool) (term : string) (known : dict)
  (row : string) (d : dict) : Prop :=
  (exists id, lookup known "function_id" = Some id
              /\ PyStr.contains id row = true)
  /\ parse_csv_row row function_keys = Some d
  /\ exists v,
       lookup d "function_name" = Some v /\ name_matches less_strict term v.

(** A row of the function table is the caller's: its raw text contains
    [caller_id], it parses, and its id without quotes and surrounding
    whitespace is [caller_id]. *)
Definition caller_hit (caller_id row : string) (d : dict) : Prop :=
  PyStr.contains caller_id row = true
  /\ parse_csv_row row function_keys = Some d
  /\ exists v,
       lookup d "function_id" = Some v
       /\ PyStr.strip (PyStr.remove_quotes v) = caller_id.

(** The parser binds every key it is given (a populated field mapping). *)
Definition populates : Prop :=
  forall row keys d,
    parse_csv_row row keys = Some d ->
    forall k, In k keys -> exists v, lookup d k = Some v.

End Predicates.

(** ** Concrete tables *)

Definition quoted (s : string) : string :=
  String PyStr.quote (s ++ String PyStr.quote "").

Definition csv_line (fields : list string) : string :=
  PyStr.join "," fields ++ newline.

(** A machine with one readable file. *)
Definition only_file (path : string) (rows : list string) : string -> file :=
  fun p =>
    if String.eqb p path then mk_file rows None
    else mk_file [] (Some FileNotFoundError).

(** A machine without any file. *)
Definition no_files : string -> file :=
  fun _ => mk_file [] (Some FileNotFoundError).

Definition net_row_1 : string :=
  csv_line [quoted "recv_all"; quoted "/net.c"; "1"; quoted "f1"; "10";
            quoted "f0"].

Definition net_row_2 : string :=
  csv_line [quoted "send_all"; quoted "/net.c"; "5"; quoted "f2"; "15";
            quoted "f0"].

Definition net_dict_1 : dict :=
  [("function_name", quoted "recv_all"); ("file", quoted "/net.c");
   ("start_line", "1"); ("function_id", quoted "f1"); ("end_line", "10");
   ("caller_id", quoted "f0")].

Definition macros_table : list string :=
  [csv_line [quoted "BUF_SIZE"; quoted "4096"];
   csv_line [quoted "MIN_LEN"; quoted "8"]].

(** An archive with the one entry [src/foo.c], of three lines. *)
Definition foo_text : string :=
  "int f(void)" ++ newline ++ "{ return 1; }" ++ newline.

Definition foo_archive (zip_path entry : string) : outcome string :=
  if String.eqb zip_path "db/src.zip" && String.eqb entry "src/foo.c"
  then Return foo_text
  else Raise (KeyError entry).

Definition foo_function : dict :=
  [("function_name", quoted "f"); ("file", quoted "/src/foo.c");
   ("start_line", "1"); ("function_id", quoted "f1"); ("end_line", "2");
   ("caller_id", quoted "f0")].

(** A macro table in which the first row contains the term [MIN_LEN] only
    as a part of its name and the second row carries it exactly. *)
Definition min_len_table : list string :=
  [csv_line [quoted "MIN_LEN_MAX"; quoted "64"];
   csv_line [quoted "MIN_LEN"; quoted "8"]].

Definition min_len_dict : dict :=
  [("macro_name", quoted "MIN_LEN"); ("body", quoted "8")].

(** A macro table with the one macro [bar]. *)
Definition bar_table : list string := [csv_line [quoted "bar"; quoted "1"]].

Definition bar_dict : dict :=
  [("macro_name", quoted "bar"); ("body", quoted "1")].

(** A global-variable table with the one variable [bar]. *)
Definition bar_globals : list string :=
  [csv_line [quoted "bar"; quoted "/g.c"; "3"; "3"]].

Definition net_dict_2 : dict :=
  [("function_name", quoted "send_all"); ("file", quoted "/net.c");
   ("start_line", "5"); ("function_id", quoted "f2"); ("end_line", "15");
   ("caller_id", quoted "f0")].

(** A function table whose one row lies in a file named [xsrc/foo.c]: the
    text [src/foo.c] occurs in it, the text [/src/foo.c] does not. *)
Definition xsrc_row : string :=
  csv_line [quoted "g"; quoted "xsrc/foo.c"; "40"; quoted "g1"; "50";
            quoted "g0"].

Definition xsrc_dict : dict :=
  [("function_name", quoted "g"); ("file", quoted "xsrc/foo.c");
   ("start_line", "40"); ("function_id", quoted "g1"); ("end_line", "50");
   ("caller_id", quoted "g0")].

(** A function whose caller is given as a file and a line. *)
Definition called_from_foo : dict :=
  [("function_name", quoted "h"); ("file", quoted "/src/bar.c");
   ("start_line", "7"); ("function_id", quoted "h1"); ("end_line", "9");
   ("caller_id", quoted "/src/foo.c" ++ ":42")].

(** The machine whose function table is the one row of [xsrc/foo.c]. *)
Definition xsrc_machine : string -> file :=
  only_file "FunctionTree.csv" [xsrc_row].

(** The machine whose function table is the two rows of [net.c]. *)
Definition net_machine : string -> file :=
  only_file "FunctionTree.csv" [net_row_1; net_row_2].

(** The occurrences of the character [c] in a text ([s.count(c)]). *)
Fixpoint count_char (c : ascii) (s : string) : nat :=
  match s with
  | EmptyString => 0
  | String x rest => (if Ascii.eqb c x then 1 else 0) + count_char c rest
  end.

(** A line that is no row of a table. *)
Definition junk_row : string := "garbage" ++ newline.

(** A row of [net.c] whose [start_line] field is empty. *)
Definition net_row_unplaced : string :=
  csv_line [quoted "poll_all"; quoted "/net.c"; ""; quoted "f3"; "20";
            quoted "f0"].

(** A row of [net.c] whose [start_line] field is no number. *)
Definition net_row_broken : string :=
  csv_line [quoted "stop_all"; quoted "/net.c"; "n/a"; quoted "f4"; "20";
            quoted "f0"].

(** A macro table in which [MIN_LEN] occurs only inside longer names. *)
Definition longer_names_table : list string :=
  [csv_line [quoted "BUF_SIZE"; quoted "4096"];
   csv_line [quoted "MIN_LEN_MAX"; quoted "64"];
   csv_line [quoted "MIN_LEN_MIN"; quoted "2"]].

Definition min_len_max_dict : dict :=
  [("macro_name", quoted "MIN_LEN_MAX"); ("body", quoted "64")].

(** A function whose caller id is a path with a drive letter and a line. *)
Definition called_from_drive : dict :=
  [("function_name", quoted "h"); ("file", quoted "/src/bar.c");
   ("start_line", "7"); ("function_id", quoted "h1"); ("end_line", "9");
   ("caller_id", quoted "C:/src/foo.c" ++ ":42")].

(** A function whose caller id has a colon and no line number after it. *)
Definition called_from_nowhere : dict :=
  [("function_name", quoted "h"); ("file", quoted "/src/bar.c");
   ("start_line", "7"); ("function_id", quoted "h1"); ("end_line", "9");
   ("caller_id", quoted "/src/foo.c" ++ ":?")].

(** A function whose caller id is the id of the row of [xsrc/foo.c]. *)
Definition called_from_g1 : dict :=
  [("function_name", quoted "h"); ("file", quoted "/src/bar.c");
   ("start_line", "7"); ("function_id", quoted "h1"); ("end_line", "9");
   ("caller_id", " " ++ quoted "g1")].

(** * Running CodeQL ([src/codeql/run_codeql_queries.py])

    The module starts the CodeQL executable and looks at the file system.
    Both belong to a machine whose state is a [world]: starting a process
    gives a new world, a look at the file system reads the current one.
    A call leaves the commands it ran and the messages it logged, in
    order. *)

Module RunQueries.

(** The exceptions of the module.  [OSError] stands for an operating-system
    failure that is no [FileNotFoundError], [OtherException] for any
    exception outside these classes. *)
Inductive run_error : Type :=
| FileNotFoundError
| OSError
| CalledProcessError (returncode : Z)
| OtherException
| CodeQLConfigError (message : string) (cause : run_error)
| CodeQLExecutionError (message : string) (cause : run_error).

(** [isinstance(e, OSError)] *)
Definition is_os_error (e : run_error) : bool :=
  match e with
  | FileNotFoundError | OSError => true
  | _ => false
  end.

Inductive result (A : Type) : Type :=
| Done (a : A)
| Failed (e : run_error).
Arguments Done {A} a.
Arguments Failed {A} e.

Inductive log_level : Type := DEBUG | INFO | WARNING.

(** The arguments handed to the logger with a template. *)
Inductive log_arg : Type :=
| Str (s : string)
| Int (n : Z)
| Strs (l : list string)
| Exc (e : run_error).

Inductive event : Type :=
| Ran (argv : list string)
| Logged (level : log_level) (template : string) (args : list log_arg).

(** The commands among the events. *)
Fixpoint commands (log : list event) : list (list string) :=
  match log with
  | [] => []
  | Ran argv :: rest => argv :: commands rest
  | Logged _ _ _ :: rest => commands rest
  end.

(** The template of the last message of a run, byte for byte as the source
    file holds it. *)
Definition done_template : string :=
  String (ascii_of_nat 195) (String (ascii_of_nat 162)
  (String (ascii_of_nat 197) (String (ascii_of_nat 147)
  (String (ascii_of_nat 226) (String (ascii_of_nat 128)
  (String (ascii_of_nat 166) " done!")))))).

Section Machine.

Variable world : Type.

(** [subprocess.run(argv, check=True, ...)]: the world after the attempt and
    the exception raised, if any. *)
Variable subprocess_run : list string -> world -> world * option run_error.

(** [Path(p).exists()], [Path(p).is_dir()], [Path(p).is_file()] *)
Variables path_exists is_dir is_file : string -> world -> bool.

(** [list(Path(p).iterdir())], the entries as text *)
Variable iterdir : string -> world -> result (list string).

(** What [Path(p).rglob("*")] yields, as text, in the world in which the
    traversal starts. *)
Variable rglob : string -> world -> list string.

(** [Path(p).suffix], [Path(p).stem], [s.lower()] *)
Variables suffix stem lower : string -> string.

(** [str(Path(a) / b)] *)
Variable path_join : string -> string -> string.

(** [get_all_dbs] of [src/utils/common_functions.py] (not among the
    sources). *)
Variable get_all_dbs : string -> world -> result (list string).

Definition cmd (A : Type) : Type :=
  world -> (list event * world * result A).

Definition ret {A : Type} (a : A) : cmd A := fun w => ([], w, Done a).

(** The three parts of what a call leaves. *)
Definition log_of {A : Type} (x : list event * world * result A)
  : list event := fst (fst x).
Definition world_of {A : Type} (x : list event * world * result A)
  : world := snd (fst x).
Definition result_of {A : Type} (x : list event * world * result A)
  : result A := snd x.

(** A call that started at [w] has run no command and left the world as it
    was. *)
Definition starts_nothing {A : Type} (x : list event * world * result A)
  (w : world) : Prop :=
  commands (log_of x) = [] /\ world_of x = w.

Definition bind {A B : Type} (m : cmd A) (k : A -> cmd B) : cmd B :=
  fun w =>
    match m w with
    | (log, w', Done a) =>
        match k a w' with
        | (log', w'', r) => ((log ++ log')%list, w'', r)
        end
    | (log, w', Failed e) => (log, w', Failed e)
    end.

Local Notation "m ;;; k" := (bind m (fun _ => k))
  (at level 61, right associativity).

Definition logger (level : log_level) (template : string)
  (args : list log_arg) : cmd unit :=
  fun w => ([Logged level template args], w, Done tt).

(** [subprocess.run(argv, ...)] inside [try], with the [except] clauses
    given as the function [handler] from the exception raised to the one
    that leaves the statement. *)
Definition try_run (argv : list string) (handler : run_error -> run_error)
  : cmd unit :=
  fun w =>
    match subprocess_run argv w with
    | (w', None) => ([Ran argv], w', Done tt)
    | (w', Some e) => ([Ran argv], w', Failed (handler e))
    end.

Definition executable_not_found (codeql_bin : string) : string :=
  "CodeQL executable not found: " ++ codeql_bin ++ ". "
  ++ "Please check your CODEQL_PATH configuration.".

Definition is_ql (file_path : string) (w : world) : bool :=
  is_file file_path w && String.eqb (lower (suffix file_path)) ".ql".

(** *** pre_compile_ql *)

Definition compile_argv (file_name : string) (threads : Z)
  (codeql_bin : string) : list string :=
  [codeql_bin; "query"; "compile"; file_name;
   "--threads=" ++ PyStr.str_of_int threads; "--precompile"].

Definition pre_compile_ql (file_name : string) (threads : Z)
  (codeql_bin : string) : cmd unit :=
  fun w =>
    let qlx_path := file_name ++ "x" in
    if negb (path_exists qlx_path w) then
      try_run (compile_argv file_name threads codeql_bin)
        (fun e =>
           match e with
           | FileNotFoundError =>
               CodeQLConfigError (executable_not_found codeql_bin) e
           | CalledProcessError returncode =>
               CodeQLExecutionError
                 ("Failed to compile query " ++ file_name
                  ++ ": CodeQL returned exit code "
                  ++ PyStr.str_of_int returncode) e
           | _ => e
           end) w
    else ret tt w.

(** *** compile_all_queries *)

Fixpoint compile_each (files : list string) (threads : Z)
  (codeql_bin : string) : cmd unit :=
  match files with
  | [] => ret tt
  | file_path :: rest =>
      fun w =>
        if is_ql file_path w
        then (pre_compile_ql file_path threads codeql_bin ;;;
              compile_each rest threads codeql_bin) w
        else compile_each rest threads codeql_bin w
  end.

Definition compile_all_queries (queries_folder : string) (threads : Z)
  (codeql_bin : string) : cmd unit :=
  fun w => compile_each (rglob queries_folder w) threads codeql_bin w.

(** *** run_one_query *)

Definition run_argv (query_file curr_db output_bqrs : string) (threads : Z)
  (codeql_bin : string) : list string :=
  [codeql_bin; "query"; "run"; query_file;
   "--database=" ++ curr_db;
   "--output=" ++ output_bqrs;
   "--threads=" ++ PyStr.str_of_int threads].

Definition decode_argv (output_bqrs output_csv codeql_bin : string)
  : list string :=
  [codeql_bin; "bqrs"; "decode"; output_bqrs;
   "--format=csv"; "--output=" ++ output_csv].

Definition run_one_query (query_file curr_db output_bqrs output_csv : string)
  (threads : Z) (codeql_bin : string) : cmd unit :=
  try_run (run_argv query_file curr_db output_bqrs threads codeql_bin)
    (fun e =>
       match e with
       | FileNotFoundError =>
           CodeQLConfigError (executable_not_found codeql_bin) e
       | CalledProcessError returncode =>
           CodeQLExecutionError
             ("Failed to run query " ++ query_file ++ " on database "
              ++ curr_db ++ ": "
              ++ "CodeQL returned exit code " ++ PyStr.str_of_int returncode)
             e
       | _ => e
       end) ;;;
  try_run (decode_argv output_bqrs output_csv codeql_bin)
    (fun e =>
       match e with
       | CalledProcessError returncode =>
           CodeQLExecutionError
             ("Failed to decode BQRS file " ++ output_bqrs ++ " to CSV: "
              ++ "CodeQL returned exit code " ++ PyStr.str_of_int returncode)
             e
       | _ => e
       end).

(** The two commands that [run_queries_on_db] runs for the query file [f]
    of the tools folder. *)
Definition tool_command (curr_db : string) (threads : Z)
  (codeql_bin : string) (f : string) (c : list string) : Prop :=
  c = run_argv f curr_db (path_join curr_db (stem f ++ ".bqrs")) threads
        codeql_bin
  \/ c = decode_argv (path_join curr_db (stem f ++ ".bqrs"))
           (path_join curr_db (stem f ++ ".csv")) codeql_bin.

(** *** run_queries_on_db *)

Fixpoint run_each_tool (files : list string) (curr_db : string)
  (threads : Z) (codeql_bin : string) : cmd unit :=
  match files with
  | [] => ret tt
  | file_path :: rest =>
      fun w =>
        if is_ql file_path w
        then
          (let file_stem := stem file_path in
           run_one_query file_path curr_db
             (path_join curr_db (file_stem ++ ".bqrs"))
             (path_join curr_db (file_stem ++ ".csv"))
             threads codeql_bin ;;;
           run_each_tool rest curr_db threads codeql_bin) w
        else run_each_tool rest curr_db threads codeql_bin w
  end.

Definition analyze_argv (curr_db queries_folder : string)
  (threads timeout : Z) (codeql_bin : string) : list string :=
  [codeql_bin; "database"; "analyze"; curr_db; queries_folder;
   "--timeout=" ++ PyStr.str_of_int timeout;
   "--format=csv";
   "--output=" ++ path_join curr_db "issues.csv";
   "--threads=" ++ PyStr.str_of_int threads].

Definition run_tools (curr_db tools_folder : string) (threads : Z)
  (codeql_bin : string) : cmd unit :=
  fun w =>
    if is_dir tools_folder w then
      match iterdir tools_folder w with
      | Done files => run_each_tool files curr_db threads codeql_bin w
      | Failed e => ([], w, Failed e)
      end
    else
      logger WARNING
        "Tools folder '%s' not found. Skipping individual queries."
        [Str tools_folder] w.

Definition run_analysis (curr_db queries_folder : string)
  (threads : Z) (codeql_bin : string) (timeout : Z) : cmd unit :=
  fun w =>
    if is_dir queries_folder w then
      try_run (analyze_argv curr_db queries_folder threads timeout codeql_bin)
        (fun e =>
           match e with
           | FileNotFoundError =>
               CodeQLConfigError (executable_not_found codeql_bin) e
           | CalledProcessError returncode =>
               CodeQLExecutionError
                 ("Failed to analyze database " ++ curr_db
                  ++ " with queries from " ++ queries_folder ++ ": "
                  ++ "CodeQL returned exit code "
                  ++ PyStr.str_of_int returncode) e
           | _ => e
           end) w
    else
      logger WARNING
        "Queries folder '%s' not found. Skipping database analysis."
        [Str queries_folder] w.

Definition run_queries_on_db (curr_db tools_folder queries_folder : string)
  (threads : Z) (codeql_bin : string) (timeout : Z) : cmd unit :=
  run_tools curr_db tools_folder threads codeql_bin ;;;
  run_analysis curr_db queries_folder threads codeql_bin timeout.

(** *** compile_and_run_codeql_queries *)

(** One turn of the loop over the databases. *)
Definition run_on_database (curr_db tools_folder queries_folder : string)
  (threads : Z) (codeql_bin : string) (timeout : Z) : cmd unit :=
  fun w =>
    let process : cmd unit :=
      fun w =>
        if negb (path_exists (path_join curr_db "FunctionTree.csv") w)
           || negb (path_exists (path_join curr_db "issues.csv") w)
        then
          (logger INFO "Processing DB: %s" [Str curr_db] ;;;
           run_queries_on_db curr_db tools_folder queries_folder threads
             codeql_bin timeout) w
        else
          logger INFO "Output files already exist for this DB, skipping..."
            [] w in
    if is_dir curr_db w then
      match iterdir curr_db w with
      | Done entries =>
          if Nat.eqb (List.length entries) 0
          then logger WARNING
                 "Database folder '%s' is empty. Skipping queries."
                 [Str curr_db] w
          else process w
      | Failed e =>
          if is_os_error e
          then logger WARNING
                 "Cannot access database folder '%s'. Skipping."
                 [Str curr_db] w
          else ([], w, Failed e)
      end
    else process w.

Fixpoint run_on_databases (dbs : list string)
  (tools_folder queries_folder : string) (threads : Z)
  (codeql_bin : string) (timeout : Z) : cmd unit :=
  match dbs with
  | [] => ret tt
  | curr_db :: rest =>
      run_on_database curr_db tools_folder queries_folder threads codeql_bin
        timeout ;;;
      run_on_databases rest tools_folder queries_folder threads codeql_bin
        timeout
  end.

Definition check_downloads : string :=
  "Make sure databases were downloaded and extracted successfully.".

(** The statements of [compile_and_run_codeql_queries] after the two
    compilations. *)
Definition run_on_folder (dbs_dir tools_folder queries_folder : string)
  (threads : Z) (codeql_bin : string) (timeout : Z) : cmd unit :=
  fun w =>
    if negb (path_exists dbs_dir w) then
      (logger WARNING
         "Database folder '%s' does not exist. No databases to process."
         [Str dbs_dir] ;;;
       logger WARNING check_downloads []) w
    else if negb (is_dir dbs_dir w) then
      logger WARNING
        "Database path '%s' is not a directory. No databases to process."
        [Str dbs_dir] w
    else
      match iterdir dbs_dir w with
      | Failed e =>
          if is_os_error e
          then logger WARNING
                 ("Cannot access database folder '%s': %s. "
                  ++ "No databases to process.")
                 [Str dbs_dir; Exc e] w
          else ([], w, Failed e)
      | Done contents =>
          if Nat.eqb (List.length contents) 0 then
            logger WARNING
              "Database folder '%s' is empty. No databases to process."
              [Str dbs_dir] w
          else
            (logger DEBUG "Found %d item(s) in database folder: %s"
               [Int (Z.of_nat (List.length contents)); Strs contents] ;;;
             fun w =>
               match get_all_dbs dbs_dir w with
               | Failed e => ([], w, Failed e)
               | Done actual_dbs =>
                   if Nat.eqb (List.length actual_dbs) 0 then
                     (logger WARNING
                        ("No valid databases found in '%s'. Expected "
                         ++ "structure: <dbs_folder>/<repo_name>/<db_name>"
                         ++ "/codeql-database.yml")
                        [Str dbs_dir] ;;;
                      logger WARNING check_downloads []) w
                   else
                     (run_on_databases actual_dbs tools_folder
                        queries_folder threads codeql_bin timeout ;;;
                      logger INFO done_template []) w
               end) w
      end.

Definition compile_and_run_codeql_queries (codeql_bin lang : string)
  (threads timeout : Z) (dbs_dir : string) : cmd unit :=
  let queries_subfolder := if String.eqb lang "c" then "cpp" else lang in
  let queries_folder :=
    path_join (path_join "data/queries" queries_subfolder) "issues" in
  let tools_folder :=
    path_join (path_join "data/queries" queries_subfolder) "tools" in
  compile_all_queries tools_folder threads codeql_bin ;;;
  compile_all_queries queries_folder threads codeql_bin ;;;
  run_on_folder dbs_dir tools_folder queries_folder threads codeql_bin
    timeout.

End Machine.

Arguments log_of {world A} x.
Arguments world_of {world A} x.
Arguments result_of {world A} x.
Arguments starts_nothing {world A} x w.

End RunQueries.

(** A machine for the examples: its world is the list of the commands run
    so far, latest first; every command succeeds; every path exists, as a
    file and as a directory with one entry; every file is a query. *)
Definition history : Type := list (list string).

Definition always_succeeds (argv : list string) (w : history)
  : history * option RunQueries.run_error := (argv :: w, None).

Definition everything_exists (p : string) (w : history) : bool := true.

Definition one_entry (p : string) (w : history)
  : RunQueries.result (list string) :=
  RunQueries.Done [p ++ "/entry"].

Definition one_query (p : string) (w : history) : list string :=
  [p ++ "/q.ql"].

Definition ql_suffix (p : string) : string := ".ql".

Definition same_text (s : string) : string := s.

(** The same machine without the executable: every command fails with
    [FileNotFoundError]. *)
Definition no_executable (argv : list string) (w : history)
  : history * option RunQueries.run_error :=
  (argv :: w, Some RunQueries.FileNotFoundError).

(** A machine on which nothing exists. *)
Definition nothing_exists (p : string) (w : history) : bool := false.

(** * The stages of the pipeline ([src/pipeline.py]) and the exception
    classes ([src/utils/exceptions])

    The stages call functions of other modules; these are parameters here,
    commands on the [world] of the machine like the stages themselves.  A
    command may return, raise, or end the process ([sys.exit]). *)

Module Pipeline.

(** The classes of [src/utils/exceptions], and [OtherException] for an
    exception outside this hierarchy. *)
Inductive exc_class : Type :=
| VulnhallaError
| CodeQLError
| CodeQLConfigError
| CodeQLExecutionError
| LLMError
| LLMConfigError
| LLMApiError
| OtherException.

(** The base class inside the hierarchy ([None]: the class derives from
    [Exception] directly, or lies outside). *)
Definition base (c : exc_class) : option exc_class :=
  match c with
  | CodeQLError => Some VulnhallaError
  | CodeQLConfigError => Some CodeQLError
  | CodeQLExecutionError => Some CodeQLError
  | LLMError => Some VulnhallaError
  | LLMConfigError => Some LLMError
  | LLMApiError => Some LLMError
  | VulnhallaError | OtherException => None
  end.

Definition class_eqb (c d : exc_class) : bool :=
  match c, d with
  | VulnhallaError, VulnhallaError
  | CodeQLError, CodeQLError
  | CodeQLConfigError, CodeQLConfigError
  | CodeQLExecutionError, CodeQLExecutionError
  | LLMError, LLMError
  | LLMConfigError, LLMConfigError
  | LLMApiError, LLMApiError
  | OtherException, OtherException => true
  | _, _ => false
  end.

(** [issubclass(c, d)]: [c] is [d], or its base is, or the base of its
    base (the hierarchy is two levels deep). *)
Definition issubclass (c d : exc_class) : bool :=
  class_eqb c d
  || match base c with
     | Some b =>
         class_eqb b d
         || match base b with
            | Some bb => class_eqb bb d
            | None => false
            end
     | None => false
     end.

(** An exception: its class, its text ([str(e)]), its attribute [cause]
    (absent outside the hierarchy) and its [__cause__]. *)
#[warnings="-register-all"]
Inductive exc : Type :=
| Exc (cls : exc_class) (text : string) (cause : option exc)
    (chained : option exc).

Definition exc_cls (e : exc) : exc_class :=
  match e with Exc c _ _ _ => c end.
Definition exc_text (e : exc) : string :=
  match e with Exc _ t _ _ => t end.
Definition exc_cause (e : exc) : option exc :=
  match e with Exc _ _ c _ => c end.
Definition exc_chained (e : exc) : option exc :=
  match e with Exc _ _ _ c => c end.

(** [isinstance(e, d)] *)
Definition isinstance (e : exc) (d : exc_class) : bool :=
  issubclass (exc_cls e) d.

(** [VulnhallaError.__init__(message, cause)] in the class [c]: a given
    cause is kept as the attribute and as [__cause__]. *)
Definition new_error (c : exc_class) (message : string) (cause : option exc)
  : exc :=
  Exc c message cause cause.

Inductive outcome (A : Type) : Type :=
| Returned (a : A)
| Raised (e : exc)
| Exited (code : Z).
Arguments Returned {A} a.
Arguments Raised {A} e.
Arguments Exited {A} code.

Inductive log_level : Type := INFO | ERROR.

Inductive log_arg : Type :=
| Text (s : string)
| Error (e : exc).

Inductive event : Type :=
| Logged (level : log_level) (template : string) (args : list log_arg).

(** The first characters of the error messages, byte for byte as the source
    file holds them. *)
Definition cross_mark : string :=
  String (ascii_of_nat 226) (String (ascii_of_nat 128)
  (String (ascii_of_nat 154) (String (ascii_of_nat 195)
  (String (ascii_of_nat 185) (String (ascii_of_nat 195)
  (String (ascii_of_nat 165) "")))))).

(** ["-" * 60] *)
Definition rule : string :=
  "------------------------------------------------------------".

Section Stages.

Variable world : Type.

Definition cmd (A : Type) : Type :=
  world -> (list event * world * outcome A).

(** [fetch_codeql_dbs(lang=, threads=, repo_name=)] of
    [src/codeql/fetch_repos.py] (not among the sources); [None] stands for
    the value [None]. *)
Variable fetch_codeql_dbs : string -> Z -> string -> cmd (option string).

(** [get_codeql_path()] of [src/utils/config.py] (not among the sources). *)
Variable get_codeql_path : cmd string.

(** [compile_and_run_codeql_queries(codeql_bin=, lang=, threads=, timeout=,
    dbs_dir=)], with whatever it does and raises. *)
Variable compile_and_run_codeql_queries :
  string -> string -> Z -> Z -> string -> cmd unit.

(** [IssueAnalyzer(lang=lang).run(dbs_dir)] of [src/vulnhalla.py] (not
    among the sources). *)
Variable issue_analyzer_run : string -> string -> cmd unit.

Definition ret {A : Type} (a : A) : cmd A := fun w => ([], w, Returned a).

Definition log_of {A : Type} (x : list event * world * outcome A)
  : list event := fst (fst x).
Definition world_of {A : Type} (x : list event * world * outcome A)
  : world := snd (fst x).
Definition outcome_of {A : Type} (x : list event * world * outcome A)
  : outcome A := snd x.

Definition bind {A B : Type} (m : cmd A) (k : A -> cmd B) : cmd B :=
  fun w =>
    match m w with
    | (log, w', Returned a) =>
        match k a w' with
        | (log', w'', r) => ((log ++ log')%list, w'', r)
        end
    | (log, w', Raised e) => (log, w', Raised e)
    | (log, w', Exited code) => (log, w', Exited code)
    end.

Local Notation "m ;;; k" := (bind m (fun _ => k))
  (at level 61, right associativity).

Definition logger (level : log_level) (template : string)
  (args : list log_arg) : cmd unit :=
  fun w => ([Logged level template args], w, Returned tt).

(** [sys.exit(code)] *)
Definition sys_exit {A : Type} (code : Z) : cmd A :=
  fun w => ([], w, Exited code).

Definition raise {A : Type} (e : exc) : cmd A :=
  fun w => ([], w, Raised e).

(** [try: body  except ...: ...], the clauses being the function [handler]
    from the exception raised to what is done with it. *)
Definition try_except {A : Type} (body : cmd A) (handler : exc -> cmd A)
  : cmd A :=
  fun w =>
    match body w with
    | (log, w', Raised e) =>
        match handler e w' with
        | (log', w'', r) => ((log ++ log')%list, w'', r)
        end
    | other => other
    end.

(** *** _log_exception_cause *)

Definition _log_exception_cause (e : exc) : cmd unit :=
  let cause :=
    match exc_cause e with
    | Some c => Some c
    | None => exc_chained e
    end in
  match cause with
  | Some c =>
      let cause_str := exc_text c in
      let error_str := exc_text e in
      if negb (PyStr.contains cause_str error_str)
      then logger ERROR "   Cause: %s" [Error c]
      else ret tt
  | None => ret tt
  end.

(** The hints of an [except] clause, one [logger.error] each. *)
Fixpoint log_hints (hints : list string) : cmd unit :=
  match hints with
  | [] => ret tt
  | hint :: rest => logger ERROR hint [] ;;; log_hints rest
  end.

(** One [except] clause of the stages: the message with the exception, its
    cause, the hints, and the end of the process with status 1. *)
Definition report_and_exit {A : Type} (template : string) (e : exc)
  (hints : list string) : cmd A :=
  logger ERROR template [Error e] ;;;
  _log_exception_cause e ;;;
  log_hints hints ;;;
  sys_exit 1.

(** *** step1_fetch_codeql_dbs *)

(** The [except] clauses of [step1_fetch_codeql_dbs]. *)
Definition step1_except (e : exc) : cmd string :=
  if isinstance e CodeQLConfigError then
    report_and_exit
      (cross_mark ++ " Step 1: Configuration error while fetching "
       ++ "CodeQL databases: %s") e
      ["   Please check your GitHub token and permissions."]
  else if isinstance e CodeQLError then
    report_and_exit
      (cross_mark ++ " Step 1: Failed to fetch CodeQL databases: %s") e
      ["   Please check file permissions, disk space, and GitHub API "
       ++ "access."]
  else raise e.

Definition step1_fetch_codeql_dbs (lang : string) (threads : Z)
  (repo : string) : cmd string :=
  logger INFO (newline ++ "Step 1: Fetching CodeQL Databases") [] ;;;
  logger INFO rule [] ;;;
  logger INFO "Fetching database for: %s" [Text repo] ;;;
  try_except
    (bind (fetch_codeql_dbs lang threads repo)
       (fun dbs_dir =>
          match dbs_dir with
          | Some dir =>
              if PyStr.nonempty dir then ret dir
              else raise (new_error CodeQLError
                            ("No CodeQL databases were downloaded/found for "
                             ++ repo) None)
          | None =>
              raise (new_error CodeQLError
                       ("No CodeQL databases were downloaded/found for "
                        ++ repo) None)
          end))
    step1_except.

(** *** step2_run_codeql_queries *)

(** The [except] clauses of [step2_run_codeql_queries]. *)
Definition step2_except (e : exc) : cmd unit :=
  if isinstance e CodeQLConfigError then
    report_and_exit
      (cross_mark ++ " Step 2: Configuration error while running "
       ++ "CodeQL queries: %s") e
      ["   Please check your CODEQL_PATH configuration."]
  else if isinstance e CodeQLExecutionError then
    report_and_exit
      (cross_mark ++ " Step 2: Failed to execute CodeQL queries: %s") e
      ["   Please check your CodeQL installation and database files."]
  else if isinstance e CodeQLError then
    report_and_exit
      (cross_mark ++ " Step 2: CodeQL error while running queries: %s") e
      ["   Please check your CodeQL database files and query syntax."]
  else raise e.

Definition step2_run_codeql_queries (dbs_dir lang : string) (threads : Z)
  : cmd unit :=
  logger INFO (newline ++ "Step 2: Running CodeQL Queries") [] ;;;
  logger INFO rule [] ;;;
  try_except
    (bind get_codeql_path
       (fun codeql_bin =>
          compile_and_run_codeql_queries codeql_bin lang threads 300
            dbs_dir))
    step2_except.

(** *** step3_classify_results_with_llm *)

(** The [except] clauses of [step3_classify_results_with_llm]. *)
Definition step3_except (e : exc) : cmd unit :=
  if isinstance e LLMConfigError then
    report_and_exit
      (cross_mark ++ " Step 3: LLM configuration error: %s") e
      ["   Please check your LLM configuration and API credentials in "
       ++ ".env file."]
  else if isinstance e LLMApiError then
    report_and_exit (cross_mark ++ " Step 3: LLM API error: %s") e
      ["   Please check your API key, network connection, and rate "
       ++ "limits."]
  else if isinstance e LLMError then
    report_and_exit (cross_mark ++ " Step 3: LLM error: %s") e
      ["   Please check your LLM provider settings and API status."]
  else if isinstance e CodeQLError then
    report_and_exit
      (cross_mark ++ " Step 3: CodeQL error while reading database "
       ++ "files: %s") e
      ["   This step reads CodeQL database files (YAML, ZIP, CSV) to "
       ++ "prepare data for LLM analysis.";
       "   Please check your CodeQL databases and files are "
       ++ "accessible."]
  else if isinstance e VulnhallaError then
    report_and_exit
      (cross_mark ++ " Step 3: File system error while saving "
       ++ "results: %s") e
      ["   This step writes analysis results to disk and creates "
       ++ "output directories.";
       "   Please check file permissions and disk space."]
  else raise e.

Definition step3_classify_results_with_llm (dbs_dir lang : string)
  : cmd unit :=
  logger INFO (newline ++ "Step 3: Classifying Results with LLM") [] ;;;
  logger INFO rule [] ;;;
  try_except (issue_analyzer_run lang dbs_dir) step3_except.

End Stages.

Arguments log_of {world A} x.
Arguments world_of {world A} x.
Arguments outcome_of {world A} x.

End Pipeline.

(** * Properties *)

(** ** Strings *)

Lemma prefix_app (n b : string) : prefix n (n ++ b) = true.
Proof.
  induction n as [|c n IH]; simpl.
  - destruct b; reflexivity.
  - destruct (ascii_dec c c) as [_|ne]; [exact IH | congruence].
Qed.

Lemma prefix_split (n h : string) :
  prefix n h = true -> exists b, h = n ++ b.
Proof.
  revert h; induction n as [|c n IH]; intros h H.
  - exists h; reflexivity.
  - destruct h as [|c' h]; simpl in H; [discriminate|].
    destruct (ascii_dec c c') as [->|_]; [|discriminate].
    destruct (IH _ H) as [b ->]. exists b; reflexivity.
Qed.

Lemma contains_prefix (n h : string) :
  prefix n h = true -> PyStr.contains n h = true.
Proof.
  intros H. destruct h; simpl; simpl in H; rewrite H; reflexivity.
Qed.

Lemma contains_app (n a b : string) : PyStr.contains n (a ++ n ++ b) = true.
Proof.
  induction a as [|c a IH].
  - simpl. apply contains_prefix, prefix_app.
  - simpl. rewrite IH. apply orb_true_r.
Qed.

Lemma contains_split (n h : string) :
  PyStr.contains n h = true -> exists a b, h = a ++ n ++ b.
Proof.
  induction h as [|c h IH]; simpl; intros H.
  - rewrite orb_false_r in H. destruct n; [|discriminate].
    exists "", ""; reflexivity.
  - apply orb_true_iff in H as [H|H].
    + destruct n as [|c' n]; [exists "", (String c h); reflexivity|].
      destruct (ascii_dec c' c) as [->|_]; [|discriminate].
      destruct (prefix_split _ _ H) as [b ->].
      exists "", b; reflexivity.
    + destruct (IH H) as (a & b & ->). exists (String c a), b; reflexivity.
Qed.

Lemma prefix_refl (n : string) : prefix n n = true.
Proof.
  induction n as [|c n IH]; simpl; [reflexivity|].
  destruct (ascii_dec c c) as [_|ne]; [exact IH | congruence].
Qed.

Lemma contains_refl (n : string) : PyStr.contains n n = true.
Proof.
  destruct n as [|c n]; [reflexivity|].
  unfold PyStr.contains; fold PyStr.contains.
  rewrite prefix_refl. reflexivity.
Qed.

(** ** Loops over rows *)

Section Loops.

Context {A : Type} (body : string -> step A).

Lemma for_rows_continue (rows : list string) :
  (forall r, In r rows -> body r = Continue) ->
  for_rows body rows = Continue.
Proof.
  induction rows as [|r rows IH]; intros H; simpl; [reflexivity|].
  rewrite (H r (or_introl eq_refl)). apply IH.
  intros p Hp. apply H. right; exact Hp.
Qed.

Lemma for_rows_first (pre : list string) (row : string)
  (post : list string) (o : outcome A) :
  (forall p, In p pre -> body p = Continue) ->
  body row = Leave o ->
  for_rows body (pre ++ row :: post)%list = Leave o.
Proof.
  induction pre as [|p pre IH]; intros Hpre Hrow; simpl.
  - rewrite Hrow. reflexivity.
  - rewrite (Hpre p (or_introl eq_refl)). apply IH; [|exact Hrow].
    intros p' Hp'. apply Hpre. right; exact Hp'.
Qed.

Lemma for_rows_leave_inv (rows : list string) (o : outcome A) :
  for_rows body rows = Leave o ->
  exists pre row post,
    rows = (pre ++ row :: post)%list
    /\ (forall p, In p pre -> body p = Continue)
    /\ body row = Leave o.
Proof.
  induction rows as [|r rows IH]; simpl; intros H; [discriminate|].
  destruct (body r) as [|o'] eqn:E.
  - destruct (IH H) as (pre & row & post & -> & Hpre & Hrow).
    exists (r :: pre), row, post. split; [reflexivity|]. split; [|exact Hrow].
    intros p [<-|Hp]; [exact E | apply Hpre, Hp].
  - exists [], r, rows. split; [reflexivity|]. split; [intros p []|].
    rewrite E. exact H.
Qed.

Lemma for_rows_continue_inv (rows : list string) :
  for_rows body rows = Continue ->
  forall r, In r rows -> body r = Continue.
Proof.
  induction rows as [|r rows IH]; simpl; intros H p Hp; [destruct Hp|].
  destruct (body r) eqn:E; [|discriminate].
  destruct Hp as [<-|Hp]; [exact E | apply IH; assumption].
Qed.

End Loops.

Section Scans.

Variable fs : string -> file.

(** The loop over a table, by cases on what the rows and the end of the
    reading give. *)
Lemma for_csv_lines_cases {A : Type} (path label : string)
  (body : string -> step A) (after : io A) :
  for_csv_lines fs path label body after =
  match for_rows body (file_rows (fs path)) with
  | Leave r => ([Open path], r)
  | Continue =>
      match reading_ends fs path label with
      | Some e => ([Open path], Raise e)
      | None => (Open path :: io_log after, io_result after)
      end
  end.
Proof.
  unfold for_csv_lines, _iter_csv_lines, bind, open_file, raise.
  destruct (for_rows body (file_rows (fs path))); [|reflexivity].
  destruct (reading_ends fs path label); [reflexivity|].
  destruct after; reflexivity.
Qed.

Lemma reading_ends_table (path label : string) (rows : list string) :
  fs path = mk_file rows None -> reading_ends fs path label = None.
Proof. unfold reading_ends. intros ->. reflexivity. Qed.

Lemma for_csv_lines_miss {A : Type} (path label : string)
  (body : string -> step A) (after : io A) (rows : list string) :
  fs path = mk_file rows None ->
  for_rows body rows = Continue ->
  for_csv_lines fs path label body after
  = (Open path :: io_log after, io_result after).
Proof.
  intros Hfs Hrows. rewrite for_csv_lines_cases.
  rewrite (reading_ends_table path label rows Hfs), Hfs. cbn [file_rows].
  rewrite Hrows. reflexivity.
Qed.

Lemma for_csv_lines_leave {A : Type} (path label : string)
  (body : string -> step A) (after : io A) (r : outcome A) :
  for_rows body (file_rows (fs path)) = Leave r ->
  for_csv_lines fs path label body after = ([Open path], r).
Proof. intros H. rewrite for_csv_lines_cases, H. reflexivity. Qed.

End Scans.

(** ** get_function_by_line *)

Section ByLine.

Variable parse_csv_row : string -> list string -> option dict.
Variable fs : string -> file.

Lemma int_of_str_nonempty (s : string) (a : Z) :
  PyStr.int_of_str s = Some a -> PyStr.nonempty s = true.
Proof. destruct s; [discriminate | reflexivity]. Qed.

Lemma lookup_truthy (d : dict) (k v : string) :
  lookup d k = Some v -> truthy (Some d) = true.
Proof. destruct d; [discriminate | reflexivity]. Qed.

Lemma by_line_body_covers (file : string) (line : Z) (row : string)
  (d : dict) :
  covers parse_csv_row file line row d ->
  get_function_by_line_body parse_csv_row file line row
  = Leave (Return (Some d)).
Proof.
  intros (Hfile & Hparse & s & e & a & b & Hs & He & Ha & Hb & Hlo & Hhi).
  unfold get_function_by_line_body, getitem.
  rewrite Hfile, Hparse, (lookup_truthy _ _ _ Hs), Hs, He.
  rewrite (int_of_str_nonempty _ _ Ha), (int_of_str_nonempty _ _ Hb).
  rewrite Ha, Hb.
  apply Z.leb_le in Hlo. apply Z.leb_le in Hhi. rewrite Hlo, Hhi.
  reflexivity.
Qed.

Lemma by_line_body_leave (file : string) (line : Z) (row : string)
  (d : dict) :
  get_function_by_line_body parse_csv_row file line row
  = Leave (Return (Some d)) ->
  covers parse_csv_row file line row d.
Proof.
  unfold get_function_by_line_body, covers, getitem.
  destruct (PyStr.contains file row); [|discriminate].
  destruct (parse_csv_row row function_keys) as [d'|]; [|discriminate].
  destruct (truthy (Some d')); [|discriminate].
  destruct (lookup d' "start_line") as [s|] eqn:Hs; [|discriminate].
  destruct (PyStr.nonempty s); [|discriminate].
  destruct (lookup d' "end_line") as [e|] eqn:He; [|discriminate].
  destruct (PyStr.nonempty e); [|discriminate].
  destruct (PyStr.int_of_str s) as [a|] eqn:Ha; [|discriminate].
  destruct (PyStr.int_of_str e) as [b|] eqn:Hb; [|discriminate].
  destruct ((a <=? line)%Z && (line <=? b)%Z) eqn:E; [|discriminate].
  intros H. injection H as <-.
  apply andb_true_iff in E as [E1 E2].
  apply Z.leb_le in E1. apply Z.leb_le in E2.
  split; [reflexivity|]. split; [reflexivity|].
  exists s, e, a, b. repeat split; assumption.
Qed.

(** On a row with numeric line fields the body never raises. *)
Lemma by_line_body_numeric (file : string) (line : Z) (row : string) :
  implb (PyStr.contains file row) (numeric_lines parse_csv_row row) = true ->
  (forall d, ~ covers parse_csv_row file line row d) ->
  get_function_by_line_body parse_csv_row file line row = Continue.
Proof.
  intros Hnum Hno.
  destruct (get_function_by_line_body parse_csv_row file line row)
    as [|[[d|]|err]] eqn:E; [reflexivity| | |].
  - destruct (Hno d). apply by_line_body_leave. exact E.
  - exfalso. revert E. unfold get_function_by_line_body, getitem.
    repeat match goal with
           | |- context [match ?x with _ => _ end] =>
               destruct x; try discriminate
           end.
  - exfalso. revert E Hnum.
    unfold get_function_by_line_body, getitem, numeric_lines, int_or_empty.
    destruct (PyStr.contains file row); [|discriminate].
    destruct (parse_csv_row row function_keys) as [[|kv d']|];
      try discriminate.
    cbn [truthy implb].
    destruct (lookup (kv :: d') "start_line") as [s|]; [|discriminate 2].
    destruct (PyStr.nonempty s) eqn:Es; [|discriminate].
    destruct (lookup (kv :: d') "end_line") as [e|];
      [|rewrite andb_false_r; discriminate 2].
    destruct (PyStr.nonempty e) eqn:Ee; [|discriminate].
    cbn [negb orb].
    destruct (PyStr.int_of_str s); [|discriminate 2].
    destruct (PyStr.int_of_str e); [|discriminate 2].
    destruct ((z <=? line)%Z && (line <=? z0)%Z); discriminate.
Qed.

End ByLine.

(** C2. On a function table (the file reads to its end, and the rows that
    mention [file] carry numeric line fields) [get_function_by_line] opens
    the table once and returns the first row in file order whose raw text
    contains [file] and whose parsed range [start_line, end_line] contains
    [line]; when no row does, it returns [None].  There is no second pass. *)
Theorem get_function_by_line_first_cover
  (parse_csv_row : string -> list string -> option dict)
  (fs : string -> file) (tree file : string) (line : Z)
  (rows : list string) :
  fs tree = mk_file rows None ->
  function_table parse_csv_row file rows = true ->
  let call := get_function_by_line parse_csv_row fs tree file line in
  io_log call = [Open tree]
  /\ (forall pre row post d,
        rows = (pre ++ row :: post)%list ->
        covers parse_csv_row file line row d ->
        (forall p d', In p pre -> ~ covers parse_csv_row file line p d') ->
        io_result call = Return (Some d))
  /\ ((forall row d, In row rows -> ~ covers parse_csv_row file line row d) ->
      io_result call = Return None).
Proof.
  intros Hfs Htable call. subst call.
  unfold get_function_by_line. rewrite for_csv_lines_cases.
  rewrite (reading_ends_table fs tree _ rows Hfs), Hfs. cbn [file_rows].
  unfold function_table in Htable. rewrite forallb_forall in Htable.
  split; [|split].
  - destruct (for_rows _ rows); reflexivity.
  - intros pre row post d -> Hrow Hpre.
    rewrite (for_rows_first _ pre row post (Return (Some d))).
    + reflexivity.
    + intros p Hp. apply by_line_body_numeric.
      * apply Htable, in_or_app. left; exact Hp.
      * intros d'. apply Hpre. exact Hp.
    + apply by_line_body_covers. exact Hrow.
  - intros Hnone. rewrite for_rows_continue; [reflexivity|].
    intros r Hr. apply by_line_body_numeric.
    + apply Htable. exact Hr.
    + intros d. apply Hnone. exact Hr.
Qed.

(** The scenario of two rows of [net.c] with the ranges [1,10] and [5,15]:
    line 7 lies in both and the first row is returned. *)
Lemma get_function_by_line_net_c :
  let call :=
    get_function_by_line parse_csv_row_model
      (only_file "FunctionTree.csv" [net_row_1; net_row_2])
      "FunctionTree.csv" "net.c" 7 in
  io_log call = [Open "FunctionTree.csv"]
  /\ io_result call = Return (Some net_dict_1).
Proof.
  destruct (get_function_by_line_first_cover parse_csv_row_model
              (only_file "FunctionTree.csv" [net_row_1; net_row_2])
              "FunctionTree.csv" "net.c" 7 [net_row_1; net_row_2])
    as (Hlog & Hfirst & _).
  - reflexivity.
  - vm_compute. reflexivity.
  - split; [exact Hlog|].
    apply (Hfirst [] net_row_1 [net_row_2] net_dict_1).
    + reflexivity.
    + split; [vm_compute; reflexivity|].
      split; [vm_compute; reflexivity|].
      exists "1", "10", 1%Z, 10%Z.
      repeat split; try (vm_compute; reflexivity); easy.
    + intros p d' [].
Defined.

(** ** Messages *)

Lemma contains_append_l (n a t : string) :
  PyStr.contains n t = true -> PyStr.contains n (a ++ t) = true.
Proof.
  intros H. induction a as [|c a IH]; simpl; [exact H|].
  rewrite IH. apply orb_true_r.
Qed.

Lemma append_assoc (a b c : string) : (a ++ b) ++ c = a ++ b ++ c.
Proof. induction a as [|x a IH]; simpl; [reflexivity | rewrite IH; reflexivity]. Qed.

Lemma append_empty_r (a : string) : a ++ "" = a.
Proof. induction a as [|x a IH]; simpl; [reflexivity | rewrite IH; reflexivity]. Qed.

Lemma contains_append_r (n t b : string) :
  PyStr.contains n t = true -> PyStr.contains n (t ++ b) = true.
Proof.
  intros H. destruct (contains_split _ _ H) as (a & b' & ->).
  rewrite !append_assoc. apply contains_app.
Qed.

(** Closes a goal [contains n (a1 ++ ... ++ n ++ ... ++ ak) = true]. *)
Ltac contains_tac :=
  repeat first
    [ apply contains_refl
    | apply contains_append_r; apply contains_refl
    | apply contains_append_l ].

Lemma macro_not_found_text (name : string) :
  PyStr.contains name (macro_not_found name) = true
  /\ PyStr.contains "not found" (macro_not_found name) = true.
Proof.
  unfold macro_not_found. split.
  - contains_tac.
  - change ("' not found. Make sure you're using the "
            ++ "correct tool with correct args.")
      with ("' " ++ "not found" ++ ". Make sure you're using the "
            ++ "correct tool with correct args.").
    contains_tac.
Qed.

(** ** get_function_by_name without known functions *)

(** C10. With an empty list of known functions [get_function_by_name] opens
    no file at all, whatever the machine holds at the path of the function
    tree: the loop of the strict call and the loop of its one recursive call
    run over nothing, and the call returns the not-found text paired with
    [None] without raising. *)
Theorem get_function_by_name_no_known
  (parse_csv_row : string -> list string -> option dict)
  (fs : string -> file) (tree function_name : string) (less_strict : bool) :
  get_function_by_name parse_csv_row fs tree function_name [] less_strict
  = ([], Return (Message (function_not_found function_name), None)).
Proof. destruct less_strict; reflexivity. Qed.

(** ** get_macro: nothing found *)

Section MacroMiss.

Variable parse_csv_row : string -> list string -> option dict.

Lemma get_macro_body_unmentioned (name : string) (less_strict : bool)
  (row : string) :
  PyStr.contains name row = false ->
  get_macro_body parse_csv_row name less_strict row = Continue.
Proof. unfold get_macro_body. intros ->. reflexivity. Qed.

End MacroMiss.

(** C9. When the macro table reads to its end and no row contains the
    searched name, both phases run out and [get_macro] returns, as a normal
    value, a text that contains the searched name and the words
    [not found]; nothing is raised. *)
Theorem get_macro_not_found
  (parse_csv_row : string -> list string -> option dict)
  (fs : string -> file) (path_join : string -> string -> string)
  (curr_db macro_name : string) (less_strict : bool) (rows : list string) :
  fs (path_join curr_db "Macros.csv") = mk_file rows None ->
  (forall row, In row rows -> PyStr.contains macro_name row = false) ->
  exists text,
    io_result (get_macro parse_csv_row fs path_join curr_db macro_name
                 less_strict)
    = Return (Message text)
    /\ PyStr.contains macro_name text = true
    /\ PyStr.contains "not found" text = true.
Proof.
  intros Hfs Hrows. exists (macro_not_found macro_name).
  split; [|apply macro_not_found_text].
  assert (Hmiss : forall ls,
             for_rows (get_macro_body parse_csv_row macro_name ls) rows
             = Continue).
  { intros ls. apply for_rows_continue. intros r Hr.
    apply get_macro_body_unmentioned, Hrows, Hr. }
  unfold get_macro.
  destruct less_strict; cbn [negb];
    rewrite !(for_csv_lines_miss fs _ _ _ _ rows Hfs (Hmiss _));
    reflexivity.
Qed.

Lemma get_macro_max_len_not_found :
  exists text,
    io_result (get_macro parse_csv_row_model
                 (only_file "db/Macros.csv" macros_table) path_join_model
                 "db" "MAX_LEN" false)
    = Return (Message text)
    /\ PyStr.contains "MAX_LEN" text = true
    /\ PyStr.contains "not found" text = true.
Proof.
  apply (get_macro_not_found parse_csv_row_model
           (only_file "db/Macros.csv" macros_table) path_join_model
           "db" "MAX_LEN" false macros_table).
  - reflexivity.
  - intros row [<-|[<-|[]]]; reflexivity.
Defined.

(** ** format_numbered_snippet *)

Lemma numbered_lines_index (start_line k : Z) (snippet_lines : list string) :
  List.map
    (fun '(i, text) =>
       PyStr.str_of_int (start_line + i) ++ ": " ++ text)
    (PyStr.enumerate_from k snippet_lines)
  = List.map
      (fun i =>
         PyStr.str_of_int (start_line + (k + Z.of_nat i)) ++ ": "
         ++ List.nth i snippet_lines "")
      (List.seq 0 (List.length snippet_lines)).
Proof.
  revert k. induction snippet_lines as [|x xs IH]; intros k; [reflexivity|].
  cbn [PyStr.enumerate_from List.map List.length List.seq List.nth].
  f_equal.
  - rewrite Z.add_0_r. reflexivity.
  - rewrite IH, <- seq_shift, map_map. apply map_ext. intros i.
    cbn [List.nth]. do 2 f_equal. lia.
Qed.

(** C6. [format_numbered_snippet] is a function of its three arguments alone:
    its text is the header [file: <path>], a line feed, and the snippet lines
    joined by line feeds, the line of index [i] prefixed with the number
    [start_line + i], a colon and a space.  On [a.c], 10 and the lines x, y,
    z it gives the four lines of the example. *)
Theorem format_numbered_snippet_lines :
  format_numbered_snippet "a.c" 10 ["x"; "y"; "z"]
  = "file: a.c" ++ newline ++ "10: x" ++ newline ++ "11: y" ++ newline
    ++ "12: z"
  /\ forall (file_path : string) (start_line : Z)
       (snippet_lines : list string),
      format_numbered_snippet file_path start_line snippet_lines
      = "file: " ++ file_path ++ newline
        ++ PyStr.join newline
             (List.map
                (fun i =>
                   PyStr.str_of_int (start_line + Z.of_nat i) ++ ": "
                   ++ List.nth i snippet_lines "")
                (List.seq 0 (List.length snippet_lines))).
Proof.
  split; [reflexivity|].
  intros file_path start_line snippet_lines.
  unfold format_numbered_snippet, PyStr.enumerate.
  rewrite numbered_lines_index. reflexivity.
Qed.

(** ** extract_function_lines_from_db *)

Lemma split_go_not_nil (sep : string) (skip : nat) (cur s : string) :
  PyStr.split_go sep skip cur s <> [].
Proof.
  revert skip cur.
  induction s as [|c s IH]; intros skip cur; cbn [PyStr.split_go].
  - discriminate.
  - destruct skip; [|apply IH].
    destruct (prefix sep (String c s)); [discriminate | apply IH].
Qed.

Lemma join_cons (sep p : string) (rest : list string) :
  rest <> [] -> PyStr.join sep (p :: rest) = p ++ sep ++ PyStr.join sep rest.
Proof. destruct rest; [congruence | reflexivity]. Qed.

(** Joining the parts of a split by a one-character separator gives the
    text back: the split loses nothing. *)
Lemma join_split_go (c : ascii) (cur s : string) :
  PyStr.join (String c "") (PyStr.split_go (String c "") 0 cur s) = cur ++ s.
Proof.
  revert cur. induction s as [|c' s IH]; intros cur.
  - simpl. rewrite append_empty_r. reflexivity.
  - cbn [PyStr.split_go prefix String.length Nat.sub].
    destruct (ascii_dec c c') as [->|ne].
    + destruct s; cbn [prefix];
        (rewrite join_cons by apply split_go_not_nil);
        rewrite IH; reflexivity.
    + rewrite IH, append_assoc. reflexivity.
Qed.

Lemma join_split_newline (text : string) :
  PyStr.join newline (PyStr.split newline text) = text.
Proof. apply (join_split_go (ascii_of_nat 10) "" text). Qed.

(** C7. [extract_function_lines_from_db] reads the archive at
    [db_path/src.zip] under the key made from the function's [file] field by
    removing its quote characters and then its first character; it splits
    the text of the entry at the line feeds and returns the key, the two
    line fields as integers and all the lines of the file: joined again by
    line feeds they give the whole text back, whatever range the function
    has.  A failure of the archive read is passed on. *)
Theorem extract_function_lines_whole_file
  (path_join : string -> string -> string)
  (read_file_lines_from_zip : string -> string -> outcome string)
  (db_path : string) (current_function : dict)
  (file s e : string) (start_line end_line : Z) :
  lookup current_function "file" = Some file ->
  lookup current_function "start_line" = Some s ->
  lookup current_function "end_line" = Some e ->
  PyStr.int_of_str s = Some start_line ->
  PyStr.int_of_str e = Some end_line ->
  let file_path := PyStr.drop_first (PyStr.remove_quotes file) in
  extract_function_lines_from_db path_join read_file_lines_from_zip db_path
    current_function
  = match read_file_lines_from_zip (path_join db_path "src.zip") file_path
    with
    | Return text =>
        Return (file_path, start_line, end_line, PyStr.split newline text)
    | Raise err => Raise err
    end
  /\ forall text, PyStr.join newline (PyStr.split newline text) = text.
Proof.
  intros Hfile Hs He Hstart Hend file_path.
  split; [|apply join_split_newline].
  unfold extract_function_lines_from_db, getitem.
  rewrite Hfile, Hs, He, Hstart, Hend. reflexivity.
Qed.

Lemma extract_function_lines_foo :
  extract_function_lines_from_db path_join_model foo_archive "db" foo_function
  = Return ("src/foo.c", 1%Z, 2%Z, ["int f(void)"; "{ return 1; }"; ""])
  /\ forall text, PyStr.join newline (PyStr.split newline text) = text.
Proof.
  exact (extract_function_lines_whole_file path_join_model foo_archive "db"
           foo_function (quoted "/src/foo.c") "1" "2" 1%Z 2%Z
           eq_refl eq_refl eq_refl eq_refl eq_refl).
Defined.

(** ** Failures of the table files *)

Lemma length_append (a b : string) :
  String.length (a ++ b) = (String.length a + String.length b)%nat.
Proof. induction a as [|c a IH]; simpl; [reflexivity | rewrite IH; reflexivity]. Qed.

(** The message of a [CodeQLError] ([str(e)]). *)
Lemma convert_os_error_message (e : py_error) (path label : string) :
  is_os_error e = true ->
  (e = FileNotFoundError
   /\ _convert_csv_file_error e path label
      = CodeQLError (label ++ " not found: " ++ path) e)
  \/ (e = PermissionError
      /\ _convert_csv_file_error e path label
         = CodeQLError ("Permission denied reading " ++ label ++ ": " ++ path)
             e)
  \/ (e = OSError
      /\ _convert_csv_file_error e path label
         = CodeQLError ("OS error while reading " ++ label ++ ": " ++ path) e).
Proof.
  destruct e; try discriminate; intros _.
  - left. split; reflexivity.
  - right; left. split; reflexivity.
  - right; right. split; reflexivity.
Qed.

Lemma convert_message_distinguishes (e e' : py_error) (path label : string)
  (message : string) (c c' : py_error) :
  is_os_error e = true ->
  is_os_error e' = true ->
  _convert_csv_file_error e path label = CodeQLError message c ->
  _convert_csv_file_error e' path label = CodeQLError message c' ->
  e = e'.
Proof.
  intros He He' H H'.
  destruct e; try discriminate; destruct e'; try discriminate;
    try reflexivity; exfalso;
    simpl in H, H'; injection H as Hm _; injection H' as Hm' _;
    rewrite <- Hm' in Hm; apply (f_equal String.length) in Hm;
    simpl in Hm; repeat (rewrite length_append in Hm; simpl in Hm); lia.
Qed.

Section Failures.

Variable parse_csv_row : string -> list string -> option dict.
Variable fs : string -> file.

Lemma reading_ends_failure (path label : string) (e : py_error) :
  is_os_error e = true ->
  file_failure (fs path) = Some e ->
  reading_ends fs path label = Some (_convert_csv_file_error e path label).
Proof. unfold reading_ends. intros He ->. rewrite He. reflexivity. Qed.

Lemma for_csv_lines_failure {A : Type} (path label : string)
  (body : string -> step A) (after : io A) (e : py_error) :
  is_os_error e = true ->
  file_failure (fs path) = Some e ->
  for_rows body (file_rows (fs path)) = Continue ->
  for_csv_lines fs path label body after
  = ([Open path], Raise (_convert_csv_file_error e path label)).
Proof.
  intros He Hfail Hrows. rewrite for_csv_lines_cases, Hrows.
  rewrite (reading_ends_failure path label e He Hfail). reflexivity.
Qed.

Lemma for_csv_lines_unopened {A : Type} (path label : string)
  (body : string -> step A) (after : io A) (e : py_error) :
  is_os_error e = true ->
  fs path = mk_file [] (Some e) ->
  for_csv_lines fs path label body after
  = ([Open path], Raise (_convert_csv_file_error e path label)).
Proof.
  intros He Hfs. apply for_csv_lines_failure; [exact He | |];
    rewrite Hfs; reflexivity.
Qed.

End Failures.

(** C8. A scan whose file fails at the level of the operating system never
    returns: it raises a [CodeQLError] whose message has one of three forms,
    one for a missing file, one for a refused permission and one for any
    other failure, each with the label of the file type and the path in it,
    so that the message alone tells the three apart.  This holds for every
    loop over [_iter_csv_lines] that reaches the failure, and for each of the
    six scans on a file that cannot be opened. *)
Theorem table_scan_failure_is_typed
  (parse_csv_row : string -> list string -> option dict)
  (fs : string -> file) (path_join : string -> string -> string)
  (e : py_error) :
  is_os_error e = true ->
  (forall path label,
      exists message,
        _convert_csv_file_error e path label = CodeQLError message e
        /\ PyStr.contains label message = true
        /\ PyStr.contains path message = true
        /\ forall e' message',
            is_os_error e' = true ->
            _convert_csv_file_error e' path label = CodeQLError message' e' ->
            message' = message -> e' = e)
  /\ (forall (A : Type) path label (body : string -> step A) after,
         file_failure (fs path) = Some e ->
         for_rows body (file_rows (fs path)) = Continue ->
         for_csv_lines fs path label body after
         = ([Open path], Raise (_convert_csv_file_error e path label)))
  /\ (forall tree,
         fs tree = mk_file [] (Some e) ->
         let err := _convert_csv_file_error e tree "Function tree file" in
         (forall file line,
             io_result (get_function_by_line parse_csv_row fs tree file line)
             = Raise err)
         /\ (forall name known others less_strict,
                io_result (get_function_by_name parse_csv_row fs tree name
                             (known :: others) less_strict)
                = Raise err)
         /\ (forall current raw,
                lookup current "caller_id" = Some raw ->
                io_result (get_caller_function parse_csv_row fs tree current)
                = Raise err))
  /\ (forall curr_db name less_strict,
         fs (path_join curr_db "Macros.csv") = mk_file [] (Some e) ->
         io_result (get_macro parse_csv_row fs path_join curr_db name
                      less_strict)
         = Raise (_convert_csv_file_error e (path_join curr_db "Macros.csv")
                    "Macros CSV"))
  /\ (forall curr_db name less_strict,
         fs (path_join curr_db "GlobalVars.csv") = mk_file [] (Some e) ->
         io_result (get_global_var parse_csv_row fs path_join curr_db name
                      less_strict)
         = Raise (_convert_csv_file_error e
                    (path_join curr_db "GlobalVars.csv") "GlobalVars CSV"))
  /\ (forall curr_db name less_strict,
         fs (path_join curr_db "Classes.csv") = mk_file [] (Some e) ->
         io_result (get_class parse_csv_row fs path_join curr_db name
                      less_strict)
         = Raise (_convert_csv_file_error e (path_join curr_db "Classes.csv")
                    "Classes CSV")).
Proof.
  intros He. split; [|split; [|split; [|split; [|split]]]].
  - intros path label.
    destruct (convert_os_error_message e path label He)
      as [[-> H]|[[-> H]|[-> H]]];
      rewrite H; eexists; (split; [reflexivity|]);
      (split; [contains_tac|]); (split; [contains_tac|]);
      intros e' message' He' H' Hm; subst message';
      symmetry;
      eapply (convert_message_distinguishes _ e' path label); eauto.
  - intros A path label body after. apply for_csv_lines_failure. exact He.
  - intros tree H err. subst err. split; [|split].
    + intros file line. unfold get_function_by_line.
      rewrite (for_csv_lines_unopened fs _ _ _ _ e He H). reflexivity.
    + intros name known others less_strict.
      unfold get_function_by_name.
      destruct less_strict; cbn [negb get_function_by_name_loop];
        unfold bind, open_file;
        rewrite (reading_ends_failure fs tree _ e He)
          by (rewrite H; reflexivity);
        rewrite H; reflexivity.
    + intros current raw Hraw. unfold get_caller_function, getitem.
      rewrite Hraw, (for_csv_lines_unopened fs _ _ _ _ e He H). reflexivity.
  - intros curr_db name less_strict Hfs. unfold get_macro.
    destruct less_strict; cbn [negb];
      rewrite (for_csv_lines_unopened fs _ _ _ _ e He Hfs); reflexivity.
  - intros curr_db name less_strict Hfs. unfold get_global_var.
    destruct less_strict; cbn [negb];
      rewrite (for_csv_lines_unopened fs _ _ _ _ e He Hfs); reflexivity.
  - intros curr_db name less_strict Hfs. unfold get_class.
    destruct less_strict; cbn [negb];
      rewrite (for_csv_lines_unopened fs _ _ _ _ e He Hfs); reflexivity.
Qed.

Lemma get_macro_missing_table :
  io_result (get_macro parse_csv_row_model no_files path_join_model "db"
               "MAX_LEN" false)
  = Raise (CodeQLError "Macros CSV not found: db/Macros.csv"
             FileNotFoundError).
Proof.
  destruct (table_scan_failure_is_typed parse_csv_row_model no_files
              path_join_model FileNotFoundError eq_refl)
    as (_ & _ & _ & Hmacro & _).
  exact (Hmacro "db" "MAX_LEN" false eq_refl).
Defined.

(** ** Two-phase resolution *)

Lemma name_matches_bool (less_strict : bool) (term stored : string) :
  String.eqb (PyStr.remove_quotes stored) term
  || (less_strict && PyStr.contains term (PyStr.remove_quotes stored)) = true
  <-> name_matches less_strict term stored.
Proof.
  unfold name_matches. rewrite orb_true_iff, andb_true_iff, String.eqb_eq.
  reflexivity.
Qed.

Lemma name_matches_false (less_strict : bool) (term stored : string) :
  String.eqb (PyStr.remove_quotes stored) term
  || (less_strict && PyStr.contains term (PyStr.remove_quotes stored)) = false
  -> ~ name_matches less_strict term stored.
Proof.
  intros H Hm. apply name_matches_bool in Hm. congruence.
Qed.

(** What matches in the strict phase matches in the fallback phase, and what
    matches at all contains the term. *)
Lemma name_matches_contains (less_strict : bool) (term stored : string) :
  name_matches less_strict term stored ->
  PyStr.contains term (PyStr.remove_quotes stored) = true.
Proof. intros [<-|[_ H]]; [apply contains_refl | exact H]. Qed.

Section TwoPhase.

Variable fs : string -> file.
Variables path label : string.
Variable body : bool -> string -> step found.
Variable text : string.
Variable hit : bool -> string -> dict -> Prop.

Hypothesis body_hit :
  forall ls row d, hit ls row d -> body ls row = Leave (Return (Record d)).
Hypothesis body_inv :
  forall ls row d, body ls row = Leave (Return (Record d)) -> hit ls row d.

Lemma two_phase_passes (less_strict : bool) :
  (passes (two_phase fs path label body text less_strict) <= 2)%nat.
Proof.
  unfold two_phase.
  destruct less_strict; cbn [negb]; rewrite !for_csv_lines_cases;
    repeat match goal with
           | |- context [match ?x with _ => _ end] => destruct x
           end;
    unfold passes; simpl; lia.
Qed.

(** The first strict hit is returned after one pass, whatever the rows
    before it hold for the fallback. *)
Lemma two_phase_strict_first (pre : list string) (row : string)
  (post : list string) (d : dict) :
  file_rows (fs path) = (pre ++ row :: post)%list ->
  (forall p, In p pre -> body false p = Continue) ->
  hit false row d ->
  two_phase fs path label body text false = ([Open path], Return (Record d)).
Proof.
  intros Hrows Hpre Hrow. unfold two_phase. cbn [negb].
  apply for_csv_lines_leave. rewrite Hrows.
  apply for_rows_first; [exact Hpre | apply body_hit, Hrow].
Qed.

(** A second pass means that the strict pass found nothing. *)
Lemma two_phase_second_pass :
  passes (two_phase fs path label body text false) = 2%nat ->
  forall row d, In row (file_rows (fs path)) -> ~ hit false row d.
Proof.
  unfold two_phase. cbn [negb]. rewrite for_csv_lines_cases.
  destruct (for_rows (body false) (file_rows (fs path))) eqn:E;
    [|discriminate].
  intros _ row d Hin Hhit.
  apply body_hit in Hhit.
  rewrite (for_rows_continue_inv _ _ E row Hin) in Hhit. discriminate.
Qed.

(** A record that is returned is the hit of some row of the table. *)
Lemma two_phase_record (less_strict : bool) (d : dict) :
  io_result (two_phase fs path label body text less_strict)
  = Return (Record d) ->
  exists row ls, In row (file_rows (fs path)) /\ hit ls row d.
Proof.
  assert (Hloop : forall ls,
             for_rows (body ls) (file_rows (fs path))
             = Leave (Return (Record d)) ->
             exists row ls', In row (file_rows (fs path)) /\ hit ls' row d).
  { intros ls H. apply for_rows_leave_inv in H
      as (pre & row & post & Hrows & _ & Hrow).
    exists row, ls. split; [|apply body_inv, Hrow].
    rewrite Hrows. apply in_or_app. right; left; reflexivity. }
  unfold two_phase.
  destruct less_strict; cbn [negb]; rewrite !for_csv_lines_cases;
    repeat match goal with
           | |- context [match ?x with _ => _ end] => destruct x eqn:?
           end;
    cbn [io_result snd ret]; intros H; try discriminate;
    subst; eauto.
Qed.

End TwoPhase.

(** ** The loop bodies of the resolvers *)

Ltac body_cases :=
  repeat match goal with
         | |- context [lookup ?d ?k] =>
             destruct (lookup d k) eqn:?; try discriminate
         | |- context [match ?x with _ => _ end] =>
             destruct x eqn:?; try discriminate
         end.

Section Bodies.

Variable parse_csv_row : string -> list string -> option dict.

Lemma get_macro_body_hit (name : string) (ls : bool) (row : string)
  (d : dict) :
  macro_hit parse_csv_row ls name row d ->
  get_macro_body parse_csv_row name ls row = Leave (Return (Record d)).
Proof.
  intros (Hc & Hp & v & Hv & Hm). unfold get_macro_body, getitem.
  rewrite Hc, Hp, (lookup_truthy _ _ _ Hv), Hv. cbn [negb].
  apply name_matches_bool in Hm. rewrite Hm. reflexivity.
Qed.

Lemma get_macro_body_inv (name : string) (ls : bool) (row : string)
  (d : dict) :
  get_macro_body parse_csv_row name ls row = Leave (Return (Record d)) ->
  macro_hit parse_csv_row ls name row d.
Proof.
  unfold get_macro_body, getitem. body_cases.
  intros H. injection H as <-. unfold macro_hit, name_hit.
  split; [assumption|]. split; [assumption|].
  eexists. split; [eassumption|]. apply name_matches_bool. assumption.
Qed.

Lemma get_macro_body_miss (name : string) (ls : bool) (row : string) :
  populates parse_csv_row ->
  (forall d, ~ macro_hit parse_csv_row ls name row d) ->
  get_macro_body parse_csv_row name ls row = Continue.
Proof.
  intros Hpop Hno.
  destruct (get_macro_body parse_csv_row name ls row) as [|[[d|m]|e]] eqn:E;
    [reflexivity| | |]; exfalso.
  - apply (Hno d), get_macro_body_inv, E.
  - revert E. unfold get_macro_body, getitem. body_cases.
  - revert E. unfold get_macro_body, getitem. body_cases.
    destruct (Hpop row macro_keys _ ltac:(eassumption) "macro_name")
      as [v Hv]; [simpl; tauto | congruence].
Qed.

Lemma get_global_var_body_hit (name : string) (ls : bool) (row : string)
  (d : dict) :
  global_var_hit parse_csv_row ls name row d ->
  get_global_var_body parse_csv_row name ls row = Leave (Return (Record d)).
Proof.
  intros (Hc & Hp & v & Hv & Hm). unfold get_global_var_body, getitem.
  rewrite Hc, Hp, (lookup_truthy _ _ _ Hv), Hv. cbn [negb].
  apply name_matches_bool in Hm. rewrite Hm. reflexivity.
Qed.

Lemma get_global_var_body_inv (name : string) (ls : bool) (row : string)
  (d : dict) :
  get_global_var_body parse_csv_row name ls row = Leave (Return (Record d)) ->
  global_var_hit parse_csv_row ls name row d.
Proof.
  unfold get_global_var_body, getitem. body_cases.
  intros H. injection H as <-. unfold global_var_hit, name_hit.
  split; [assumption|]. split; [assumption|].
  eexists. split; [eassumption|]. apply name_matches_bool. assumption.
Qed.

Lemma get_global_var_body_miss (name : string) (ls : bool) (row : string) :
  populates parse_csv_row ->
  (forall d, ~ global_var_hit parse_csv_row ls name row d) ->
  get_global_var_body parse_csv_row name ls row = Continue.
Proof.
  intros Hpop Hno.
  destruct (get_global_var_body parse_csv_row name ls row)
    as [|[[d|m]|e]] eqn:E; [reflexivity| | |]; exfalso.
  - apply (Hno d), get_global_var_body_inv, E.
  - revert E. unfold get_global_var_body, getitem. body_cases.
  - revert E. unfold get_global_var_body, getitem. body_cases.
    destruct (Hpop row global_var_keys _ ltac:(eassumption) "global_var_name")
      as [v Hv]; [simpl; tauto | congruence].
Qed.

Lemma class_matches_bool (ls : bool) (term c s : string) :
  String.eqb (PyStr.remove_quotes c) term
  || String.eqb (PyStr.remove_quotes s) term
  || (ls && PyStr.contains term (PyStr.remove_quotes c))
  || (ls && PyStr.contains term (PyStr.remove_quotes s)) = true
  <-> name_matches ls term c \/ name_matches ls term s.
Proof.
  unfold name_matches.
  rewrite !orb_true_iff, !andb_true_iff, !String.eqb_eq. tauto.
Qed.

Lemma get_class_body_hit (name : string) (ls : bool) (row : string)
  (d : dict) :
  class_hit parse_csv_row ls name row d ->
  get_class_body parse_csv_row name ls row = Leave (Return (Record d)).
Proof.
  intros (Hc & Hp & c & s & Hcn & Hsn & Hm). unfold get_class_body, getitem.
  rewrite Hc, Hp, (lookup_truthy _ _ _ Hcn), Hcn, Hsn. cbn [negb].
  apply class_matches_bool in Hm. rewrite Hm. reflexivity.
Qed.

Lemma get_class_body_inv (name : string) (ls : bool) (row : string)
  (d : dict) :
  get_class_body parse_csv_row name ls row = Leave (Return (Record d)) ->
  class_hit parse_csv_row ls name row d.
Proof.
  unfold get_class_body, getitem. body_cases.
  intros H. injection H as <-. unfold class_hit.
  split; [assumption|]. split; [assumption|].
  do 2 eexists. split; [eassumption|]. split; [eassumption|].
  apply class_matches_bool. assumption.
Qed.

Lemma get_class_body_miss (name : string) (ls : bool) (row : string) :
  populates parse_csv_row ->
  (forall d, ~ class_hit parse_csv_row ls name row d) ->
  get_class_body parse_csv_row name ls row = Continue.
Proof.
  intros Hpop Hno.
  destruct (get_class_body parse_csv_row name ls row)
    as [|[[d|m]|e]] eqn:E; [reflexivity| | |]; exfalso.
  - apply (Hno d), get_class_body_inv, E.
  - revert E. unfold get_class_body, getitem. body_cases.
  - revert E. unfold get_class_body, getitem. body_cases.
    + destruct (Hpop row class_keys _ ltac:(eassumption) "simple_name")
        as [v Hv]; [simpl; tauto | congruence].
    + destruct (Hpop row class_keys _ ltac:(eassumption) "class_name")
        as [v Hv]; [simpl; tauto | congruence].
Qed.

End Bodies.

(** ** The three name tables *)

Section NameTables.

Variable parse_csv_row : string -> list string -> option dict.
Variable fs : string -> file.
Variable path_join : string -> string -> string.

Lemma two_phase_contract (path label : string)
  (body : bool -> string -> step found) (text : string)
  (hit : bool -> string -> dict -> Prop) :
  (forall ls row d, hit ls row d -> body ls row = Leave (Return (Record d))) ->
  (forall row, (forall d, ~ hit false row d) -> body false row = Continue) ->
  strict_then_fallback (two_phase fs path label body text) path
    (file_rows (fs path)) hit.
Proof.
  intros Hhit Hmiss. split; [|split].
  - apply two_phase_passes.
  - intros pre row post d Hrows Hrow Hpre.
    apply (two_phase_strict_first fs path label body text hit Hhit pre row
             post d Hrows); [|exact Hrow].
    intros p Hp. apply Hmiss. intros d'. apply Hpre, Hp.
  - apply (two_phase_second_pass fs path label body text hit Hhit).
Qed.

Lemma get_macro_contract (curr_db name : string) :
  populates parse_csv_row ->
  strict_then_fallback (get_macro parse_csv_row fs path_join curr_db name)
    (path_join curr_db "Macros.csv")
    (file_rows (fs (path_join curr_db "Macros.csv")))
    (fun ls => macro_hit parse_csv_row ls name).
Proof.
  intros Hpop.
  apply (two_phase_contract (path_join curr_db "Macros.csv") "Macros CSV"
           (get_macro_body parse_csv_row name) (macro_not_found name)
           (fun ls => macro_hit parse_csv_row ls name)).
  - intros ls row d. apply get_macro_body_hit.
  - intros row. apply get_macro_body_miss, Hpop.
Qed.

Lemma get_global_var_contract (curr_db name : string) :
  populates parse_csv_row ->
  let term := PyStr.last_part (PyStr.split "::" name) in
  strict_then_fallback
    (get_global_var parse_csv_row fs path_join curr_db name)
    (path_join curr_db "GlobalVars.csv")
    (file_rows (fs (path_join curr_db "GlobalVars.csv")))
    (fun ls => global_var_hit parse_csv_row ls term).
Proof.
  intros Hpop term.
  apply (two_phase_contract (path_join curr_db "GlobalVars.csv")
           "GlobalVars CSV" (get_global_var_body parse_csv_row term)
           (global_var_not_found name)
           (fun ls => global_var_hit parse_csv_row ls term)).
  - intros ls row d. apply get_global_var_body_hit.
  - intros row. apply get_global_var_body_miss, Hpop.
Qed.

Lemma get_class_contract (curr_db name : string) :
  populates parse_csv_row ->
  let term := PyStr.last_part (PyStr.split "::" name) in
  strict_then_fallback (get_class parse_csv_row fs path_join curr_db name)
    (path_join curr_db "Classes.csv")
    (file_rows (fs (path_join curr_db "Classes.csv")))
    (fun ls => class_hit parse_csv_row ls term).
Proof.
  intros Hpop term.
  apply (two_phase_contract (path_join curr_db "Classes.csv") "Classes CSV"
           (get_class_body parse_csv_row term) (class_not_found name)
           (fun ls => class_hit parse_csv_row ls term)).
  - intros ls row d. apply get_class_body_hit.
  - intros row. apply get_class_body_miss, Hpop.
Qed.

(** A record that [get_macro] returns is a hit of a row for the term as it
    was given. *)
Lemma get_macro_record (curr_db name : string) (less_strict : bool)
  (d : dict) :
  io_result (get_macro parse_csv_row fs path_join curr_db name less_strict)
  = Return (Record d) ->
  exists row ls,
    In row (file_rows (fs (path_join curr_db "Macros.csv")))
    /\ macro_hit parse_csv_row ls name row d.
Proof.
  apply (two_phase_record fs (path_join curr_db "Macros.csv") "Macros CSV"
           (get_macro_body parse_csv_row name) (macro_not_found name)
           (fun ls => macro_hit parse_csv_row ls name)).
  intros ls row d'. apply get_macro_body_inv.
Qed.

Lemma get_global_var_record (curr_db name : string) (less_strict : bool)
  (d : dict) :
  io_result (get_global_var parse_csv_row fs path_join curr_db name
               less_strict)
  = Return (Record d) ->
  exists row ls,
    In row (file_rows (fs (path_join curr_db "GlobalVars.csv")))
    /\ global_var_hit parse_csv_row ls
         (PyStr.last_part (PyStr.split "::" name)) row d.
Proof.
  apply (two_phase_record fs (path_join curr_db "GlobalVars.csv")
           "GlobalVars CSV"
           (get_global_var_body parse_csv_row
              (PyStr.last_part (PyStr.split "::" name)))
           (global_var_not_found name)
           (fun ls => global_var_hit parse_csv_row ls
                        (PyStr.last_part (PyStr.split "::" name)))).
  intros ls row d'. apply get_global_var_body_inv.
Qed.

Lemma get_class_record (curr_db name : string) (less_strict : bool)
  (d : dict) :
  io_result (get_class parse_csv_row fs path_join curr_db name less_strict)
  = Return (Record d) ->
  exists row ls,
    In row (file_rows (fs (path_join curr_db "Classes.csv")))
    /\ class_hit parse_csv_row ls
         (PyStr.last_part (PyStr.split "::" name)) row d.
Proof.
  apply (two_phase_record fs (path_join curr_db "Classes.csv") "Classes CSV"
           (get_class_body parse_csv_row
              (PyStr.last_part (PyStr.split "::" name)))
           (class_not_found name)
           (fun ls => class_hit parse_csv_row ls
                        (PyStr.last_part (PyStr.split "::" name)))).
  intros ls row d'. apply get_class_body_inv.
Qed.

End NameTables.

(** ** get_function_by_name *)

Section ByName.

Variable parse_csv_row : string -> list string -> option dict.
Variable fs : string -> file.
Variables tree term : string.

Lemma by_name_body_hit (ls : bool) (known : dict) (row : string) (d : dict) :
  function_hit parse_csv_row ls term known row d ->
  get_function_by_name_body parse_csv_row term ls known row
  = Leave (Return (Record d, Some known)).
Proof.
  intros ((id & Hid & Hc) & Hp & v & Hv & Hm).
  unfold get_function_by_name_body, getitem.
  rewrite Hid, Hc, Hp, (lookup_truthy _ _ _ Hv), Hv. cbn [negb].
  apply name_matches_bool in Hm. rewrite Hm. reflexivity.
Qed.

Lemma by_name_body_inv (ls : bool) (known : dict) (row : string) (d : dict)
  (parent : option dict) :
  get_function_by_name_body parse_csv_row term ls known row
  = Leave (Return (Record d, parent)) ->
  parent = Some known /\ function_hit parse_csv_row ls term known row d.
Proof.
  unfold get_function_by_name_body, getitem. body_cases.
  intros H. injection H as <- <-. split; [reflexivity|].
  unfold function_hit.
  split; [eexists; split; eassumption|]. split; [assumption|].
  eexists. split; [eassumption|]. apply name_matches_bool. assumption.
Qed.

Lemma by_name_body_miss (ls : bool) (known : dict) (row : string) :
  populates parse_csv_row ->
  (exists id, lookup known "function_id" = Some id) ->
  (forall d, ~ function_hit parse_csv_row ls term known row d) ->
  get_function_by_name_body parse_csv_row term ls known row = Continue.
Proof.
  clear fs tree. intros Hpop [id Hid] Hno.
  destruct (get_function_by_name_body parse_csv_row term ls known row)
    as [|[[[d|m] parent]|e]] eqn:E; [reflexivity| | |]; exfalso.
  - apply by_name_body_inv in E as [_ E]. apply (Hno d), E.
  - revert E. unfold get_function_by_name_body, getitem. body_cases.
  - revert E. unfold get_function_by_name_body, getitem. rewrite Hid.
    body_cases.
    destruct (Hpop row function_keys _ ltac:(eassumption) "function_name")
      as [v Hv]; [simpl; tauto | congruence].
Qed.

Lemma by_name_loop_cons (ls : bool) (known : dict) (others : list dict)
  (after : io (found * option dict)) :
  get_function_by_name_loop parse_csv_row fs tree term ls (known :: others)
    after
  = match for_rows (get_function_by_name_body parse_csv_row term ls known)
            (file_rows (fs tree)) with
    | Leave r => ([Open tree], r)
    | Continue =>
        match reading_ends fs tree "Function tree file" with
        | Some e => ([Open tree], Raise e)
        | None =>
            let rest :=
              get_function_by_name_loop parse_csv_row fs tree term ls others
                after in
            (Open tree :: io_log rest, io_result rest)
        end
    end.
Proof.
  cbn [get_function_by_name_loop]. unfold bind, open_file, raise.
  destruct (for_rows _ (file_rows (fs tree))); [|reflexivity].
  destruct (reading_ends fs tree "Function tree file"); [reflexivity|].
  destruct (get_function_by_name_loop _ _ _ _ _ others after). reflexivity.
Qed.

(** One pass for every known function, at most. *)
Lemma by_name_loop_passes (ls : bool) (all : list dict)
  (after : io (found * option dict)) :
  (passes (get_function_by_name_loop parse_csv_row fs tree term ls all after)
   <= List.length all + passes after)%nat.
Proof.
  induction all as [|k all IH]; [cbn; lia|].
  rewrite by_name_loop_cons.
  destruct (for_rows _ (file_rows (fs tree))); [|cbn; lia].
  destruct (reading_ends fs tree "Function tree file"); [cbn; lia|].
  unfold passes in *. cbn [io_log fst List.length]. cbn [io_log] in IH. lia.
Qed.

(** More passes than known functions: the loop ran through all of them
    without leaving. *)
Lemma by_name_loop_over (ls : bool) (all : list dict)
  (after : io (found * option dict)) :
  (List.length all
   < passes (get_function_by_name_loop parse_csv_row fs tree term ls all
               after))%nat ->
  forall k, In k all ->
    for_rows (get_function_by_name_body parse_csv_row term ls k)
      (file_rows (fs tree)) = Continue.
Proof.
  induction all as [|k0 all IH]; intros Hlen k Hk; [destruct Hk|].
  rewrite by_name_loop_cons in Hlen.
  destruct (for_rows (get_function_by_name_body parse_csv_row term ls k0)
              (file_rows (fs tree))) eqn:E;
    [|cbn in Hlen; lia].
  destruct (reading_ends fs tree "Function tree file");
    [cbn in Hlen; lia|].
  destruct Hk as [<-|Hk]; [exact E|].
  apply IH; [|exact Hk].
  unfold passes in *. cbn [io_log fst List.length] in Hlen.
  cbn [io_log]. lia.
Qed.

(** The loop leaves at the first known function one of whose rows makes the
    body leave. *)
Lemma by_name_loop_first (ls : bool) (before : list dict) (known : dict)
  (others : list dict) (after : io (found * option dict))
  (r : outcome (found * option dict)) :
  reading_ends fs tree "Function tree file" = None ->
  (forall k, In k before ->
     for_rows (get_function_by_name_body parse_csv_row term ls k)
       (file_rows (fs tree)) = Continue) ->
  for_rows (get_function_by_name_body parse_csv_row term ls known)
    (file_rows (fs tree)) = Leave r ->
  get_function_by_name_loop parse_csv_row fs tree term ls
    (before ++ known :: others)%list after
  = (List.repeat (Open tree) (S (List.length before)), r).
Proof.
  intros Hend Hbefore Hknown.
  induction before as [|k before IH]; cbn [List.app].
  - rewrite by_name_loop_cons, Hknown. reflexivity.
  - rewrite by_name_loop_cons, (Hbefore k (or_introl eq_refl)), Hend.
    rewrite IH; [reflexivity|].
    intros k' Hk'. apply Hbefore. right; exact Hk'.
Qed.

(** A record comes from the loop or from what follows it. *)
Lemma by_name_loop_record (ls : bool) (all : list dict)
  (after : io (found * option dict)) (d : dict) (parent : option dict) :
  io_result (get_function_by_name_loop parse_csv_row fs tree term ls all
               after)
  = Return (Record d, parent) ->
  (exists known row,
      In known all /\ In row (file_rows (fs tree))
      /\ parent = Some known
      /\ function_hit parse_csv_row ls term known row d)
  \/ io_result after = Return (Record d, parent).
Proof.
  induction all as [|k all IH]; [intros H; right; exact H|].
  rewrite by_name_loop_cons.
  destruct (for_rows (get_function_by_name_body parse_csv_row term ls k)
              (file_rows (fs tree))) eqn:E.
  - destruct (reading_ends fs tree "Function tree file");
      [discriminate|].
    cbn [io_result snd]. intros H. destruct (IH H) as [Hl|Hr]; [|right; exact Hr].
    left. destruct Hl as (known & row & Hin & Hrest).
    exists known, row. split; [right; exact Hin | exact Hrest].
  - cbn [io_result snd]. intros ->. left.
    apply for_rows_leave_inv in E as (pre & row & post & Hrows & _ & Hrow).
    apply by_name_body_inv in Hrow as [-> Hhit].
    exists k, row. split; [left; reflexivity|].
    split; [rewrite Hrows; apply in_or_app; right; left; reflexivity|].
    split; [reflexivity | exact Hhit].
Qed.

End ByName.

(** ** The model parser *)

Lemma lookup_combine (keys fields : list string) (k : string) :
  List.length fields = List.length keys ->
  In k keys ->
  exists v, lookup (List.combine keys fields) k = Some v.
Proof.
  revert fields. induction keys as [|k0 keys IH]; intros fields Hlen Hin;
    [destruct Hin|].
  destruct fields as [|f fields]; [discriminate|].
  cbn [List.combine lookup].
  destruct (String.eqb k0 k) eqn:E; [exists f; reflexivity|].
  apply IH.
  - simpl in Hlen. congruence.
  - destruct Hin as [->|Hin]; [|exact Hin].
    rewrite String.eqb_refl in E. discriminate.
Qed.

Lemma parse_csv_row_model_populates : populates parse_csv_row_model.
Proof.
  intros row keys d Hparse k Hin. unfold parse_csv_row_model in Hparse.
  destruct (Nat.eqb _ _) eqn:E; [|discriminate].
  injection Hparse as <-. apply Nat.eqb_eq in E.
  apply lookup_combine; assumption.
Qed.

(** ** Strict pass first *)

(** C1, as the code has it.  With fallback disabled, [get_macro],
    [get_global_var] and [get_class] run the strict pass over the table
    first: the first row in file order that is a strict hit is returned
    after that single pass, whatever the rows before it would give the
    fallback; a second pass is made only when no row is a strict hit; and no
    call makes more than two passes.  [get_function_by_name] keeps the order
    of the phases, but opens and scans the table once for every known
    function in each phase: the first strict hit in the order of the known
    functions, then of the rows, is returned; the fallback starts only when
    no known function has a strict hit; and a call makes at most twice as
    many passes as there are known functions. *)
Theorem strict_pass_before_fallback
  (parse_csv_row : string -> list string -> option dict)
  (fs : string -> file) (path_join : string -> string -> string) :
  populates parse_csv_row ->
  (forall curr_db name,
      strict_then_fallback
        (get_macro parse_csv_row fs path_join curr_db name)
        (path_join curr_db "Macros.csv")
        (file_rows (fs (path_join curr_db "Macros.csv")))
        (fun ls => macro_hit parse_csv_row ls name))
  /\ (forall curr_db name,
         strict_then_fallback
           (get_global_var parse_csv_row fs path_join curr_db name)
           (path_join curr_db "GlobalVars.csv")
           (file_rows (fs (path_join curr_db "GlobalVars.csv")))
           (fun ls =>
              global_var_hit parse_csv_row ls
                (PyStr.last_part (PyStr.split "::" name))))
  /\ (forall curr_db name,
         strict_then_fallback
           (get_class parse_csv_row fs path_join curr_db name)
           (path_join curr_db "Classes.csv")
           (file_rows (fs (path_join curr_db "Classes.csv")))
           (fun ls =>
              class_hit parse_csv_row ls
                (PyStr.last_part (PyStr.split "::" name))))
  /\ (forall tree name all,
         let term := PyStr.last_part (PyStr.split "::" name) in
         let call := get_function_by_name parse_csv_row fs tree name all in
         (forall less_strict,
             (passes (call less_strict) <= 2 * List.length all)%nat)
         /\ (forall before known others pre row post d,
                all = (before ++ known :: others)%list ->
                fs tree = mk_file (pre ++ row :: post)%list None ->
                (forall k, In k before ->
                   exists id, lookup k "function_id" = Some id) ->
                (forall k r d',
                    In k before -> In r (pre ++ row :: post)%list ->
                    ~ function_hit parse_csv_row false term k r d') ->
                (forall p d',
                    In p pre ->
                    ~ function_hit parse_csv_row false term known p d') ->
                function_hit parse_csv_row false term known row d ->
                call false
                = (List.repeat (Open tree) (S (List.length before)),
                   Return (Record d, Some known)))
         /\ ((List.length all < passes (call false))%nat ->
             forall known row d,
               In known all -> In row (file_rows (fs tree)) ->
               ~ function_hit parse_csv_row false term known row d)).
Proof.
  intros Hpop. split; [|split; [|split]].
  - intros curr_db name. apply get_macro_contract, Hpop.
  - intros curr_db name. apply get_global_var_contract, Hpop.
  - intros curr_db name. apply get_class_contract, Hpop.
  - intros tree name all term call. subst call.
    unfold get_function_by_name. fold term. cbn [negb].
    split; [|split].
    + intros [|]; cbn [negb].
      * pose proof (by_name_loop_passes parse_csv_row fs tree term true all
                      (ret (Message (function_not_found name), None))) as H.
        unfold passes, io_log in *. cbn [ret fst List.length] in H. lia.
      * pose proof (by_name_loop_passes parse_csv_row fs tree term false all
                      (get_function_by_name_loop parse_csv_row fs tree term
                         true all
                         (ret (Message (function_not_found name), None))))
          as H1.
        pose proof (by_name_loop_passes parse_csv_row fs tree term true all
                      (ret (Message (function_not_found name), None))) as H2.
        unfold passes, io_log in *. cbn [ret fst List.length] in H2. lia.
    + intros before known others pre row post d -> Hfs Hids Hbefore Hpre Hrow.
      apply by_name_loop_first.
      * apply (reading_ends_table fs tree _ _ Hfs).
      * intros k Hk. apply for_rows_continue. intros r Hr.
        apply by_name_body_miss;
          [exact Hpop | apply Hids, Hk|].
        intros d'. apply Hbefore; [exact Hk|].
        rewrite Hfs in Hr. exact Hr.
      * rewrite Hfs. cbn [file_rows]. apply for_rows_first.
        -- intros p Hp.
           apply by_name_body_miss; [exact Hpop | |].
           ++ destruct Hrow as ((id & Hid & _) & _). exists id; exact Hid.
           ++ intros d'. apply Hpre, Hp.
        -- apply by_name_body_hit, Hrow.
    + intros Hlen known row d Hknown Hin Hhit.
      pose proof (by_name_loop_over parse_csv_row fs tree term false all _
                    Hlen known Hknown) as Hover.
      pose proof (for_rows_continue_inv _ _ Hover row Hin) as Hcont.
      rewrite (by_name_body_hit _ _ _ _ _ _ Hhit) in Hcont. discriminate.
Qed.

Lemma get_macro_min_len_exact :
  get_macro parse_csv_row_model (only_file "db/Macros.csv" min_len_table)
    path_join_model "db" "MIN_LEN" false
  = ([Open "db/Macros.csv"], Return (Record min_len_dict)).
Proof.
  destruct (strict_pass_before_fallback parse_csv_row_model
              (only_file "db/Macros.csv" min_len_table) path_join_model
              parse_csv_row_model_populates) as (Hmacro & _).
  destruct (Hmacro "db" "MIN_LEN") as (_ & Hfirst & _).
  apply (Hfirst [csv_line [quoted "MIN_LEN_MAX"; quoted "64"]]
           (csv_line [quoted "MIN_LEN"; quoted "8"]) [] min_len_dict).
  - reflexivity.
  - split; [vm_compute; reflexivity|]. split; [vm_compute; reflexivity|].
    exists (quoted "MIN_LEN"). split; [reflexivity|].
    left. vm_compute. reflexivity.
  - intros p d' [<-|[]] (_ & Hp & v & Hv & Hm).
    vm_compute in Hp. injection Hp as <-.
    vm_compute in Hv. injection Hv as <-.
    destruct Hm as [Hm|[Hm _]]; vm_compute in Hm; discriminate.
Defined.

(** The bound of two passes that the specification gives does not hold for
    [get_function_by_name]: with two known functions and a name that no row
    carries, the call makes four passes over the table. *)
Lemma get_function_by_name_four_passes :
  passes (get_function_by_name parse_csv_row_model net_machine
            "FunctionTree.csv" "missing" [net_dict_1; net_dict_2] false)
  = 4%nat
  /\ ~ (passes (get_function_by_name parse_csv_row_model net_machine
                  "FunctionTree.csv" "missing" [net_dict_1; net_dict_2]
                  false) <= 2)%nat.
Proof.
  split; [vm_compute; reflexivity|].
  vm_compute. intros H.
  repeat match goal with H : (S _ <= _)%nat |- _ => apply le_S_n in H end.
  inversion H.
Qed.

(** ** The search term of get_macro *)

(** The specification has [get_macro] strip the qualifier; it does not.  The
    macro table has a row whose stored name, without its quotes, is [bar],
    and [get_macro] called with [Foo::bar] does not return it; after two
    passes it returns the not-found text.  [get_global_var], which cuts the
    qualifier off, finds the variable [bar] under the same name. *)
Lemma get_macro_keeps_qualifier :
  parse_csv_row_model (csv_line [quoted "bar"; quoted "1"]) macro_keys
  = Some bar_dict
  /\ option_map PyStr.remove_quotes (lookup bar_dict "macro_name")
     = Some "bar"
  /\ get_macro parse_csv_row_model (only_file "db/Macros.csv" bar_table)
       path_join_model "db" "Foo::bar" false
     = ([Open "db/Macros.csv"; Open "db/Macros.csv"],
        Return (Message (macro_not_found "Foo::bar")))
  /\ exists d,
      get_global_var parse_csv_row_model
        (only_file "db/GlobalVars.csv" bar_globals) path_join_model "db"
        "Foo::bar" false
      = ([Open "db/GlobalVars.csv"], Return (Record d)).
Proof.
  split; [vm_compute; reflexivity|].
  split; [vm_compute; reflexivity|].
  split; [vm_compute; reflexivity|].
  eexists. vm_compute. reflexivity.
Qed.

(** C3, as the code has it.  [get_macro] matches on the search term as it is
    given and strips no qualifier from it: a record it returns is the parse
    of a row of the table whose raw text contains the whole term and whose
    stored [macro_name], without its quotes, contains the whole term (the
    strict phase asks for equality, see [macro_hit]). *)
Theorem get_macro_matches_given_term
  (parse_csv_row : string -> list string -> option dict)
  (fs : string -> file) (path_join : string -> string -> string)
  (curr_db macro_name : string) (less_strict : bool) (d : dict) :
  io_result (get_macro parse_csv_row fs path_join curr_db macro_name
               less_strict)
  = Return (Record d) ->
  exists row stored,
    In row (file_rows (fs (path_join curr_db "Macros.csv")))
    /\ PyStr.contains macro_name row = true
    /\ parse_csv_row row macro_keys = Some d
    /\ lookup d "macro_name" = Some stored
    /\ PyStr.contains macro_name (PyStr.remove_quotes stored) = true.
Proof.
  intros H. apply get_macro_record in H as (row & ls & Hin & Hhit).
  destruct Hhit as (Hc & Hp & v & Hv & Hm).
  exists row, v. repeat (split; [assumption|]).
  apply (name_matches_contains ls), Hm.
Qed.

Lemma get_macro_bar_given_bar :
  exists row stored,
    In row bar_table
    /\ PyStr.contains "bar" row = true
    /\ parse_csv_row_model row macro_keys = Some bar_dict
    /\ lookup bar_dict "macro_name" = Some stored
    /\ PyStr.contains "bar" (PyStr.remove_quotes stored) = true.
Proof.
  apply (get_macro_matches_given_term parse_csv_row_model
           (only_file "db/Macros.csv" bar_table) path_join_model "db" "bar"
           false bar_dict).
  vm_compute. reflexivity.
Defined.

(** ** Quotes *)

Lemma remove_char_append (c : ascii) (a b : string) :
  PyStr.remove_char c (a ++ b)
  = PyStr.remove_char c a ++ PyStr.remove_char c b.
Proof.
  induction a as [|x a IH]; simpl; [reflexivity|].
  destruct (Ascii.eqb x c); rewrite IH; reflexivity.
Qed.

(** A name stored between quotes is, once the quotes are removed, the
    name. *)
Lemma remove_quotes_quoted (term : string) :
  PyStr.remove_quotes term = term ->
  PyStr.remove_quotes (quoted term) = term.
Proof.
  intros H. unfold quoted, PyStr.remove_quotes in *.
  cbn [PyStr.remove_char]. rewrite Ascii.eqb_refl, remove_char_append, H.
  cbn [PyStr.remove_char]. rewrite Ascii.eqb_refl. apply append_empty_r.
Qed.

Lemma quoted_name_matches (term : string) :
  PyStr.remove_quotes term = term ->
  name_matches false term (quoted term).
Proof. intros H. left. apply remove_quotes_quoted, H. Qed.

(** C5.  The quotes are removed for the comparison only.  Every record that
    a resolver returns is the dictionary the parser gave for a row of the
    table, with all its fields as parsed; and a row whose stored name is the
    search term between quotes is a strict hit for the term without quotes:
    when no row before it is one, the resolver returns its dictionary, in
    which the name still carries the quotes. *)
Theorem quotes_removed_only_to_compare
  (parse_csv_row : string -> list string -> option dict)
  (fs : string -> file) (path_join : string -> string -> string) :
  populates parse_csv_row ->
  ((forall curr_db name less_strict d,
       io_result (get_macro parse_csv_row fs path_join curr_db name
                    less_strict) = Return (Record d) ->
       exists row,
         In row (file_rows (fs (path_join curr_db "Macros.csv")))
         /\ parse_csv_row row macro_keys = Some d)
   /\ (forall curr_db name less_strict d,
          io_result (get_global_var parse_csv_row fs path_join curr_db name
                       less_strict) = Return (Record d) ->
          exists row,
            In row (file_rows (fs (path_join curr_db "GlobalVars.csv")))
            /\ parse_csv_row row global_var_keys = Some d)
   /\ (forall curr_db name less_strict d,
          io_result (get_class parse_csv_row fs path_join curr_db name
                       less_strict) = Return (Record d) ->
          exists row,
            In row (file_rows (fs (path_join curr_db "Classes.csv")))
            /\ parse_csv_row row class_keys = Some d)
   /\ (forall tree name all less_strict d parent,
          io_result (get_function_by_name parse_csv_row fs tree name all
                       less_strict) = Return (Record d, parent) ->
          exists row,
            In row (file_rows (fs tree))
            /\ parse_csv_row row function_keys = Some d))
  /\ ((forall curr_db term pre row post d,
          PyStr.remove_quotes term = term ->
          file_rows (fs (path_join curr_db "Macros.csv"))
          = (pre ++ row :: post)%list ->
          (forall p d', In p pre -> ~ macro_hit parse_csv_row false term p d') ->
          PyStr.contains term row = true ->
          parse_csv_row row macro_keys = Some d ->
          lookup d "macro_name" = Some (quoted term) ->
          get_macro parse_csv_row fs path_join curr_db term false
          = ([Open (path_join curr_db "Macros.csv")], Return (Record d)))
      /\ (forall curr_db name pre row post d,
             let term := PyStr.last_part (PyStr.split "::" name) in
             PyStr.remove_quotes term = term ->
             file_rows (fs (path_join curr_db "GlobalVars.csv"))
             = (pre ++ row :: post)%list ->
             (forall p d',
                 In p pre -> ~ global_var_hit parse_csv_row false term p d') ->
             PyStr.contains term row = true ->
             parse_csv_row row global_var_keys = Some d ->
             lookup d "global_var_name" = Some (quoted term) ->
             get_global_var parse_csv_row fs path_join curr_db name false
             = ([Open (path_join curr_db "GlobalVars.csv")],
                Return (Record d)))
      /\ (forall curr_db name pre row post d,
             let term := PyStr.last_part (PyStr.split "::" name) in
             PyStr.remove_quotes term = term ->
             file_rows (fs (path_join curr_db "Classes.csv"))
             = (pre ++ row :: post)%list ->
             (forall p d',
                 In p pre -> ~ class_hit parse_csv_row false term p d') ->
             PyStr.contains term row = true ->
             parse_csv_row row class_keys = Some d ->
             lookup d "class_name" = Some (quoted term) ->
             get_class parse_csv_row fs path_join curr_db name false
             = ([Open (path_join curr_db "Classes.csv")], Return (Record d)))
      /\ (forall tree name known others id pre row post d,
             let term := PyStr.last_part (PyStr.split "::" name) in
             PyStr.remove_quotes term = term ->
             fs tree = mk_file (pre ++ row :: post)%list None ->
             (forall p d',
                 In p pre ->
                 ~ function_hit parse_csv_row false term known p d') ->
             lookup known "function_id" = Some id ->
             PyStr.contains id row = true ->
             parse_csv_row row function_keys = Some d ->
             lookup d "function_name" = Some (quoted term) ->
             get_function_by_name parse_csv_row fs tree name
               (known :: others) false
             = ([Open tree], Return (Record d, Some known)))).
Proof.
  intros Hpop. split; [split; [|split; [|split]] | split; [|split; [|split]]].
  - intros curr_db name ls d H.
    apply get_macro_record in H as (row & ls' & Hin & _ & Hp & _).
    exists row. split; assumption.
  - intros curr_db name ls d H.
    apply get_global_var_record in H as (row & ls' & Hin & _ & Hp & _).
    exists row. split; assumption.
  - intros curr_db name ls d H.
    apply get_class_record in H as (row & ls' & Hin & _ & Hp & _).
    exists row. split; assumption.
  - intros tree name all ls d parent H.
    unfold get_function_by_name in H.
    assert (Hfallback :
              forall after,
                after = ret (Message (function_not_found name), None) ->
                io_result after <> Return (Record d, parent)).
    { intros after ->. discriminate. }
    destruct ls; cbn [negb] in H.
    + apply by_name_loop_record in H
        as [(known & row & _ & Hin & _ & _ & Hp & _)|H].
      * exists row. split; assumption.
      * destruct (Hfallback _ eq_refl H).
    + apply by_name_loop_record in H
        as [(known & row & _ & Hin & _ & _ & Hp & _)|H].
      * exists row. split; assumption.
      * apply by_name_loop_record in H
          as [(known & row & _ & Hin & _ & _ & Hp & _)|H].
        -- exists row. split; assumption.
        -- destruct (Hfallback _ eq_refl H).
  - intros curr_db term pre row post d Hq Hrows Hpre Hc Hp Hv.
    destruct (get_macro_contract parse_csv_row fs path_join curr_db term Hpop)
      as (_ & Hfirst & _).
    apply (Hfirst pre row post d Hrows); [|exact Hpre].
    split; [exact Hc|]. split; [exact Hp|].
    exists (quoted term). split; [exact Hv | apply quoted_name_matches, Hq].
  - intros curr_db name pre row post d term Hq Hrows Hpre Hc Hp Hv.
    destruct (get_global_var_contract parse_csv_row fs path_join curr_db name
                Hpop) as (_ & Hfirst & _).
    apply (Hfirst pre row post d Hrows); [|exact Hpre].
    split; [exact Hc|]. split; [exact Hp|].
    exists (quoted term). split; [exact Hv | apply quoted_name_matches, Hq].
  - intros curr_db name pre row post d term Hq Hrows Hpre Hc Hp Hv.
    destruct (get_class_contract parse_csv_row fs path_join curr_db name
                Hpop) as (_ & Hfirst & _).
    apply (Hfirst pre row post d Hrows); [|exact Hpre].
    split; [exact Hc|]. split; [exact Hp|].
    destruct (Hpop row class_keys d Hp "simple_name") as [s Hs];
      [simpl; tauto|].
    exists (quoted term), s. split; [exact Hv|]. split; [exact Hs|].
    left. apply quoted_name_matches, Hq.
  - intros tree name known others id pre row post d term Hq Hfs Hpre Hid Hc
      Hp Hv.
    assert (Hhit : function_hit parse_csv_row false term known row d).
    { split; [exists id; split; assumption|]. split; [exact Hp|].
      exists (quoted term). split; [exact Hv | apply quoted_name_matches, Hq]. }
    unfold get_function_by_name. fold term. cbn [negb].
    apply (by_name_loop_first parse_csv_row fs tree term false [] known
             others).
    + apply (reading_ends_table fs tree _ _ Hfs).
    + intros k [].
    + rewrite Hfs. cbn [file_rows]. apply for_rows_first.
      * intros p Hp'. apply by_name_body_miss;
          [exact Hpop | exists id; exact Hid|].
        intros d'. apply Hpre, Hp'.
      * apply by_name_body_hit, Hhit.
Qed.

Lemma get_macro_bar_keeps_quotes :
  get_macro parse_csv_row_model (only_file "db/Macros.csv" bar_table)
    path_join_model "db" "bar" false
  = ([Open "db/Macros.csv"], Return (Record bar_dict))
  /\ lookup bar_dict "macro_name" = Some (quoted "bar").
Proof.
  split; [|reflexivity].
  destruct (quotes_removed_only_to_compare parse_csv_row_model
              (only_file "db/Macros.csv" bar_table) path_join_model
              parse_csv_row_model_populates) as (_ & Hmacro & _).
  apply (Hmacro "db" "bar" [] (csv_line [quoted "bar"; quoted "1"]) []
           bar_dict).
  - reflexivity.
  - reflexivity.
  - intros p d' [].
  - vm_compute. reflexivity.
  - vm_compute. reflexivity.
  - reflexivity.
Defined.

(** ** get_caller_function *)

Section Caller.

Variable parse_csv_row : string -> list string -> option dict.
Variable fs : string -> file.

Lemma caller_body_inv (caller_id row : string) (d : dict) :
  get_caller_function_body parse_csv_row caller_id row
  = Leave (Return (Record d)) ->
  caller_hit parse_csv_row caller_id row d.
Proof.
  unfold get_caller_function_body, getitem. body_cases.
  intros H. injection H as <-. unfold caller_hit.
  split; [assumption|]. split; [assumption|].
  eexists. split; [eassumption|]. apply String.eqb_eq. assumption.
Qed.

Lemma caller_body_miss (caller_id row : string) :
  populates parse_csv_row ->
  (forall d, ~ caller_hit parse_csv_row caller_id row d) ->
  get_caller_function_body parse_csv_row caller_id row = Continue.
Proof.
  clear fs. intros Hpop Hno.
  destruct (get_caller_function_body parse_csv_row caller_id row)
    as [|[[d|m]|e]] eqn:E; [reflexivity| | |]; exfalso.
  - apply (Hno d), caller_body_inv, E.
  - revert E. unfold get_caller_function_body, getitem. body_cases.
  - revert E. unfold get_caller_function_body, getitem. body_cases.
    destruct (Hpop row function_keys _ ltac:(eassumption) "function_id")
      as [v Hv]; [simpl; tauto | congruence].
Qed.

(** What [get_function_by_line] returns is never an empty dictionary. *)
Lemma get_function_by_line_truthy (tree file : string) (line : Z)
  (d : dict) :
  io_result (get_function_by_line parse_csv_row fs tree file line)
  = Return (Some d) ->
  truthy (Some d) = true.
Proof.
  unfold get_function_by_line. rewrite for_csv_lines_cases.
  destruct (for_rows (get_function_by_line_body parse_csv_row file line)
              (file_rows (fs tree))) as [|r] eqn:E.
  - destruct (reading_ends fs tree "Function tree file"); discriminate.
  - cbn [io_result snd]. intros ->.
    apply for_rows_leave_inv in E as (pre & row & post & _ & _ & Hrow).
    apply by_line_body_leave in Hrow
      as (_ & _ & s & _ & _ & _ & Hs & _).
    apply (lookup_truthy _ _ _ Hs).
Qed.

End Caller.

(** The specification has the fallback drop the quote and keep the path
    [/src/foo.c]; it does not.  The caller id is the text [/src/foo.c]
    between quotes, a colon and 42.  The one row of the table
    lies in [xsrc/foo.c]: a lookup by line for the file part [/src/foo.c]
    finds nothing, a lookup for [src/foo.c] finds the row, and
    [get_caller_function] returns the row: the file part it hands over has
    lost the first character of the path, the quotes having been removed
    before. *)
Lemma caller_file_part_loses_path_character :
  lookup called_from_foo "caller_id" = Some (quoted "/src/foo.c" ++ ":42")
  /\ io_result (get_function_by_line parse_csv_row_model xsrc_machine
                  "FunctionTree.csv" "/src/foo.c" 42)
     = Return None
  /\ io_result (get_function_by_line parse_csv_row_model xsrc_machine
                  "FunctionTree.csv" "src/foo.c" 42)
     = Return (Some xsrc_dict)
  /\ io_result (get_caller_function parse_csv_row_model xsrc_machine
                  "FunctionTree.csv" called_from_foo)
     = Return (Record xsrc_dict).
Proof. repeat split; vm_compute; reflexivity. Qed.

(** C4, as the code has it.  When no row of the table is the caller's by
    id, [get_caller_function] takes the caller id without its quote
    characters and surrounding whitespace, cuts it at the colons and, when
    that gives exactly two parts, drops the first character of the first
    part, reads the second as an integer and hands both to
    [get_function_by_line], whose row it returns (the not-found text when
    there is none).  For the caller id made of [/src/foo.c] between quotes,
    a colon and 42, the quotes are gone before the cut, so the parts are
    [/src/foo.c] and [42], and the file handed over is [src/foo.c] with the
    line 42. *)
Theorem get_caller_function_decodes
  (parse_csv_row : string -> list string -> option dict)
  (fs : string -> file) (tree : string) (current_function : dict)
  (raw file_part line_part : string) (line : Z) (rows : list string) :
  populates parse_csv_row ->
  lookup current_function "caller_id" = Some raw ->
  fs tree = mk_file rows None ->
  (forall row d,
      In row rows ->
      ~ caller_hit parse_csv_row (PyStr.strip (PyStr.remove_quotes raw)) row
          d) ->
  PyStr.split ":" (PyStr.strip (PyStr.remove_quotes raw))
  = [file_part; line_part] ->
  PyStr.int_of_str line_part = Some line ->
  (let by_line :=
     get_function_by_line parse_csv_row fs tree (PyStr.drop_first file_part)
       line in
   get_caller_function parse_csv_row fs tree current_function
   = (Open tree :: io_log by_line,
      match io_result by_line with
      | Return (Some d) => Return (Record d)
      | Return None => Return (Message caller_not_found)
      | Raise e => Raise e
      end))
  /\ (let caller_id :=
        PyStr.strip (PyStr.remove_quotes (quoted "/src/foo.c" ++ ":42")) in
      caller_id = "/src/foo.c:42"
      /\ PyStr.split ":" caller_id = ["/src/foo.c"; "42"]
      /\ PyStr.drop_first "/src/foo.c" = "src/foo.c"
      /\ PyStr.int_of_str "42" = Some 42%Z).
Proof.
  intros Hpop Hraw Hfs Hno Hsplit Hint.
  split; [|repeat split; vm_compute; reflexivity].
  intros by_line. unfold get_caller_function, getitem. rewrite Hraw.
  rewrite (for_csv_lines_miss fs _ _ _ _ rows Hfs).
  - unfold get_caller_function_fallback. rewrite Hsplit, Hint.
    fold by_line. unfold bind.
    pose proof (get_function_by_line_truthy parse_csv_row fs tree
                  (PyStr.drop_first file_part) line) as Htruthy.
    fold by_line in Htruthy.
    destruct by_line as [log [[d|]|e]]; cbn [io_log io_result fst snd] in *.
    + rewrite (Htruthy d eq_refl). cbn [ret]. rewrite app_nil_r. reflexivity.
    + cbn [truthy ret]. rewrite app_nil_r. reflexivity.
    + reflexivity.
  - apply for_rows_continue. intros row Hrow.
    apply caller_body_miss; [exact Hpop|].
    intros d. apply Hno, Hrow.
Qed.

Lemma get_caller_function_foo_42 :
  (let by_line :=
     get_function_by_line parse_csv_row_model
       (only_file "FunctionTree.csv" [xsrc_row]) "FunctionTree.csv"
       (PyStr.drop_first "/src/foo.c") 42 in
   get_caller_function parse_csv_row_model
     (only_file "FunctionTree.csv" [xsrc_row]) "FunctionTree.csv"
     called_from_foo
   = (Open "FunctionTree.csv" :: io_log by_line,
      match io_result by_line with
      | Return (Some d) => Return (Record d)
      | Return None => Return (Message caller_not_found)
      | Raise e => Raise e
      end))
  /\ (let caller_id :=
        PyStr.strip (PyStr.remove_quotes (quoted "/src/foo.c" ++ ":42")) in
      caller_id = "/src/foo.c:42"
      /\ PyStr.split ":" caller_id = ["/src/foo.c"; "42"]
      /\ PyStr.drop_first "/src/foo.c" = "src/foo.c"
      /\ PyStr.int_of_str "42" = Some 42%Z).
Proof.
  apply (get_caller_function_decodes parse_csv_row_model
           (only_file "FunctionTree.csv" [xsrc_row]) "FunctionTree.csv"
           called_from_foo (quoted "/src/foo.c" ++ ":42") "/src/foo.c" "42"
           42%Z [xsrc_row]).
  - exact parse_csv_row_model_populates.
  - reflexivity.
  - reflexivity.
  - intros row d [<-|[]] (Hc & _). vm_compute in Hc. discriminate.
  - vm_compute. reflexivity.
  - vm_compute. reflexivity.
Defined.

(** ** The recursion of the resolvers *)

(** The definitions above write the one recursive call out; these are the
    equations of the source, where the call with [less_strict] false ends in
    the call with [less_strict] true. *)
Lemma get_function_by_name_eq
  (parse_csv_row : string -> list string -> option dict)
  (fs : string -> file) (tree name : string) (all : list dict)
  (less_strict : bool) :
  get_function_by_name parse_csv_row fs tree name all less_strict
  = get_function_by_name_loop parse_csv_row fs tree
      (PyStr.last_part (PyStr.split "::" name)) less_strict all
      (if negb less_strict
       then get_function_by_name parse_csv_row fs tree name all true
       else ret (Message (function_not_found name), None)).
Proof. destruct less_strict; reflexivity. Qed.

Lemma get_macro_eq
  (parse_csv_row : string -> list string -> option dict)
  (fs : string -> file) (path_join : string -> string -> string)
  (curr_db name : string) (less_strict : bool) :
  get_macro parse_csv_row fs path_join curr_db name less_strict
  = for_csv_lines fs (path_join curr_db "Macros.csv") "Macros CSV"
      (get_macro_body parse_csv_row name less_strict)
      (if negb less_strict
       then get_macro parse_csv_row fs path_join curr_db name true
       else ret (Message (macro_not_found name))).
Proof. destruct less_strict; reflexivity. Qed.

Lemma get_global_var_eq
  (parse_csv_row : string -> list string -> option dict)
  (fs : string -> file) (path_join : string -> string -> string)
  (curr_db name : string) (less_strict : bool) :
  get_global_var parse_csv_row fs path_join curr_db name less_strict
  = for_csv_lines fs (path_join curr_db "GlobalVars.csv") "GlobalVars CSV"
      (get_global_var_body parse_csv_row
         (PyStr.last_part (PyStr.split "::" name)) less_strict)
      (if negb less_strict
       then get_global_var parse_csv_row fs path_join curr_db name true
       else ret (Message (global_var_not_found name))).
Proof. destruct less_strict; reflexivity. Qed.

Lemma get_class_eq
  (parse_csv_row : string -> list string -> option dict)
  (fs : string -> file) (path_join : string -> string -> string)
  (curr_db name : string) (less_strict : bool) :
  get_class parse_csv_row fs path_join curr_db name less_strict
  = for_csv_lines fs (path_join curr_db "Classes.csv") "Classes CSV"
      (get_class_body parse_csv_row
         (PyStr.last_part (PyStr.split "::" name)) less_strict)
      (if negb less_strict
       then get_class parse_csv_row fs path_join curr_db name true
       else ret (Message (class_not_found name))).
Proof. destruct less_strict; reflexivity. Qed.

(** ** The string primitives on small inputs *)

Example strip_ex :
  PyStr.strip ("  a b" ++ newline ++ " ") = "a b".
Proof. reflexivity. Qed.

Example split_overlap_ex : PyStr.split "::" "a:::b" = ["a"; ":b"].
Proof. reflexivity. Qed.

Example split_qualified_ex :
  PyStr.last_part (PyStr.split "::" "Foo::Bar::baz") = "baz".
Proof. reflexivity. Qed.

Example split_unqualified_ex : PyStr.last_part (PyStr.split "::" "baz") = "baz".
Proof. reflexivity. Qed.

Example split_lines_ex :
  PyStr.split newline ("a" ++ newline ++ newline ++ "b") = ["a"; ""; "b"].
Proof. reflexivity. Qed.

Example int_of_str_ex :
  PyStr.int_of_str " -1_0 " = Some (-10)%Z
  /\ PyStr.int_of_str "1__0" = None
  /\ PyStr.int_of_str "" = None
  /\ PyStr.int_of_str "4x" = None.
Proof. repeat split; reflexivity. Qed.

Example str_of_int_ex :
  PyStr.str_of_int 10 = "10" /\ PyStr.str_of_int (-7) = "-7"
  /\ PyStr.str_of_int 0 = "0".
Proof. repeat split; reflexivity. Qed.

(** * Further properties of the lookup code *)

(** ** Splitting at one character *)

Section SplitChar.

Variable c : ascii.

Let sep : string := String c "".

Lemma split_go_char_cons (cur : string) (x : ascii) (rest : string) :
  PyStr.split_go sep 0 cur (String x rest)
  = if Ascii.eqb c x
    then cur :: PyStr.split_go sep 0 "" rest
    else PyStr.split_go sep 0 (cur ++ String x "") rest.
Proof.
  unfold sep. cbn [PyStr.split_go prefix String.length Nat.sub].
  destruct (ascii_dec c x) as [->|ne].
  - rewrite Ascii.eqb_refl. destruct rest; reflexivity.
  - apply Ascii.eqb_neq in ne. rewrite ne. reflexivity.
Qed.

Lemma contains_char_nil : PyStr.contains sep "" = false.
Proof. reflexivity. Qed.

Lemma contains_char_cons (x : ascii) (rest : string) :
  PyStr.contains sep (String x rest)
  = Ascii.eqb c x || PyStr.contains sep rest.
Proof.
  unfold sep. cbn [PyStr.contains prefix].
  destruct (ascii_dec c x) as [->|ne].
  - rewrite Ascii.eqb_refl. destruct rest; reflexivity.
  - apply Ascii.eqb_neq in ne. rewrite ne. reflexivity.
Qed.

Lemma contains_char_append (a b : string) :
  PyStr.contains sep (a ++ b)
  = PyStr.contains sep a || PyStr.contains sep b.
Proof.
  induction a as [|x a IH].
  - reflexivity.
  - cbn [append]. rewrite !contains_char_cons, IH. apply orb_assoc.
Qed.

Lemma split_go_char_length (cur s : string) :
  List.length (PyStr.split_go sep 0 cur s) = S (count_char c s).
Proof.
  revert cur. induction s as [|x s IH]; intros cur; [reflexivity|].
  rewrite split_go_char_cons. cbn [count_char].
  destruct (Ascii.eqb c x); cbn [List.length]; rewrite IH; reflexivity.
Qed.

Lemma split_go_char_free (cur s : string) :
  PyStr.contains sep cur = false ->
  forall part, In part (PyStr.split_go sep 0 cur s) ->
    PyStr.contains sep part = false.
Proof.
  revert cur. induction s as [|x s IH]; intros cur Hcur part Hin.
  - destruct Hin as [<-|[]]. exact Hcur.
  - rewrite split_go_char_cons in Hin. destruct (Ascii.eqb c x) eqn:E.
    + destruct Hin as [<-|Hin]; [exact Hcur|].
      apply (IH ""); [reflexivity | exact Hin].
    + apply (IH (cur ++ String x "")); [|exact Hin].
      rewrite contains_char_append, Hcur, contains_char_cons, E.
      reflexivity.
Qed.

(** A part without the separator, followed by the separator, is cut off
    whole. *)
Lemma split_go_char_part (cur p rest : string) :
  PyStr.contains sep p = false ->
  PyStr.split_go sep 0 cur (p ++ String c rest)
  = (cur ++ p) :: PyStr.split_go sep 0 "" rest.
Proof.
  revert cur. induction p as [|x p IH]; intros cur Hp.
  - cbn [append]. rewrite split_go_char_cons, Ascii.eqb_refl.
    rewrite append_empty_r. reflexivity.
  - rewrite contains_char_cons in Hp. apply orb_false_iff in Hp as [Hx Hp].
    cbn [append]. rewrite split_go_char_cons, Hx, (IH _ Hp).
    rewrite append_assoc. reflexivity.
Qed.

Lemma split_go_char_last (cur p : string) :
  PyStr.contains sep p = false ->
  PyStr.split_go sep 0 cur p = [cur ++ p].
Proof.
  revert cur. induction p as [|x p IH]; intros cur Hp.
  - rewrite append_empty_r. reflexivity.
  - rewrite contains_char_cons in Hp. apply orb_false_iff in Hp as [Hx Hp].
    rewrite split_go_char_cons, Hx, (IH _ Hp), append_assoc. reflexivity.
Qed.

(** Splitting what was joined gives the parts back, when no part holds the
    separator. *)
Lemma split_join_char (p : string) (parts : list string) :
  (forall part, In part (p :: parts) -> PyStr.contains sep part = false) ->
  PyStr.split sep (PyStr.join sep (p :: parts)) = p :: parts.
Proof.
  unfold PyStr.split. revert p.
  induction parts as [|q parts IH]; intros p Hfree.
  - cbn [PyStr.join]. apply (split_go_char_last "").
    apply Hfree. left; reflexivity.
  - rewrite join_cons by discriminate. unfold sep at 2. cbn [append].
    rewrite (split_go_char_part "") by (apply Hfree; left; reflexivity).
    cbn [append]. f_equal. apply IH.
    intros part Hin. apply Hfree. right; exact Hin.
Qed.

End SplitChar.

(** ** The lines of a source file *)

Lemma split_newline_length (text : string) :
  List.length (PyStr.split newline text)
  = S (count_char (ascii_of_nat 10) text).
Proof. apply (split_go_char_length (ascii_of_nat 10) "" text). Qed.

Lemma split_newline_free (text line : string) :
  In line (PyStr.split newline text) -> PyStr.contains newline line = false.
Proof.
  apply (split_go_char_free (ascii_of_nat 10) "" text). reflexivity.
Qed.

(** X1. What [extract_function_lines_from_db] returns is the text of the
    archive entry cut at its line feeds: one line more than there are line
    feeds (a final line feed gives a final empty line), no line holds a line
    feed, and the lines joined by line feeds are the text. *)
Theorem extract_lines_follow_line_feeds
  (path_join : string -> string -> string)
  (read_file_lines_from_zip : string -> string -> outcome string)
  (db_path : string) (current_function : dict)
  (file_path : string) (start_line end_line : Z) (lines : list string) :
  extract_function_lines_from_db path_join read_file_lines_from_zip db_path
    current_function
  = Return (file_path, start_line, end_line, lines) ->
  exists text,
    read_file_lines_from_zip (path_join db_path "src.zip") file_path
    = Return text
    /\ List.length lines = S (count_char (ascii_of_nat 10) text)
    /\ (forall line, In line lines -> PyStr.contains newline line = false)
    /\ PyStr.join newline lines = text.
Proof.
  unfold extract_function_lines_from_db, getitem.
  destruct (lookup current_function "file") as [file|]; [|discriminate].
  destruct (read_file_lines_from_zip _ _) as [text|] eqn:Hread;
    [|discriminate].
  destruct (lookup current_function "start_line") as [s|]; [|discriminate].
  destruct (PyStr.int_of_str s); [|discriminate].
  destruct (lookup current_function "end_line") as [e|]; [|discriminate].
  destruct (PyStr.int_of_str e); [|discriminate].
  intros H. injection H as <- _ _ <-.
  exists text. split; [exact Hread|].
  split; [apply split_newline_length|].
  split; [apply split_newline_free | apply join_split_newline].
Qed.

Lemma extract_lines_of_foo :
  exists text,
    foo_archive (path_join_model "db" "src.zip") "src/foo.c" = Return text
    /\ List.length ["int f(void)"; "{ return 1; }"; ""]
       = S (count_char (ascii_of_nat 10) text)
    /\ (forall line,
           In line ["int f(void)"; "{ return 1; }"; ""] ->
           PyStr.contains newline line = false)
    /\ PyStr.join newline ["int f(void)"; "{ return 1; }"; ""] = text.
Proof.
  apply (extract_lines_follow_line_feeds path_join_model foo_archive "db"
           foo_function "src/foo.c" 1%Z 2%Z).
  vm_compute. reflexivity.
Defined.

(** X2. [extract_function_lines_from_db] returns exactly when the function
    has the three fields [file], [start_line] and [end_line], both line
    fields read as integers and the archive gives the entry; it does not
    compare the two line numbers with each other or with the number of
    lines.  Without a [file] field it raises [KeyError] whatever the archive
    holds. *)
Theorem extract_returns_exactly_when
  (path_join : string -> string -> string)
  (read_file_lines_from_zip : string -> string -> outcome string)
  (db_path : string) (current_function : dict) :
  ((exists result,
       extract_function_lines_from_db path_join read_file_lines_from_zip
         db_path current_function = Return result)
   <-> (exists file s e a b text,
           lookup current_function "file" = Some file
           /\ lookup current_function "start_line" = Some s
           /\ lookup current_function "end_line" = Some e
           /\ PyStr.int_of_str s = Some a
           /\ PyStr.int_of_str e = Some b
           /\ read_file_lines_from_zip (path_join db_path "src.zip")
                (PyStr.drop_first (PyStr.remove_quotes file))
              = Return text))
  /\ (lookup current_function "file" = None ->
      forall other_archive,
        extract_function_lines_from_db path_join other_archive db_path
          current_function = Raise (KeyError "file")).
Proof.
  split; [split|].
  - intros [result H]. revert H.
    unfold extract_function_lines_from_db, getitem.
    destruct (lookup current_function "file") as [file|]; [|discriminate].
    destruct (read_file_lines_from_zip _ _) as [text|] eqn:Hread;
      [|discriminate].
    destruct (lookup current_function "start_line") as [s|]; [|discriminate].
    destruct (PyStr.int_of_str s) as [a|] eqn:Ha; [|discriminate].
    destruct (lookup current_function "end_line") as [e|]; [|discriminate].
    destruct (PyStr.int_of_str e) as [b|] eqn:Hb; [|discriminate].
    intros _. exists file, s, e, a, b, text. repeat split; assumption.
  - intros (file & s & e & a & b & text & Hf & Hs & He & Ha & Hb & Hread).
    eexists. unfold extract_function_lines_from_db, getitem.
    rewrite Hf, Hread, Hs, Ha, He, Hb. reflexivity.
  - intros Hf other. unfold extract_function_lines_from_db, getitem.
    rewrite Hf. reflexivity.
Qed.

(** ** Formatting and splitting again *)

Lemma string_of_uint_no_newline (d : Decimal.uint) :
  PyStr.contains newline (NilEmpty.string_of_uint d) = false.
Proof.
  induction d; cbn [NilEmpty.string_of_uint]; [reflexivity|..];
    unfold newline in *; rewrite contains_char_cons, IHd; reflexivity.
Qed.

Lemma str_of_int_no_newline (n : Z) :
  PyStr.contains newline (PyStr.str_of_int n) = false.
Proof.
  unfold PyStr.str_of_int, NilZero.string_of_int, NilZero.string_of_uint.
  destruct (Z.to_int n) as [d|d]; destruct d;
    try reflexivity;
    try apply string_of_uint_no_newline;
    unfold newline; rewrite contains_char_cons;
    try apply (string_of_uint_no_newline (_ d)).
Qed.

(** X3. A formatted snippet splits at its line feeds into the header and one
    numbered line for every snippet line, in order, when neither the path
    nor a snippet line holds a line feed (which is the case of the lines
    that [extract_function_lines_from_db] returns); for an empty snippet the
    header is followed by one empty line. *)
Theorem format_numbered_snippet_splits
  (file_path : string) (start_line : Z) (snippet_lines : list string) :
  PyStr.contains newline file_path = false ->
  (forall line, In line snippet_lines -> PyStr.contains newline line = false) ->
  PyStr.split newline
    (format_numbered_snippet file_path start_line snippet_lines)
  = ("file: " ++ file_path)
    :: match snippet_lines with
       | [] => [""]
       | _ =>
           List.map
             (fun i =>
                PyStr.str_of_int (start_line + Z.of_nat i) ++ ": "
                ++ List.nth i snippet_lines "")
             (List.seq 0 (List.length snippet_lines))
       end.
Proof.
  intros Hpath Hlines.
  assert (Hheader : PyStr.contains newline ("file: " ++ file_path) = false).
  { unfold newline. rewrite contains_char_append. fold newline.
    rewrite Hpath. reflexivity. }
  unfold format_numbered_snippet, PyStr.enumerate.
  rewrite numbered_lines_index, <- append_assoc.
  set (header := "file: " ++ file_path) in *.
  destruct snippet_lines as [|l ls].
  - cbn [List.length List.seq List.map PyStr.join].
    unfold PyStr.split.
    change (newline ++ "") with (String (ascii_of_nat 10) "").
    unfold newline in *.
    rewrite (split_go_char_part (ascii_of_nat 10) "" header "" Hheader).
    reflexivity.
  - set (numbered :=
           List.map
             (fun i =>
                PyStr.str_of_int (start_line + (0 + Z.of_nat i)) ++ ": "
                ++ List.nth i (l :: ls) "")
             (List.seq 0 (List.length (l :: ls)))).
    assert (Hne : numbered <> []) by (subst numbered; discriminate).
    rewrite <- (join_cons newline header numbered Hne).
    unfold newline at 1 2. rewrite split_join_char.
    + reflexivity.
    + intros part [<-|Hin]; [exact Hheader|].
      subst numbered. apply in_map_iff in Hin as (i & <- & Hi).
      apply in_seq in Hi.
      rewrite !contains_char_append. fold newline.
      rewrite str_of_int_no_newline.
      rewrite (Hlines (List.nth i (l :: ls) ""))
        by (apply nth_In; lia).
      reflexivity.
Qed.

Lemma format_numbered_snippet_splits_a_c :
  PyStr.split newline (format_numbered_snippet "a.c" 10 ["x"; "y"; "z"])
  = ["file: a.c"; "10: x"; "11: y"; "12: z"].
Proof.
  apply (format_numbered_snippet_splits "a.c" 10 ["x"; "y"; "z"]).
  - reflexivity.
  - intros line [<-|[<-|[<-|[]]]]; reflexivity.
Defined.

(** ** Rows that a scan passes over *)

Lemma for_rows_skip {A : Type} (body : string -> step A)
  (pre : list string) (row : string) (post : list string) :
  body row = Continue ->
  for_rows body (pre ++ row :: post)%list = for_rows body (pre ++ post)%list.
Proof.
  intros Hrow. induction pre as [|p pre IH]; cbn [List.app for_rows].
  - rewrite Hrow. reflexivity.
  - rewrite IH. reflexivity.
Qed.

Section SkippedRow.

Variable parse_csv_row : string -> list string -> option dict.

(** Two machines whose file at [path] differs by the one row [row]. *)
Variables fs fs' : string -> file.
Variable path : string.
Variables (pre : list string) (row : string) (post : list string).
Variable failure : option py_error.
Hypothesis with_row : fs path = mk_file (pre ++ row :: post)%list failure.
Hypothesis without_row : fs' path = mk_file (pre ++ post)%list failure.

Lemma reading_ends_skip (label : string) :
  reading_ends fs path label = reading_ends fs' path label.
Proof. unfold reading_ends. rewrite with_row, without_row. reflexivity. Qed.

Lemma for_csv_lines_skip {A : Type} (label : string)
  (body : string -> step A) (after after' : io A) :
  body row = Continue ->
  after = after' ->
  for_csv_lines fs path label body after
  = for_csv_lines fs' path label body after'.
Proof.
  intros Hrow <-. rewrite !for_csv_lines_cases, reading_ends_skip.
  rewrite with_row, without_row. cbn [file_rows].
  rewrite (for_rows_skip body pre row post Hrow). reflexivity.
Qed.

Lemma get_function_by_line_skip (file : string) (line : Z) :
  get_function_by_line_body parse_csv_row file line row = Continue ->
  get_function_by_line parse_csv_row fs path file line
  = get_function_by_line parse_csv_row fs' path file line.
Proof.
  intros Hrow. unfold get_function_by_line.
  apply for_csv_lines_skip; [exact Hrow | reflexivity].
Qed.

Lemma by_name_loop_skip (term : string) (ls : bool) (all : list dict)
  (after after' : io (found * option dict)) :
  (forall k, In k all ->
     get_function_by_name_body parse_csv_row term ls k row = Continue) ->
  after = after' ->
  get_function_by_name_loop parse_csv_row fs path term ls all after
  = get_function_by_name_loop parse_csv_row fs' path term ls all after'.
Proof.
  intros Hall <-. induction all as [|k all IH]; [reflexivity|].
  rewrite !by_name_loop_cons, reading_ends_skip.
  rewrite with_row, without_row. cbn [file_rows].
  rewrite (for_rows_skip _ pre row post (Hall k (or_introl eq_refl))).
  rewrite IH; [reflexivity|].
  intros k' Hk'. apply Hall. right; exact Hk'.
Qed.

End SkippedRow.

Section Unparsed.

Variable parse_csv_row : string -> list string -> option dict.

Lemma by_line_body_unparsed (file : string) (line : Z) (row : string) :
  parse_csv_row row function_keys = None ->
  get_function_by_line_body parse_csv_row file line row = Continue.
Proof.
  intros H. unfold get_function_by_line_body. rewrite H.
  destruct (PyStr.contains file row); reflexivity.
Qed.

Lemma by_name_body_unparsed (term : string) (ls : bool) (known : dict)
  (row : string) :
  (exists id, lookup known "function_id" = Some id) ->
  parse_csv_row row function_keys = None ->
  get_function_by_name_body parse_csv_row term ls known row = Continue.
Proof.
  intros [id Hid] H. unfold get_function_by_name_body, getitem.
  rewrite Hid, H. destruct (PyStr.contains id row); reflexivity.
Qed.

Lemma caller_body_unparsed (caller_id row : string) :
  parse_csv_row row function_keys = None ->
  get_caller_function_body parse_csv_row caller_id row = Continue.
Proof.
  intros H. unfold get_caller_function_body. rewrite H.
  destruct (PyStr.contains caller_id row); reflexivity.
Qed.

Lemma macro_body_unparsed (name : string) (ls : bool) (row : string) :
  parse_csv_row row macro_keys = None ->
  get_macro_body parse_csv_row name ls row = Continue.
Proof.
  intros H. unfold get_macro_body. rewrite H.
  destruct (PyStr.contains name row); reflexivity.
Qed.

Lemma global_var_body_unparsed (name : string) (ls : bool) (row : string) :
  parse_csv_row row global_var_keys = None ->
  get_global_var_body parse_csv_row name ls row = Continue.
Proof.
  intros H. unfold get_global_var_body. rewrite H.
  destruct (PyStr.contains name row); reflexivity.
Qed.

Lemma class_body_unparsed (name : string) (ls : bool) (row : string) :
  parse_csv_row row class_keys = None ->
  get_class_body parse_csv_row name ls row = Continue.
Proof.
  intros H. unfold get_class_body. rewrite H.
  destruct (PyStr.contains name row); reflexivity.
Qed.

End Unparsed.

(** X4. A row that the parser rejects is passed over by every scan: with the
    row taken out of the table, wherever it stood, each lookup opens the
    same files and ends in the same way (for [get_function_by_name], when
    the known functions carry a [function_id]). *)
Theorem unparsed_row_is_skipped
  (parse_csv_row : string -> list string -> option dict)
  (fs fs' : string -> file) (path_join : string -> string -> string)
  (path : string) (pre : list string) (row : string) (post : list string)
  (failure : option py_error) :
  fs path = mk_file (pre ++ row :: post)%list failure ->
  fs' path = mk_file (pre ++ post)%list failure ->
  (parse_csv_row row function_keys = None ->
   (forall file line,
       get_function_by_line parse_csv_row fs path file line
       = get_function_by_line parse_csv_row fs' path file line)
   /\ (forall name all less_strict,
          (forall k, In k all ->
             exists id, lookup k "function_id" = Some id) ->
          get_function_by_name parse_csv_row fs path name all less_strict
          = get_function_by_name parse_csv_row fs' path name all less_strict)
   /\ (forall current,
          get_caller_function parse_csv_row fs path current
          = get_caller_function parse_csv_row fs' path current))
  /\ (forall curr_db name less_strict,
         path = path_join curr_db "Macros.csv" ->
         parse_csv_row row macro_keys = None ->
         get_macro parse_csv_row fs path_join curr_db name less_strict
         = get_macro parse_csv_row fs' path_join curr_db name less_strict)
  /\ (forall curr_db name less_strict,
         path = path_join curr_db "GlobalVars.csv" ->
         parse_csv_row row global_var_keys = None ->
         get_global_var parse_csv_row fs path_join curr_db name less_strict
         = get_global_var parse_csv_row fs' path_join curr_db name
             less_strict)
  /\ (forall curr_db name less_strict,
         path = path_join curr_db "Classes.csv" ->
         parse_csv_row row class_keys = None ->
         get_class parse_csv_row fs path_join curr_db name less_strict
         = get_class parse_csv_row fs' path_join curr_db name less_strict).
Proof.
  intros Hfs Hfs'.
  pose proof (fun A => @for_csv_lines_skip fs fs' path pre row post failure
                         Hfs Hfs' A) as Hskip.
  split; [|split; [|split]].
  - intros Hrow. split; [|split].
    + intros file line.
      apply (get_function_by_line_skip parse_csv_row fs fs' path pre row post
               failure Hfs Hfs').
      apply by_line_body_unparsed, Hrow.
    + intros name all ls Hids. unfold get_function_by_name.
      assert (Hloop : forall ls' after,
                 get_function_by_name_loop parse_csv_row fs path
                   (PyStr.last_part (PyStr.split "::" name)) ls' all after
                 = get_function_by_name_loop parse_csv_row fs' path
                     (PyStr.last_part (PyStr.split "::" name)) ls' all after).
      { intros ls' after.
        apply (by_name_loop_skip parse_csv_row fs fs' path pre row post
                 failure Hfs Hfs'); [|reflexivity].
        intros k Hk. apply by_name_body_unparsed; [apply Hids, Hk | exact Hrow]. }
      destruct ls; cbn [negb]; rewrite !Hloop; reflexivity.
    + intros current. unfold get_caller_function.
      destruct (getitem current "caller_id") as [raw|e]; [|reflexivity].
      apply Hskip; [apply caller_body_unparsed, Hrow|].
      unfold get_caller_function_fallback.
      destruct (PyStr.split ":" _) as [|f [|l [|x rest]]]; try reflexivity.
      destruct (PyStr.int_of_str l); [|reflexivity].
      rewrite (get_function_by_line_skip parse_csv_row fs fs' path pre row
                 post failure Hfs Hfs');
        [reflexivity | apply by_line_body_unparsed, Hrow].
  - intros curr_db name ls -> Hrow. unfold get_macro.
    destruct ls; cbn [negb];
      repeat (apply Hskip; [apply macro_body_unparsed, Hrow|]); reflexivity.
  - intros curr_db name ls -> Hrow. unfold get_global_var.
    destruct ls; cbn [negb];
      repeat (apply Hskip; [apply global_var_body_unparsed, Hrow|]);
      reflexivity.
  - intros curr_db name ls -> Hrow. unfold get_class.
    destruct ls; cbn [negb];
      repeat (apply Hskip; [apply class_body_unparsed, Hrow|]); reflexivity.
Qed.

Lemma junk_macro_row_is_skipped :
  get_macro parse_csv_row_model
    (only_file "db/Macros.csv"
       [csv_line [quoted "BUF_SIZE"; quoted "4096"]; junk_row;
        csv_line [quoted "MIN_LEN"; quoted "8"]])
    path_join_model "db" "MIN_LEN" false
  = get_macro parse_csv_row_model (only_file "db/Macros.csv" macros_table)
      path_join_model "db" "MIN_LEN" false.
Proof.
  destruct (unparsed_row_is_skipped parse_csv_row_model
              (only_file "db/Macros.csv"
                 [csv_line [quoted "BUF_SIZE"; quoted "4096"]; junk_row;
                  csv_line [quoted "MIN_LEN"; quoted "8"]])
              (only_file "db/Macros.csv" macros_table) path_join_model
              "db/Macros.csv" [csv_line [quoted "BUF_SIZE"; quoted "4096"]]
              junk_row [csv_line [quoted "MIN_LEN"; quoted "8"]] None
              eq_refl eq_refl) as (_ & Hmacro & _).
  exact (Hmacro "db" "MIN_LEN" false eq_refl eq_refl).
Defined.

(** ** Line fields that are empty or no numbers *)

Section LineFields.

Variable parse_csv_row : string -> list string -> option dict.

Lemma by_line_body_empty_field (file : string) (line : Z) (row : string)
  (d : dict) :
  parse_csv_row row function_keys = Some d ->
  lookup d "start_line" = Some ""
  \/ (exists s, lookup d "start_line" = Some s
                /\ lookup d "end_line" = Some "") ->
  get_function_by_line_body parse_csv_row file line row = Continue.
Proof.
  intros Hp H. unfold get_function_by_line_body, getitem. rewrite Hp.
  destruct (PyStr.contains file row); [|reflexivity].
  destruct (truthy (Some d)); [|reflexivity].
  destruct H as [Hs|(s & Hs & He)]; rewrite Hs; [reflexivity|].
  destruct (PyStr.nonempty s); [|reflexivity].
  rewrite He. reflexivity.
Qed.

Lemma by_line_body_not_a_number (file : string) (line : Z) (row : string)
  (d : dict) (s e : string) :
  PyStr.contains file row = true ->
  parse_csv_row row function_keys = Some d ->
  lookup d "start_line" = Some s ->
  lookup d "end_line" = Some e ->
  PyStr.nonempty s = true ->
  PyStr.nonempty e = true ->
  PyStr.int_of_str s = None \/ PyStr.int_of_str e = None ->
  get_function_by_line_body parse_csv_row file line row
  = Leave (Raise ValueError).
Proof.
  intros Hc Hp Hs He Hns Hne Hint.
  unfold get_function_by_line_body, getitem.
  rewrite Hc, Hp, (lookup_truthy _ _ _ Hs), Hs, Hns, He, Hne.
  destruct (PyStr.int_of_str s); [|reflexivity].
  destruct Hint as [Hint|Hint]; [discriminate|]. rewrite Hint. reflexivity.
Qed.

End LineFields.

(** X5. A row whose [start_line] field is empty, or whose [end_line] field
    is empty, is passed over by [get_function_by_line] without an error:
    with the row taken out of the table the call opens the same file and
    ends in the same way. *)
Theorem row_without_line_range_is_skipped
  (parse_csv_row : string -> list string -> option dict)
  (fs fs' : string -> file) (tree : string)
  (pre : list string) (row : string) (post : list string)
  (failure : option py_error) (d : dict) :
  fs tree = mk_file (pre ++ row :: post)%list failure ->
  fs' tree = mk_file (pre ++ post)%list failure ->
  parse_csv_row row function_keys = Some d ->
  lookup d "start_line" = Some ""
  \/ (exists s, lookup d "start_line" = Some s
                /\ lookup d "end_line" = Some "") ->
  forall file line,
    get_function_by_line parse_csv_row fs tree file line
    = get_function_by_line parse_csv_row fs' tree file line.
Proof.
  intros Hfs Hfs' Hp Hempty file line.
  apply (get_function_by_line_skip parse_csv_row fs fs' tree pre row post
           failure Hfs Hfs').
  apply (by_line_body_empty_field parse_csv_row file line row d Hp Hempty).
Qed.

Lemma unplaced_net_row_is_skipped :
  get_function_by_line parse_csv_row_model
    (only_file "FunctionTree.csv" [net_row_unplaced; net_row_1; net_row_2])
    "FunctionTree.csv" "net.c" 12
  = get_function_by_line parse_csv_row_model net_machine
      "FunctionTree.csv" "net.c" 12.
Proof.
  apply (row_without_line_range_is_skipped parse_csv_row_model
           (only_file "FunctionTree.csv"
              [net_row_unplaced; net_row_1; net_row_2])
           net_machine "FunctionTree.csv" [] net_row_unplaced
           [net_row_1; net_row_2] None
           (List.combine function_keys
              [quoted "poll_all"; quoted "/net.c"; ""; quoted "f3"; "20";
               quoted "f0"])).
  - reflexivity.
  - reflexivity.
  - vm_compute. reflexivity.
  - left. reflexivity.
Defined.

(** X6. A line field that is not empty and not an integer is not passed
    over: when the first row that is not passed over mentions [file] and
    carries such a field, [get_function_by_line] raises [ValueError] after
    its one pass, whatever rows follow. *)
Theorem get_function_by_line_not_a_number
  (parse_csv_row : string -> list string -> option dict)
  (fs : string -> file) (tree file : string) (line : Z)
  (pre : list string) (row : string) (post : list string) (d : dict)
  (s e : string) :
  file_rows (fs tree) = (pre ++ row :: post)%list ->
  function_table parse_csv_row file pre = true ->
  (forall p d', In p pre -> ~ covers parse_csv_row file line p d') ->
  PyStr.contains file row = true ->
  parse_csv_row row function_keys = Some d ->
  lookup d "start_line" = Some s ->
  lookup d "end_line" = Some e ->
  PyStr.nonempty s = true ->
  PyStr.nonempty e = true ->
  PyStr.int_of_str s = None \/ PyStr.int_of_str e = None ->
  get_function_by_line parse_csv_row fs tree file line
  = ([Open tree], Raise ValueError).
Proof.
  intros Hrows Htable Hpre Hc Hp Hs He Hns Hne Hint.
  unfold get_function_by_line. apply for_csv_lines_leave.
  rewrite Hrows. apply for_rows_first.
  - unfold function_table in Htable. rewrite forallb_forall in Htable.
    intros p Hin. apply by_line_body_numeric; [apply Htable, Hin|].
    intros d'. apply Hpre, Hin.
  - apply (by_line_body_not_a_number parse_csv_row file line row d s e);
      assumption.
Qed.

Lemma broken_net_row_raises :
  get_function_by_line parse_csv_row_model
    (only_file "FunctionTree.csv" [net_row_broken; net_row_1])
    "FunctionTree.csv" "net.c" 7
  = ([Open "FunctionTree.csv"], Raise ValueError).
Proof.
  apply (get_function_by_line_not_a_number parse_csv_row_model
           (only_file "FunctionTree.csv" [net_row_broken; net_row_1])
           "FunctionTree.csv" "net.c" 7 [] net_row_broken [net_row_1]
           (List.combine function_keys
              [quoted "stop_all"; quoted "/net.c"; "n/a"; quoted "f4"; "20";
               quoted "f0"]) "n/a" "20").
  - reflexivity.
  - reflexivity.
  - intros p d' [].
  - vm_compute. reflexivity.
  - vm_compute. reflexivity.
  - reflexivity.
  - reflexivity.
  - reflexivity.
  - reflexivity.
  - left. reflexivity.
Defined.

(** ** The fallback phase *)

Section Fallback.

Variable fs : string -> file.
Variables path label : string.
Variable body : bool -> string -> step found.
Variable text : string.
Variable hit : bool -> string -> dict -> Prop.

Hypothesis body_hit :
  forall ls row d, hit ls row d -> body ls row = Leave (Return (Record d)).
Hypothesis body_miss :
  forall ls row, (forall d, ~ hit ls row d) -> body ls row = Continue.

Lemma two_phase_fallback_first (rows : list string) :
  fs path = mk_file rows None ->
  fallback_first (two_phase fs path label body text) path rows hit.
Proof.
  intros Hfs pre row post d Hrows Hrow Hpre.
  assert (Hpass :
            for_csv_lines fs path label (body true) (ret (Message text))
            = ([Open path], Return (Record d))).
  { apply for_csv_lines_leave. rewrite Hfs. cbn [file_rows]. rewrite Hrows.
    apply for_rows_first; [|apply body_hit, Hrow].
    intros p Hp. apply body_miss. intros d'. apply Hpre, Hp. }
  unfold two_phase. cbn [negb]. split; [exact Hpass|].
  intros Hstrict.
  rewrite (for_csv_lines_miss fs path label (body false) _ rows Hfs).
  - rewrite Hpass. reflexivity.
  - apply for_rows_continue. intros r Hr. apply body_miss.
    intros d'. apply Hstrict, Hr.
Qed.

End Fallback.

(** X7. The fallback phase of [get_macro], [get_global_var] and
    [get_class], on a table that reads to its end.  A call with the fallback
    enabled makes one pass and returns the first row in file order whose
    stored name contains the term, also when a later row carries the term
    exactly; a call with the fallback disabled returns that row after its
    second pass, when no row is a strict hit. *)
Theorem fallback_returns_first_containing_row
  (parse_csv_row : string -> list string -> option dict)
  (fs : string -> file) (path_join : string -> string -> string) :
  populates parse_csv_row ->
  (forall curr_db name rows,
      fs (path_join curr_db "Macros.csv") = mk_file rows None ->
      fallback_first (get_macro parse_csv_row fs path_join curr_db name)
        (path_join curr_db "Macros.csv") rows
        (fun ls => macro_hit parse_csv_row ls name))
  /\ (forall curr_db name rows,
         fs (path_join curr_db "GlobalVars.csv") = mk_file rows None ->
         fallback_first
           (get_global_var parse_csv_row fs path_join curr_db name)
           (path_join curr_db "GlobalVars.csv") rows
           (fun ls =>
              global_var_hit parse_csv_row ls
                (PyStr.last_part (PyStr.split "::" name))))
  /\ (forall curr_db name rows,
         fs (path_join curr_db "Classes.csv") = mk_file rows None ->
         fallback_first (get_class parse_csv_row fs path_join curr_db name)
           (path_join curr_db "Classes.csv") rows
           (fun ls =>
              class_hit parse_csv_row ls
                (PyStr.last_part (PyStr.split "::" name)))).
Proof.
  intros Hpop. split; [|split].
  - intros curr_db name rows Hfs.
    apply (two_phase_fallback_first fs (path_join curr_db "Macros.csv")
             "Macros CSV" (get_macro_body parse_csv_row name)
             (macro_not_found name)
             (fun ls => macro_hit parse_csv_row ls name)); [| |exact Hfs].
    + intros ls row d. apply get_macro_body_hit.
    + intros ls row. apply get_macro_body_miss, Hpop.
  - intros curr_db name rows Hfs.
    apply (two_phase_fallback_first fs (path_join curr_db "GlobalVars.csv")
             "GlobalVars CSV"
             (get_global_var_body parse_csv_row
                (PyStr.last_part (PyStr.split "::" name)))
             (global_var_not_found name)
             (fun ls =>
                global_var_hit parse_csv_row ls
                  (PyStr.last_part (PyStr.split "::" name))));
      [| |exact Hfs].
    + intros ls row d. apply get_global_var_body_hit.
    + intros ls row. apply get_global_var_body_miss, Hpop.
  - intros curr_db name rows Hfs.
    apply (two_phase_fallback_first fs (path_join curr_db "Classes.csv")
             "Classes CSV"
             (get_class_body parse_csv_row
                (PyStr.last_part (PyStr.split "::" name)))
             (class_not_found name)
             (fun ls =>
                class_hit parse_csv_row ls
                  (PyStr.last_part (PyStr.split "::" name))));
      [| |exact Hfs].
    + intros ls row d. apply get_class_body_hit.
    + intros ls row. apply get_class_body_miss, Hpop.
Qed.

Lemma get_macro_min_len_by_fallback :
  get_macro parse_csv_row_model
    (only_file "db/Macros.csv" longer_names_table) path_join_model "db"
    "MIN_LEN" false
  = ([Open "db/Macros.csv"; Open "db/Macros.csv"],
     Return (Record min_len_max_dict)).
Proof.
  destruct (fallback_returns_first_containing_row parse_csv_row_model
              (only_file "db/Macros.csv" longer_names_table) path_join_model
              parse_csv_row_model_populates) as (Hmacro & _).
  destruct (Hmacro "db" "MIN_LEN" longer_names_table eq_refl
              [csv_line [quoted "BUF_SIZE"; quoted "4096"]]
              (csv_line [quoted "MIN_LEN_MAX"; quoted "64"])
              [csv_line [quoted "MIN_LEN_MIN"; quoted "2"]]
              min_len_max_dict) as (_ & Hfalse).
  - reflexivity.
  - split; [vm_compute; reflexivity|]. split; [vm_compute; reflexivity|].
    exists (quoted "MIN_LEN_MAX"). split; [reflexivity|].
    right. split; [reflexivity | vm_compute; reflexivity].
  - intros p d' [<-|[]] (Hc & _). vm_compute in Hc. discriminate.
  - apply Hfalse.
    intros r d' Hin (Hc & Hp & v & Hv & Hm).
    destruct Hm as [Hm|[Hm _]]; [|discriminate].
    destruct Hin as [<-|[<-|[<-|[]]]];
      vm_compute in Hp; injection Hp as <-;
      vm_compute in Hv; injection Hv as <-;
      vm_compute in Hm; discriminate.
Defined.

(** ** Nothing found *)

Lemma global_var_not_found_text (name : string) :
  PyStr.contains name (global_var_not_found name) = true
  /\ PyStr.contains "not found" (global_var_not_found name) = true.
Proof.
  unfold global_var_not_found. split.
  - contains_tac.
  - change ("' not found. "
            ++ "Could it be a macro or should you use another tool?")
      with ("' " ++ "not found"
            ++ ". Could it be a macro or should you use another tool?").
    contains_tac.
Qed.

Lemma class_not_found_text (name : string) :
  PyStr.contains name (class_not_found name) = true
  /\ PyStr.contains "not found" (class_not_found name) = true.
Proof.
  unfold class_not_found. split.
  - contains_tac.
  - change "' not found. Could it be a Namespace?"
      with ("' " ++ "not found" ++ ". Could it be a Namespace?").
    contains_tac.
Qed.

Lemma function_not_found_text (name : string) :
  PyStr.contains name (function_not_found name) = true
  /\ PyStr.contains "not found" (function_not_found name) = true.
Proof.
  unfold function_not_found. split.
  - contains_tac.
  - change ("' not found. Make sure you're using "
            ++ "the correct tool and args.")
      with ("' " ++ "not found" ++ ". Make sure you're using "
            ++ "the correct tool and args.").
    contains_tac.
Qed.

Section Misses.

Variable parse_csv_row : string -> list string -> option dict.
Variable fs : string -> file.

Lemma global_var_body_unmentioned (term : string) (ls : bool) (row : string) :
  PyStr.contains term row = false ->
  get_global_var_body parse_csv_row term ls row = Continue.
Proof. unfold get_global_var_body. intros ->. reflexivity. Qed.

Lemma class_body_unmentioned (term : string) (ls : bool) (row : string) :
  PyStr.contains term row = false ->
  get_class_body parse_csv_row term ls row = Continue.
Proof. unfold get_class_body. intros ->. reflexivity. Qed.

Lemma by_name_body_unmentioned (term : string) (ls : bool) (known : dict)
  (id row : string) :
  lookup known "function_id" = Some id ->
  PyStr.contains id row = false ->
  get_function_by_name_body parse_csv_row term ls known row = Continue.
Proof.
  unfold get_function_by_name_body, getitem. intros -> ->. reflexivity.
Qed.

(** A loop that no known function leaves opens the table once for each of
    them and goes on with what follows. *)
Lemma by_name_loop_miss (tree term : string) (ls : bool) (all : list dict)
  (after : io (found * option dict)) :
  reading_ends fs tree "Function tree file" = None ->
  (forall k, In k all ->
     for_rows (get_function_by_name_body parse_csv_row term ls k)
       (file_rows (fs tree)) = Continue) ->
  get_function_by_name_loop parse_csv_row fs tree term ls all after
  = ((List.repeat (Open tree) (List.length all) ++ io_log after)%list,
     io_result after).
Proof.
  intros Hend Hall. induction all as [|k all IH].
  - destruct after; reflexivity.
  - rewrite by_name_loop_cons, (Hall k (or_introl eq_refl)), Hend.
    rewrite IH; [reflexivity|].
    intros k' Hk'. apply Hall. right; exact Hk'.
Qed.

End Misses.

(** X8. When nothing in the table mentions what is looked for, on a table
    that reads to its end, [get_global_var] and [get_class] return their
    not-found text, and [get_function_by_name] returns its not-found text
    paired with [None], after one pass for every known function in each
    phase.  Each text holds the name as it was given, qualifier included,
    and the words [not found]. *)
Theorem not_found_text_names_what_was_asked
  (parse_csv_row : string -> list string -> option dict)
  (fs : string -> file) (path_join : string -> string -> string) :
  (forall curr_db name less_strict rows,
      fs (path_join curr_db "GlobalVars.csv") = mk_file rows None ->
      (forall row, In row rows ->
         PyStr.contains (PyStr.last_part (PyStr.split "::" name)) row
         = false) ->
      io_result (get_global_var parse_csv_row fs path_join curr_db name
                   less_strict)
      = Return (Message (global_var_not_found name)))
  /\ (forall curr_db name less_strict rows,
         fs (path_join curr_db "Classes.csv") = mk_file rows None ->
         (forall row, In row rows ->
            PyStr.contains (PyStr.last_part (PyStr.split "::" name)) row
            = false) ->
         io_result (get_class parse_csv_row fs path_join curr_db name
                      less_strict)
         = Return (Message (class_not_found name)))
  /\ (forall tree name all less_strict rows,
         fs tree = mk_file rows None ->
         (forall k, In k all ->
            exists id,
              lookup k "function_id" = Some id
              /\ forall row, In row rows -> PyStr.contains id row = false) ->
         get_function_by_name parse_csv_row fs tree name all less_strict
         = (List.repeat (Open tree)
              ((if less_strict then 1 else 2) * List.length all),
            Return (Message (function_not_found name), None)))
  /\ (forall name,
         PyStr.contains name (global_var_not_found name) = true
         /\ PyStr.contains "not found" (global_var_not_found name) = true
         /\ PyStr.contains name (class_not_found name) = true
         /\ PyStr.contains "not found" (class_not_found name) = true
         /\ PyStr.contains name (function_not_found name) = true
         /\ PyStr.contains "not found" (function_not_found name) = true).
Proof.
  split; [|split; [|split]].
  - intros curr_db name ls rows Hfs Hrows.
    assert (Hmiss : forall ls',
               for_rows (get_global_var_body parse_csv_row
                           (PyStr.last_part (PyStr.split "::" name)) ls')
                 rows = Continue).
    { intros ls'. apply for_rows_continue. intros r Hr.
      apply global_var_body_unmentioned, Hrows, Hr. }
    unfold get_global_var.
    destruct ls; cbn [negb];
      rewrite !(for_csv_lines_miss fs _ _ _ _ rows Hfs (Hmiss _));
      reflexivity.
  - intros curr_db name ls rows Hfs Hrows.
    assert (Hmiss : forall ls',
               for_rows (get_class_body parse_csv_row
                           (PyStr.last_part (PyStr.split "::" name)) ls')
                 rows = Continue).
    { intros ls'. apply for_rows_continue. intros r Hr.
      apply class_body_unmentioned, Hrows, Hr. }
    unfold get_class.
    destruct ls; cbn [negb];
      rewrite !(for_csv_lines_miss fs _ _ _ _ rows Hfs (Hmiss _));
      reflexivity.
  - intros tree name all ls rows Hfs Hall.
    assert (Hmiss : forall ls' k, In k all ->
               for_rows (get_function_by_name_body parse_csv_row
                           (PyStr.last_part (PyStr.split "::" name)) ls' k)
                 (file_rows (fs tree)) = Continue).
    { intros ls' k Hk. destruct (Hall k Hk) as (id & Hid & Hno).
      apply for_rows_continue. intros r Hr.
      apply (by_name_body_unmentioned parse_csv_row _ _ _ id); [exact Hid|].
      apply Hno. rewrite Hfs in Hr. exact Hr. }
    pose proof (reading_ends_table fs tree "Function tree file" rows Hfs)
      as Hend.
    unfold get_function_by_name.
    destruct ls; cbn [negb];
      rewrite !(by_name_loop_miss parse_csv_row fs tree _ _ all _ Hend
                  (Hmiss _));
      cbn [io_log io_result fst snd ret].
    + rewrite app_nil_r, Nat.mul_1_l. reflexivity.
    + rewrite app_nil_r, <- repeat_app. do 2 f_equal. lia.
  - intros name.
    destruct (global_var_not_found_text name) as [H1 H2].
    destruct (class_not_found_text name) as [H3 H4].
    destruct (function_not_found_text name) as [H5 H6].
    repeat split; assumption.
Qed.

Lemma get_function_by_name_missing :
  get_function_by_name parse_csv_row_model net_machine "FunctionTree.csv"
    "net::missing" [[("function_id", "f7")]; [("function_id", "f8")]] false
  = ([Open "FunctionTree.csv"; Open "FunctionTree.csv";
      Open "FunctionTree.csv"; Open "FunctionTree.csv"],
     Return (Message (function_not_found "net::missing"), None)).
Proof.
  destruct (not_found_text_names_what_was_asked parse_csv_row_model
              net_machine path_join_model) as (_ & _ & Hname & _).
  apply (Hname "FunctionTree.csv" "net::missing"
           [[("function_id", "f7")]; [("function_id", "f8")]] false
           [net_row_1; net_row_2] eq_refl).
  intros k [<-|[<-|[]]].
  - exists "f7". split; [reflexivity|].
    intros row [<-|[<-|[]]]; reflexivity.
  - exists "f8". split; [reflexivity|].
    intros row [<-|[<-|[]]]; reflexivity.
Defined.

(** ** The two components of get_function_by_name *)

Section ByNameResult.

Variable parse_csv_row : string -> list string -> option dict.
Variable fs : string -> file.
Variables tree term : string.

Lemma by_name_body_no_message (ls : bool) (known : dict) (row text : string)
  (parent : option dict) :
  get_function_by_name_body parse_csv_row term ls known row
  <> Leave (Return (Message text, parent)).
Proof.
  clear fs tree. unfold get_function_by_name_body, getitem. body_cases.
Qed.

Lemma by_name_loop_message (ls : bool) (all : list dict)
  (after : io (found * option dict)) (text : string)
  (parent : option dict) :
  io_result (get_function_by_name_loop parse_csv_row fs tree term ls all
               after)
  = Return (Message text, parent) ->
  io_result after = Return (Message text, parent).
Proof.
  induction all as [|k all IH]; [intros H; exact H|].
  rewrite by_name_loop_cons.
  destruct (for_rows (get_function_by_name_body parse_csv_row term ls k)
              (file_rows (fs tree))) eqn:E.
  - destruct (reading_ends fs tree "Function tree file");
      [discriminate | exact IH].
  - cbn [io_result snd]. intros ->.
    apply for_rows_leave_inv in E as (pre & row & post & _ & _ & Hrow).
    destruct (by_name_body_no_message _ _ _ _ _ Hrow).
Qed.

End ByNameResult.

(** X9. The two components that [get_function_by_name] returns go
    together: a record comes with the known function through which it was
    found, which is one of the known functions given and whose id occurs in
    the raw row of the record; the not-found text comes with [None]. *)
Theorem get_function_by_name_pairs_record_with_known
  (parse_csv_row : string -> list string -> option dict)
  (fs : string -> file) (tree name : string) (all : list dict)
  (less_strict : bool) (result : found) (parent : option dict) :
  io_result (get_function_by_name parse_csv_row fs tree name all less_strict)
  = Return (result, parent) ->
  match result with
  | Record d =>
      exists known row ls,
        In known all
        /\ In row (file_rows (fs tree))
        /\ parent = Some known
        /\ function_hit parse_csv_row ls
             (PyStr.last_part (PyStr.split "::" name)) known row d
  | Message text => parent = None /\ text = function_not_found name
  end.
Proof.
  unfold get_function_by_name. intros H. destruct result as [d|text].
  - assert (Hloop : forall ls after,
               io_result (get_function_by_name_loop parse_csv_row fs tree
                            (PyStr.last_part (PyStr.split "::" name)) ls all
                            after) = Return (Record d, parent) ->
               (exists known row ls',
                   In known all /\ In row (file_rows (fs tree))
                   /\ parent = Some known
                   /\ function_hit parse_csv_row ls'
                        (PyStr.last_part (PyStr.split "::" name)) known row d)
               \/ io_result after = Return (Record d, parent)).
    { intros ls after Hl.
      apply by_name_loop_record in Hl as [(known & row & Hrest)|Hl];
        [left; exists known, row, ls; exact Hrest | right; exact Hl]. }
    destruct less_strict; cbn [negb] in H.
    + apply Hloop in H as [H|H]; [exact H | discriminate].
    + apply Hloop in H as [H|H]; [exact H|].
      apply Hloop in H as [H|H]; [exact H | discriminate].
  - destruct less_strict; cbn [negb] in H;
      repeat apply by_name_loop_message in H;
      cbn [io_result snd ret] in H; injection H as <- <-; split; reflexivity.
Qed.

Lemma get_function_by_name_send_all :
  exists known row ls,
    In known [net_dict_1; net_dict_2]
    /\ In row (file_rows (net_machine "FunctionTree.csv"))
    /\ Some net_dict_2 = Some known
    /\ function_hit parse_csv_row_model ls
         (PyStr.last_part (PyStr.split "::" "net::send_all")) known row
         net_dict_2.
Proof.
  apply (get_function_by_name_pairs_record_with_known parse_csv_row_model
           net_machine "FunctionTree.csv" "net::send_all"
           [net_dict_1; net_dict_2] false (Record net_dict_2)
           (Some net_dict_2)).
  vm_compute. reflexivity.
Defined.

(** ** get_caller_function: the row of the caller *)

Lemma caller_body_hit
  (parse_csv_row : string -> list string -> option dict)
  (caller_id row : string) (d : dict) :
  caller_hit parse_csv_row caller_id row d ->
  get_caller_function_body parse_csv_row caller_id row
  = Leave (Return (Record d)).
Proof.
  intros (Hc & Hp & v & Hv & Hid). unfold get_caller_function_body, getitem.
  rewrite Hc, Hp, (lookup_truthy _ _ _ Hv), Hv. cbn [negb].
  rewrite Hid, String.eqb_refl. reflexivity.
Qed.

(** X10. [get_caller_function] looks for the caller by id first: the first
    row in file order whose raw text contains the caller id (quotes and
    surrounding whitespace removed) and whose [function_id], treated the
    same way, is equal to it, is returned after one pass, whatever form the
    caller id has. *)
Theorem get_caller_function_by_id
  (parse_csv_row : string -> list string -> option dict)
  (fs : string -> file) (tree : string) (current_function : dict)
  (raw : string) (pre : list string) (row : string) (post : list string)
  (d : dict) :
  populates parse_csv_row ->
  lookup current_function "caller_id" = Some raw ->
  file_rows (fs tree) = (pre ++ row :: post)%list ->
  caller_hit parse_csv_row (PyStr.strip (PyStr.remove_quotes raw)) row d ->
  (forall p d',
      In p pre ->
      ~ caller_hit parse_csv_row (PyStr.strip (PyStr.remove_quotes raw)) p
          d') ->
  get_caller_function parse_csv_row fs tree current_function
  = ([Open tree], Return (Record d)).
Proof.
  intros Hpop Hraw Hrows Hrow Hpre.
  unfold get_caller_function, getitem. rewrite Hraw.
  apply for_csv_lines_leave. rewrite Hrows. apply for_rows_first.
  - intros p Hp. apply caller_body_miss; [exact Hpop|].
    intros d'. apply Hpre, Hp.
  - apply caller_body_hit, Hrow.
Qed.

Lemma get_caller_function_of_g1 :
  get_caller_function parse_csv_row_model xsrc_machine "FunctionTree.csv"
    called_from_g1
  = ([Open "FunctionTree.csv"], Return (Record xsrc_dict)).
Proof.
  apply (get_caller_function_by_id parse_csv_row_model xsrc_machine
           "FunctionTree.csv" called_from_g1 (" " ++ quoted "g1") []
           xsrc_row [] xsrc_dict).
  - exact parse_csv_row_model_populates.
  - reflexivity.
  - reflexivity.
  - split; [vm_compute; reflexivity|]. split; [vm_compute; reflexivity|].
    exists (quoted "g1"). split; vm_compute; reflexivity.
  - intros p d' [].
Defined.

(** X11. The fallback by file and line is tried only for a caller id with
    exactly one colon.  When no row is the caller's by id, on a table that
    reads to its end, and the caller id (quotes and surrounding whitespace
    removed) does not split at its colons into exactly two parts, for
    instance a path with a drive letter followed by a line,
    [get_caller_function] returns the not-found text after its one pass. *)
Theorem get_caller_function_needs_one_colon
  (parse_csv_row : string -> list string -> option dict)
  (fs : string -> file) (tree : string) (current_function : dict)
  (raw : string) (rows : list string) :
  populates parse_csv_row ->
  lookup current_function "caller_id" = Some raw ->
  fs tree = mk_file rows None ->
  (forall row d,
      In row rows ->
      ~ caller_hit parse_csv_row (PyStr.strip (PyStr.remove_quotes raw)) row
          d) ->
  List.length (PyStr.split ":" (PyStr.strip (PyStr.remove_quotes raw)))
  <> 2%nat ->
  get_caller_function parse_csv_row fs tree current_function
  = ([Open tree], Return (Message caller_not_found)).
Proof.
  intros Hpop Hraw Hfs Hno Hparts.
  unfold get_caller_function, getitem. rewrite Hraw.
  rewrite (for_csv_lines_miss fs _ _ _ _ rows Hfs).
  - unfold get_caller_function_fallback.
    destruct (PyStr.split ":" _) as [|f [|l [|x rest]]]; try reflexivity.
    destruct Hparts. reflexivity.
  - apply for_rows_continue. intros row Hrow.
    apply caller_body_miss; [exact Hpop|]. intros d. apply Hno, Hrow.
Qed.

Lemma get_caller_function_drive_letter :
  get_caller_function parse_csv_row_model xsrc_machine "FunctionTree.csv"
    called_from_drive
  = ([Open "FunctionTree.csv"], Return (Message caller_not_found)).
Proof.
  apply (get_caller_function_needs_one_colon parse_csv_row_model
           xsrc_machine "FunctionTree.csv" called_from_drive
           (quoted "C:/src/foo.c" ++ ":42") [xsrc_row]).
  - exact parse_csv_row_model_populates.
  - reflexivity.
  - reflexivity.
  - intros row d [<-|[]] (Hc & _). vm_compute in Hc. discriminate.
  - vm_compute. discriminate.
Defined.

(** X12. When no row is the caller's by id and the caller id has exactly
    one colon, what follows the colon is read as an integer without a
    check: if it is none, [get_caller_function] raises [ValueError] after
    its one pass instead of returning the not-found text. *)
Theorem get_caller_function_line_not_a_number
  (parse_csv_row : string -> list string -> option dict)
  (fs : string -> file) (tree : string) (current_function : dict)
  (raw file_part line_part : string) (rows : list string) :
  populates parse_csv_row ->
  lookup current_function "caller_id" = Some raw ->
  fs tree = mk_file rows None ->
  (forall row d,
      In row rows ->
      ~ caller_hit parse_csv_row (PyStr.strip (PyStr.remove_quotes raw)) row
          d) ->
  PyStr.split ":" (PyStr.strip (PyStr.remove_quotes raw))
  = [file_part; line_part] ->
  PyStr.int_of_str line_part = None ->
  get_caller_function parse_csv_row fs tree current_function
  = ([Open tree], Raise ValueError).
Proof.
  intros Hpop Hraw Hfs Hno Hsplit Hint.
  unfold get_caller_function, getitem. rewrite Hraw.
  rewrite (for_csv_lines_miss fs _ _ _ _ rows Hfs).
  - unfold get_caller_function_fallback. rewrite Hsplit, Hint. reflexivity.
  - apply for_rows_continue. intros row Hrow.
    apply caller_body_miss; [exact Hpop|]. intros d. apply Hno, Hrow.
Qed.

Lemma get_caller_function_question_mark :
  get_caller_function parse_csv_row_model xsrc_machine "FunctionTree.csv"
    called_from_nowhere
  = ([Open "FunctionTree.csv"], Raise ValueError).
Proof.
  apply (get_caller_function_line_not_a_number parse_csv_row_model
           xsrc_machine "FunctionTree.csv" called_from_nowhere
           (quoted "/src/foo.c" ++ ":?") "/src/foo.c" "?" [xsrc_row]).
  - exact parse_csv_row_model_populates.
  - reflexivity.
  - reflexivity.
  - intros row d [<-|[]] (Hc & _). vm_compute in Hc. discriminate.
  - vm_compute. reflexivity.
  - reflexivity.
Defined.

(** X13. [get_caller_function] opens the function table at most twice, once
    for the search by id and once for the search by file and line; and for
    a function without a [caller_id] field it raises [KeyError] before it
    opens anything. *)
Theorem get_caller_function_opens_at_most_twice
  (parse_csv_row : string -> list string -> option dict)
  (fs : string -> file) (tree : string) (current_function : dict) :
  (passes (get_caller_function parse_csv_row fs tree current_function) <= 2)%nat
  /\ (lookup current_function "caller_id" = None ->
      get_caller_function parse_csv_row fs tree current_function
      = ([], Raise (KeyError "caller_id"))).
Proof.
  unfold get_caller_function, getitem. split.
  - destruct (lookup current_function "caller_id") as [raw|];
      [|cbn; lia].
    rewrite for_csv_lines_cases.
    destruct (for_rows _ _); [|cbn; lia].
    destruct (reading_ends fs tree "Function tree file"); [cbn; lia|].
    unfold get_caller_function_fallback.
    destruct (PyStr.split ":" _) as [|f [|l [|x rest]]]; try (cbn; lia).
    destruct (PyStr.int_of_str l) as [n|]; [|cbn; lia].
    unfold get_function_by_line. rewrite for_csv_lines_cases.
    destruct (for_rows _ _) as [|[[d|]|e]];
      [destruct (reading_ends fs tree "Function tree file")|..];
      try destruct d; cbn; lia.
  - intros ->. reflexivity.
Qed.

(** ** Failures that are no operating-system errors *)

(** X14. Only the three operating-system failures are converted.  When the
    reading of a table fails with another exception, the [except] clause
    does not catch it: a loop over [_iter_csv_lines] that reaches the
    failure, and the loop of [get_function_by_name], raise that exception
    as it is, not a [CodeQLError]. *)
Theorem other_failures_are_not_converted
  (parse_csv_row : string -> list string -> option dict)
  (fs : string -> file) (path : string) (e : py_error) :
  is_os_error e = false ->
  file_failure (fs path) = Some e ->
  (forall (A : Type) label (body : string -> step A) after,
      for_rows body (file_rows (fs path)) = Continue ->
      for_csv_lines fs path label body after = ([Open path], Raise e))
  /\ (forall name known others less_strict,
         for_rows
           (get_function_by_name_body parse_csv_row
              (PyStr.last_part (PyStr.split "::" name)) less_strict known)
           (file_rows (fs path)) = Continue ->
         get_function_by_name parse_csv_row fs path name (known :: others)
           less_strict
         = ([Open path], Raise e)).
Proof.
  intros Hos Hfail.
  assert (Hend : forall label, reading_ends fs path label = Some e).
  { intros label. unfold reading_ends. rewrite Hfail, Hos. reflexivity. }
  split.
  - intros A label body after Hrows.
    rewrite for_csv_lines_cases, Hrows, Hend. reflexivity.
  - intros name known others ls Hrows. unfold get_function_by_name.
    destruct ls; cbn [negb]; rewrite by_name_loop_cons, Hrows, Hend;
      reflexivity.
Qed.

Lemma undecodable_macros_file :
  get_macro parse_csv_row_model
    (fun _ => mk_file [csv_line [quoted "BUF_SIZE"; quoted "4096"]]
                (Some ValueError))
    path_join_model "db" "MIN_LEN" false
  = ([Open "db/Macros.csv"], Raise ValueError).
Proof.
  destruct (other_failures_are_not_converted parse_csv_row_model
              (fun _ => mk_file [csv_line [quoted "BUF_SIZE"; quoted "4096"]]
                          (Some ValueError))
              "db/Macros.csv" ValueError eq_refl eq_refl) as (Hloop & _).
  apply (Hloop found "Macros CSV"
           (get_macro_body parse_csv_row_model "MIN_LEN" false)).
  reflexivity.
Defined.

(** * Properties of the query runner *)

Lemma commands_app (a b : list RunQueries.event) :
  RunQueries.commands (a ++ b)%list
  = (RunQueries.commands a ++ RunQueries.commands b)%list.
Proof.
  induction a as [|[argv|level template args] a IH]; cbn;
    rewrite ?IH; reflexivity.
Qed.

Section QueryRunner.

Variable world : Type.
Variable subprocess_run :
  list string -> world -> world * option RunQueries.run_error.
Variables path_exists is_dir is_file : string -> world -> bool.
Variable iterdir : string -> world -> RunQueries.result (list string).
Variable rglob : string -> world -> list string.
Variables suffix stem lower : string -> string.
Variable path_join : string -> string -> string.
Variable get_all_dbs : string -> world -> RunQueries.result (list string).

Lemma try_run_log (argv : list string)
  (handler : RunQueries.run_error -> RunQueries.run_error) (w : world) :
  RunQueries.log_of (RunQueries.try_run world subprocess_run argv handler w)
  = [RunQueries.Ran argv].
Proof.
  unfold RunQueries.try_run.
  destruct (subprocess_run argv w) as [w' [e|]]; reflexivity.
Qed.

Lemma bind_log {A B : Type} (m : RunQueries.cmd world A)
  (k : A -> RunQueries.cmd world B) (w : world) :
  RunQueries.log_of (RunQueries.bind world m k w)
  = match RunQueries.result_of (m w) with
    | RunQueries.Done a =>
        (RunQueries.log_of (m w)
         ++ RunQueries.log_of (k a (RunQueries.world_of (m w))))%list
    | RunQueries.Failed _ => RunQueries.log_of (m w)
    end.
Proof.
  unfold RunQueries.bind.
  destruct (m w) as [[log w'] [a|e]]; cbn; [|reflexivity].
  destruct (k a w') as [[log' w''] r]. reflexivity.
Qed.

Lemma bind_world {A B : Type} (m : RunQueries.cmd world A)
  (k : A -> RunQueries.cmd world B) (w : world) :
  RunQueries.world_of (RunQueries.bind world m k w)
  = match RunQueries.result_of (m w) with
    | RunQueries.Done a =>
        RunQueries.world_of (k a (RunQueries.world_of (m w)))
    | RunQueries.Failed _ => RunQueries.world_of (m w)
    end.
Proof.
  unfold RunQueries.bind.
  destruct (m w) as [[log w'] [a|e]]; cbn; [|reflexivity].
  destruct (k a w') as [[log' w''] r]. reflexivity.
Qed.

Lemma bind_result {A B : Type} (m : RunQueries.cmd world A)
  (k : A -> RunQueries.cmd world B) (w : world) :
  RunQueries.result_of (RunQueries.bind world m k w)
  = match RunQueries.result_of (m w) with
    | RunQueries.Done a =>
        RunQueries.result_of (k a (RunQueries.world_of (m w)))
    | RunQueries.Failed e => RunQueries.Failed e
    end.
Proof.
  unfold RunQueries.bind.
  destruct (m w) as [[log w'] [a|e]]; cbn; [|reflexivity].
  destruct (k a w') as [[log' w''] r]. reflexivity.
Qed.

(** X15. [run_one_query] starts the decoding only after the query has run
    with success; it returns exactly when both commands succeed, in the
    world that the second leaves.  A missing executable is reported as a
    [CodeQLConfigError] when the query command meets it, and as the plain
    [FileNotFoundError] when the decoding meets it. *)
Theorem run_one_query_decodes_after_success
  (query_file curr_db output_bqrs output_csv : string) (threads : Z)
  (codeql_bin : string) (w : world) :
  let run :=
    RunQueries.run_argv query_file curr_db output_bqrs threads codeql_bin in
  let decode := RunQueries.decode_argv output_bqrs output_csv codeql_bin in
  let out :=
    RunQueries.run_one_query world subprocess_run query_file curr_db
      output_bqrs output_csv threads codeql_bin w in
  let after_run := fst (subprocess_run run w) in
  (In decode (RunQueries.commands (RunQueries.log_of out)) ->
   snd (subprocess_run run w) = None)
  /\ (RunQueries.result_of out = RunQueries.Done tt
      <-> snd (subprocess_run run w) = None
          /\ snd (subprocess_run decode after_run) = None)
  /\ (RunQueries.result_of out = RunQueries.Done tt ->
      RunQueries.world_of out = fst (subprocess_run decode after_run))
  /\ (snd (subprocess_run run w) = Some RunQueries.FileNotFoundError ->
      RunQueries.result_of out
      = RunQueries.Failed
          (RunQueries.CodeQLConfigError
             (RunQueries.executable_not_found codeql_bin)
             RunQueries.FileNotFoundError))
  /\ (snd (subprocess_run run w) = None ->
      snd (subprocess_run decode after_run)
      = Some RunQueries.FileNotFoundError ->
      RunQueries.result_of out
      = RunQueries.Failed RunQueries.FileNotFoundError).
Proof.
  intros run decode out after_run. subst out after_run.
  unfold RunQueries.run_one_query, RunQueries.bind, RunQueries.try_run.
  fold run decode.
  destruct (subprocess_run run w) as [w1 [e1|]] eqn:E1; cbn [fst snd].
  - cbn. split; [|split; [|split; [|split]]].
    + intros [H|[]]. discriminate.
    + split; [intros H; destruct e1; discriminate | intros [H _]; discriminate].
    + intros H. destruct e1; discriminate.
    + intros H. injection H as ->. reflexivity.
    + discriminate.
  - destruct (subprocess_run decode w1) as [w2 [e2|]] eqn:E2; cbn.
    + split; [|split; [|split; [|split]]].
      * reflexivity.
      * split; [intros H; destruct e2; discriminate
               | intros [_ H]; discriminate].
      * intros H. destruct e2; discriminate.
      * discriminate.
      * intros _ H. injection H as ->. reflexivity.
    + split; [|split; [|split; [|split]]].
      * reflexivity.
      * split; [intros _; split; reflexivity | reflexivity].
      * reflexivity.
      * discriminate.
      * discriminate.
Qed.

(** *** compile_all_queries *)

Lemma is_ql_suffix (file_path : string) (w : world) :
  RunQueries.is_ql world is_file suffix lower file_path w = true ->
  lower (suffix file_path) = ".ql".
Proof.
  unfold RunQueries.is_ql. intros H.
  apply andb_true_iff in H as [_ H]. apply String.eqb_eq, H.
Qed.


Lemma pre_compile_ql_compiled (file_name : string) (threads : Z)
  (codeql_bin : string) (w : world) :
  path_exists (file_name ++ "x") w = true ->
  RunQueries.pre_compile_ql world subprocess_run path_exists file_name
    threads codeql_bin w
  = ([], w, RunQueries.Done tt).
Proof.
  unfold RunQueries.pre_compile_ql. intros ->. reflexivity.
Qed.



Lemma compile_each_nothing (files : list string) (threads : Z)
  (codeql_bin : string) (w : world) :
  (forall f, In f files ->
     RunQueries.is_ql world is_file suffix lower f w = true ->
     path_exists (f ++ "x") w = true) ->
  RunQueries.compile_each world subprocess_run path_exists is_file suffix
    lower files threads codeql_bin w
  = ([], w, RunQueries.Done tt).
Proof.
  induction files as [|f files IH]; intros Hall; [reflexivity|].
  cbn [RunQueries.compile_each].
  assert (Hrest : RunQueries.compile_each world subprocess_run path_exists
                    is_file suffix lower files threads codeql_bin w
                  = ([], w, RunQueries.Done tt)).
  { apply IH. intros f' Hin. apply Hall. right; exact Hin. }
  destruct (RunQueries.is_ql world is_file suffix lower f w) eqn:Eql;
    [|exact Hrest].
  unfold RunQueries.bind.
  rewrite (pre_compile_ql_compiled f threads codeql_bin w
             (Hall f (or_introl eq_refl) Eql)).
  rewrite Hrest. reflexivity.
Qed.


(** *** run_queries_on_db *)

Lemma run_one_query_commands
  (query_file curr_db output_bqrs output_csv : string) (threads : Z)
  (codeql_bin : string) (w : world) (c : list string) :
  In c (RunQueries.commands
          (RunQueries.log_of
             (RunQueries.run_one_query world subprocess_run query_file
                curr_db output_bqrs output_csv threads codeql_bin w))) ->
  c = RunQueries.run_argv query_file curr_db output_bqrs threads codeql_bin
  \/ c = RunQueries.decode_argv output_bqrs output_csv codeql_bin.
Proof.
  unfold RunQueries.run_one_query. rewrite bind_log, try_run_log.
  destruct (RunQueries.result_of _) as [[]|e].
  - rewrite try_run_log. intros [<-|[<-|[]]]; [left | right]; reflexivity.
  - intros [<-|[]]. left; reflexivity.
Qed.

Lemma run_each_tool_commands (files : list string) (curr_db : string)
  (threads : Z) (codeql_bin : string) (w : world) (c : list string) :
  In c (RunQueries.commands
          (RunQueries.log_of
             (RunQueries.run_each_tool world subprocess_run is_file suffix
                stem lower path_join files curr_db threads codeql_bin w))) ->
  exists f,
    In f files
    /\ lower (suffix f) = ".ql"
    /\ RunQueries.tool_command stem path_join curr_db threads codeql_bin f c.
Proof.
  revert w. induction files as [|f files IH]; intros w Hc; [destruct Hc|].
  cbn [RunQueries.run_each_tool] in Hc.
  destruct (RunQueries.is_ql world is_file suffix lower f w) eqn:Eql.
  - rewrite bind_log in Hc.
    assert (Hone : forall c',
               In c' (RunQueries.commands
                        (RunQueries.log_of
                           (RunQueries.run_one_query world subprocess_run f
                              curr_db (path_join curr_db (stem f ++ ".bqrs"))
                              (path_join curr_db (stem f ++ ".csv")) threads
                              codeql_bin w))) ->
               exists f0,
                 In f0 (f :: files)
                 /\ lower (suffix f0) = ".ql"
                 /\ RunQueries.tool_command stem path_join curr_db threads codeql_bin f0 c').
    { intros c' Hc'. apply run_one_query_commands in Hc'.
      exists f. split; [left; reflexivity|].
      split; [apply (is_ql_suffix f w Eql) | exact Hc']. }
    destruct (RunQueries.result_of _) as [[]|e]; [|apply Hone, Hc].
    rewrite commands_app in Hc. apply in_app_or in Hc as [Hc|Hc];
      [apply Hone, Hc|].
    destruct (IH _ Hc) as (f' & Hin & Hrest).
    exists f'. split; [right; exact Hin | exact Hrest].
  - destruct (IH _ Hc) as (f' & Hin & Hrest).
    exists f'. split; [right; exact Hin | exact Hrest].
Qed.

Lemma run_tools_commands (curr_db tools_folder : string) (threads : Z)
  (codeql_bin : string) (w : world) (c : list string) :
  In c (RunQueries.commands
          (RunQueries.log_of
             (RunQueries.run_tools world subprocess_run is_dir is_file
                iterdir suffix stem lower path_join curr_db tools_folder
                threads codeql_bin w))) ->
  exists f files,
    iterdir tools_folder w = RunQueries.Done files
    /\ In f files
    /\ lower (suffix f) = ".ql"
    /\ RunQueries.tool_command stem path_join curr_db threads codeql_bin f c.
Proof.
  unfold RunQueries.run_tools.
  destruct (is_dir tools_folder w); [|intros []].
  destruct (iterdir tools_folder w) as [files|e]; [|intros []].
  intros Hc. apply run_each_tool_commands in Hc as (f & Hin & Hrest).
  exists f, files. split; [reflexivity|]. split; assumption.
Qed.

Lemma run_analysis_commands (curr_db queries_folder : string) (threads : Z)
  (codeql_bin : string) (timeout : Z) (w : world) :
  RunQueries.commands
    (RunQueries.log_of
       (RunQueries.run_analysis world subprocess_run is_dir path_join
          curr_db queries_folder threads codeql_bin timeout w))
  = if is_dir queries_folder w
    then [RunQueries.analyze_argv path_join curr_db queries_folder threads
            timeout codeql_bin]
    else [].
Proof.
  unfold RunQueries.run_analysis.
  destruct (is_dir queries_folder w); [|reflexivity].
  rewrite try_run_log. reflexivity.
Qed.

(** X17. The commands of [run_queries_on_db] are the commands of the tool
    queries, each the run or the decoding of an entry of the tools folder
    with the suffix [.ql] and with its outputs named after the stem of the
    entry inside the database folder, followed by at most one
    [database analyze], which comes last and is started only when every
    tool query went through.  When neither folder is a directory, nothing
    is started: two warnings are logged and the machine stays as it was. *)
Theorem run_queries_on_db_analyzes_last
  (curr_db tools_folder queries_folder : string) (threads : Z)
  (codeql_bin : string) (timeout : Z) (w : world) :
  let out :=
    RunQueries.run_queries_on_db world subprocess_run is_dir is_file iterdir
      suffix stem lower path_join curr_db tools_folder queries_folder
      threads codeql_bin timeout w in
  let tools :=
    RunQueries.run_tools world subprocess_run is_dir is_file iterdir suffix
      stem lower path_join curr_db tools_folder threads codeql_bin w in
  let analyze :=
    RunQueries.analyze_argv path_join curr_db queries_folder threads timeout
      codeql_bin in
  (exists tool_cmds tail,
      RunQueries.commands (RunQueries.log_of out)
      = (tool_cmds ++ tail)%list
      /\ (tail = [] \/ tail = [analyze])
      /\ (tail = [analyze] ->
          RunQueries.result_of tools = RunQueries.Done tt)
      /\ forall c,
          In c tool_cmds ->
          exists f files,
            iterdir tools_folder w = RunQueries.Done files
            /\ In f files
            /\ lower (suffix f) = ".ql"
            /\ RunQueries.tool_command stem path_join curr_db threads
                 codeql_bin f c)
  /\ (is_dir tools_folder w = false ->
      is_dir queries_folder w = false ->
      out
      = ([RunQueries.Logged RunQueries.WARNING
            "Tools folder '%s' not found. Skipping individual queries."
            [RunQueries.Str tools_folder];
          RunQueries.Logged RunQueries.WARNING
            "Queries folder '%s' not found. Skipping database analysis."
            [RunQueries.Str queries_folder]],
         w, RunQueries.Done tt)).
Proof.
  intros out tools analyze. split.
  - subst out. unfold RunQueries.run_queries_on_db.
    rewrite bind_log. fold tools.
    destruct (RunQueries.result_of tools) as [[]|e] eqn:Er.
    + exists (RunQueries.commands (RunQueries.log_of tools)).
      eexists. split; [apply commands_app|].
      rewrite run_analysis_commands. fold analyze.
      split; [destruct (is_dir queries_folder _); [right | left];
              reflexivity|].
      split; [reflexivity|].
      intros c. apply run_tools_commands.
    + exists (RunQueries.commands (RunQueries.log_of tools)), [].
      split; [rewrite app_nil_r; reflexivity|].
      split; [left; reflexivity|]. split; [discriminate|].
      intros c. apply run_tools_commands.
  - intros Htools Hqueries. subst out.
    unfold RunQueries.run_queries_on_db, RunQueries.bind,
      RunQueries.run_tools, RunQueries.run_analysis, RunQueries.logger.
    rewrite Htools, Hqueries. reflexivity.
Qed.

(** *** compile_and_run_codeql_queries *)

Lemma logger_starts_nothing (level : RunQueries.log_level)
  (template : string) (args : list RunQueries.log_arg) (w : world) :
  RunQueries.starts_nothing (RunQueries.logger world level template args w) w.
Proof. split; reflexivity. Qed.

Lemma bind_starts_nothing {A B : Type} (m : RunQueries.cmd world A)
  (k : A -> RunQueries.cmd world B) (w : world) :
  RunQueries.starts_nothing (m w) w ->
  (forall a, RunQueries.starts_nothing (k a w) w) ->
  RunQueries.starts_nothing (RunQueries.bind world m k w) w.
Proof.
  intros [Hlog Hw] Hk. unfold RunQueries.starts_nothing.
  rewrite bind_log, bind_world.
  destruct (RunQueries.result_of (m w)) as [a|e].
  - rewrite Hw. destruct (Hk a) as [Hlog' Hw'].
    rewrite commands_app, Hlog, Hlog', Hw'. split; reflexivity.
  - split; assumption.
Qed.

Lemma failed_starts_nothing {A : Type} (e : RunQueries.run_error)
  (w : world) :
  RunQueries.starts_nothing
    (([], w, RunQueries.Failed e)
     : list RunQueries.event * world * RunQueries.result A) w.
Proof. split; reflexivity. Qed.

Lemma run_on_database_has_outputs
  (curr_db tools_folder queries_folder : string) (threads : Z)
  (codeql_bin : string) (timeout : Z) (w : world) :
  path_exists (path_join curr_db "FunctionTree.csv") w = true ->
  path_exists (path_join curr_db "issues.csv") w = true ->
  RunQueries.starts_nothing
    (RunQueries.run_on_database world subprocess_run path_exists is_dir
       is_file iterdir suffix stem lower path_join curr_db tools_folder
       queries_folder threads codeql_bin timeout w) w.
Proof.
  intros Htree Hissues. unfold RunQueries.run_on_database.
  rewrite Htree, Hissues. cbn [negb orb].
  destruct (is_dir curr_db w); [|apply logger_starts_nothing].
  destruct (iterdir curr_db w) as [entries|e].
  - destruct (Nat.eqb (List.length entries) 0); apply logger_starts_nothing.
  - destruct (RunQueries.is_os_error e);
      [apply logger_starts_nothing | apply failed_starts_nothing].
Qed.

Lemma run_on_databases_have_outputs (dbs : list string)
  (tools_folder queries_folder : string) (threads : Z)
  (codeql_bin : string) (timeout : Z) (w : world) :
  (forall db, In db dbs ->
     path_exists (path_join db "FunctionTree.csv") w = true
     /\ path_exists (path_join db "issues.csv") w = true) ->
  RunQueries.starts_nothing
    (RunQueries.run_on_databases world subprocess_run path_exists is_dir
       is_file iterdir suffix stem lower path_join dbs tools_folder
       queries_folder threads codeql_bin timeout w) w.
Proof.
  induction dbs as [|db dbs IH]; intros Hall; [split; reflexivity|].
  cbn [RunQueries.run_on_databases]. apply bind_starts_nothing.
  - destruct (Hall db (or_introl eq_refl)) as [Htree Hissues].
    apply run_on_database_has_outputs; assumption.
  - intros _. apply IH. intros db' Hin. apply Hall. right; exact Hin.
Qed.

Lemma run_on_folder_has_outputs
  (dbs_dir tools_folder queries_folder : string) (threads : Z)
  (codeql_bin : string) (timeout : Z) (w : world) :
  (forall dbs db,
      get_all_dbs dbs_dir w = RunQueries.Done dbs -> In db dbs ->
      path_exists (path_join db "FunctionTree.csv") w = true
      /\ path_exists (path_join db "issues.csv") w = true) ->
  RunQueries.starts_nothing
    (RunQueries.run_on_folder world subprocess_run path_exists is_dir
       is_file iterdir suffix stem lower path_join get_all_dbs dbs_dir
       tools_folder queries_folder threads codeql_bin timeout w) w.
Proof.
  intros Hall. unfold RunQueries.run_on_folder.
  destruct (path_exists dbs_dir w); cbn [negb].
  2: { apply bind_starts_nothing; [|intros _]; apply logger_starts_nothing. }
  destruct (is_dir dbs_dir w); cbn [negb]; [|apply logger_starts_nothing].
  destruct (iterdir dbs_dir w) as [contents|e].
  2: { destruct (RunQueries.is_os_error e);
         [apply logger_starts_nothing | apply failed_starts_nothing]. }
  destruct (Nat.eqb (List.length contents) 0);
    [apply logger_starts_nothing|].
  apply bind_starts_nothing; [apply logger_starts_nothing|]. intros _.
  destruct (get_all_dbs dbs_dir w) as [dbs|e] eqn:Edbs;
    [|apply failed_starts_nothing].
  destruct (Nat.eqb (List.length dbs) 0).
  - apply bind_starts_nothing; [|intros _]; apply logger_starts_nothing.
  - apply bind_starts_nothing; [|intros _; apply logger_starts_nothing].
    apply run_on_databases_have_outputs. intros db Hin.
    apply (Hall dbs db eq_refl Hin).
Qed.

(** X18. When every query of the tools and issues folders has its [.qlx]
    file and every database that [get_all_dbs] lists has both
    [FunctionTree.csv] and [issues.csv], [compile_and_run_codeql_queries]
    starts no process at all and leaves the machine as it was; the language
    [c] is looked up in the folder [cpp], any other language in the folder
    of its own name. *)
Theorem nothing_to_do_starts_no_process
  (codeql_bin lang : string) (threads timeout : Z) (dbs_dir : string)
  (w : world) :
  let queries_subfolder := if String.eqb lang "c" then "cpp" else lang in
  let tools_folder :=
    path_join (path_join "data/queries" queries_subfolder) "tools" in
  let queries_folder :=
    path_join (path_join "data/queries" queries_subfolder) "issues" in
  (forall f,
      In f (rglob tools_folder w) \/ In f (rglob queries_folder w) ->
      RunQueries.is_ql world is_file suffix lower f w = true ->
      path_exists (f ++ "x") w = true) ->
  (forall dbs db,
      get_all_dbs dbs_dir w = RunQueries.Done dbs -> In db dbs ->
      path_exists (path_join db "FunctionTree.csv") w = true
      /\ path_exists (path_join db "issues.csv") w = true) ->
  RunQueries.starts_nothing
    (RunQueries.compile_and_run_codeql_queries world subprocess_run
       path_exists is_dir is_file iterdir rglob suffix stem lower path_join
       get_all_dbs codeql_bin lang threads timeout dbs_dir w) w.
Proof.
  intros sub tools_folder queries_folder Hcompiled Houtputs.
  unfold RunQueries.compile_and_run_codeql_queries.
  fold sub. fold tools_folder. fold queries_folder.
  assert (Hcompile : forall folder,
             (forall f, In f (rglob folder w) ->
                In f (rglob tools_folder w)
                \/ In f (rglob queries_folder w)) ->
             RunQueries.compile_all_queries world subprocess_run path_exists
               is_file rglob suffix lower folder threads codeql_bin w
             = ([], w, RunQueries.Done tt)).
  { intros folder Hsub. unfold RunQueries.compile_all_queries.
    apply compile_each_nothing. intros f Hin. apply Hcompiled, Hsub, Hin. }
  apply bind_starts_nothing.
  - rewrite Hcompile; [split; reflexivity|]. intros f Hin. left; exact Hin.
  - intros _. apply bind_starts_nothing.
    + rewrite Hcompile; [split; reflexivity|]. intros f Hin. right; exact Hin.
    + intros _. apply run_on_folder_has_outputs, Houtputs.
Qed.

End QueryRunner.

Lemma nothing_to_do_on_full_machine :
  RunQueries.starts_nothing
    (RunQueries.compile_and_run_codeql_queries history always_succeeds
       everything_exists everything_exists everything_exists one_entry
       one_query ql_suffix same_text same_text path_join_model one_entry
       "codeql" "c" 16 300 "output/databases/c" [])
    [].
Proof.
  apply (nothing_to_do_starts_no_process history always_succeeds
           everything_exists everything_exists everything_exists one_entry
           one_query ql_suffix same_text same_text path_join_model one_entry
           "codeql" "c" 16 300 "output/databases/c" []).
  - intros f _ _. reflexivity.
  - intros dbs db _ _. split; reflexivity.
Defined.

(** X19. Compilation comes first and fails fast: when the first entry of
    the tools folder is a query without a [.qlx] file and the executable is
    missing, [compile_and_run_codeql_queries] raises [CodeQLConfigError]
    naming the executable after that one command, before it looks at any
    database. *)
Theorem missing_executable_stops_at_first_compilation
  (world : Type)
  (subprocess_run :
     list string -> world -> world * option RunQueries.run_error)
  (path_exists is_dir is_file : string -> world -> bool)
  (iterdir : string -> world -> RunQueries.result (list string))
  (rglob : string -> world -> list string)
  (suffix stem lower : string -> string)
  (path_join : string -> string -> string)
  (get_all_dbs : string -> world -> RunQueries.result (list string))
  (codeql_bin lang : string) (threads timeout : Z) (dbs_dir : string)
  (w w' : world) (f : string) (rest : list string) :
  let queries_subfolder := if String.eqb lang "c" then "cpp" else lang in
  let tools_folder :=
    path_join (path_join "data/queries" queries_subfolder) "tools" in
  rglob tools_folder w = f :: rest ->
  RunQueries.is_ql world is_file suffix lower f w = true ->
  path_exists (f ++ "x") w = false ->
  subprocess_run (RunQueries.compile_argv f threads codeql_bin) w
  = (w', Some RunQueries.FileNotFoundError) ->
  RunQueries.compile_and_run_codeql_queries world subprocess_run
    path_exists is_dir is_file iterdir rglob suffix stem lower path_join
    get_all_dbs codeql_bin lang threads timeout dbs_dir w
  = ([RunQueries.Ran (RunQueries.compile_argv f threads codeql_bin)], w',
     RunQueries.Failed
       (RunQueries.CodeQLConfigError
          (RunQueries.executable_not_found codeql_bin)
          RunQueries.FileNotFoundError)).
Proof.
  intros sub tools_folder Hlist Hql Hqlx Hrun.
  unfold RunQueries.compile_and_run_codeql_queries.
  fold sub. fold tools_folder.
  unfold RunQueries.bind at 1. unfold RunQueries.compile_all_queries at 1.
  rewrite Hlist. cbn [RunQueries.compile_each]. rewrite Hql.
  unfold RunQueries.bind at 1. unfold RunQueries.pre_compile_ql.
  rewrite Hqlx. cbn [negb]. unfold RunQueries.try_run. rewrite Hrun.
  reflexivity.
Qed.

Lemma missing_executable_on_empty_machine :
  RunQueries.compile_and_run_codeql_queries history no_executable
    nothing_exists everything_exists everything_exists one_entry one_query
    ql_suffix same_text same_text path_join_model one_entry "codeql" "c" 16
    300 "output/databases/c" []
  = ([RunQueries.Ran
        (RunQueries.compile_argv "data/queries/cpp/tools/q.ql" 16 "codeql")],
     [RunQueries.compile_argv "data/queries/cpp/tools/q.ql" 16 "codeql"],
     RunQueries.Failed
       (RunQueries.CodeQLConfigError
          (RunQueries.executable_not_found "codeql")
          RunQueries.FileNotFoundError)).
Proof.
  apply (missing_executable_stops_at_first_compilation history no_executable
           nothing_exists everything_exists everything_exists one_entry
           one_query ql_suffix same_text same_text path_join_model one_entry
           "codeql" "c" 16 300 "output/databases/c" []
           [RunQueries.compile_argv "data/queries/cpp/tools/q.ql" 16
              "codeql"]
           "data/queries/cpp/tools/q.ql" []).
  - reflexivity.
  - reflexivity.
  - reflexivity.
  - reflexivity.
Defined.

(** * Properties of the pipeline stages *)

Section PipelineStages.

Variable world : Type.
Variable fetch_codeql_dbs :
  string -> Z -> string -> Pipeline.cmd world (option string).
Variable get_codeql_path : Pipeline.cmd world string.
Variable compile_and_run_codeql_queries :
  string -> string -> Z -> Z -> string -> Pipeline.cmd world unit.
Variable issue_analyzer_run : string -> string -> Pipeline.cmd world unit.

Lemma pipeline_bind_outcome {A B : Type} (m : Pipeline.cmd world A)
  (k : A -> Pipeline.cmd world B) (w : world) :
  Pipeline.outcome_of (Pipeline.bind world m k w)
  = match Pipeline.outcome_of (m w) with
    | Pipeline.Returned a =>
        Pipeline.outcome_of (k a (Pipeline.world_of (m w)))
    | Pipeline.Raised e => Pipeline.Raised e
    | Pipeline.Exited code => Pipeline.Exited code
    end.
Proof.
  unfold Pipeline.bind.
  destruct (m w) as [[log w'] [a|e|code]]; cbn; try reflexivity.
  destruct (k a w') as [[log' w''] r]. reflexivity.
Qed.

Lemma pipeline_try_outcome {A : Type} (body : Pipeline.cmd world A)
  (handler : Pipeline.exc -> Pipeline.cmd world A) (w : world) :
  Pipeline.outcome_of (Pipeline.try_except world body handler w)
  = match Pipeline.outcome_of (body w) with
    | Pipeline.Raised e =>
        Pipeline.outcome_of (handler e (Pipeline.world_of (body w)))
    | other => other
    end.
Proof.
  unfold Pipeline.try_except.
  destruct (body w) as [[log w'] [a|e|code]]; cbn; try reflexivity.
  destruct (handler e w') as [[log' w''] r]. reflexivity.
Qed.

Lemma log_cause_returns (e : Pipeline.exc) (w : world) :
  Pipeline.outcome_of (Pipeline._log_exception_cause world e w)
  = Pipeline.Returned tt.
Proof.
  unfold Pipeline._log_exception_cause.
  destruct (Pipeline.exc_cause e) as [c|];
    [|destruct (Pipeline.exc_chained e) as [c|]; [|reflexivity]];
    destruct (negb _); reflexivity.
Qed.

Lemma log_hints_returns (hints : list string) (w : world) :
  Pipeline.outcome_of (Pipeline.log_hints world hints w)
  = Pipeline.Returned tt.
Proof.
  revert w. induction hints as [|h hints IH]; intros w; [reflexivity|].
  cbn [Pipeline.log_hints]. rewrite pipeline_bind_outcome. cbn. apply IH.
Qed.

(** An [except] clause of a stage ends the process with status 1. *)
Lemma report_and_exit_exits {A : Type} (template : string)
  (e : Pipeline.exc) (hints : list string) (w : world) :
  Pipeline.outcome_of
    (@Pipeline.report_and_exit world A template e hints w)
  = Pipeline.Exited 1.
Proof.
  unfold Pipeline.report_and_exit.
  rewrite pipeline_bind_outcome. cbn [Pipeline.logger Pipeline.outcome_of snd].
  rewrite pipeline_bind_outcome, log_cause_returns.
  rewrite pipeline_bind_outcome, log_hints_returns. reflexivity.
Qed.

Lemma step1_except_outcome (e : Pipeline.exc) (w : world) :
  Pipeline.outcome_of (Pipeline.step1_except world e w)
  = if Pipeline.isinstance e Pipeline.CodeQLError
    then Pipeline.Exited 1
    else Pipeline.Raised e.
Proof.
  unfold Pipeline.step1_except.
  destruct e as [[] t c ch]; cbn [Pipeline.isinstance Pipeline.issubclass
    Pipeline.exc_cls Pipeline.base Pipeline.class_eqb orb];
    try apply report_and_exit_exits; reflexivity.
Qed.

Lemma step2_except_outcome (e : Pipeline.exc) (w : world) :
  Pipeline.outcome_of (Pipeline.step2_except world e w)
  = if Pipeline.isinstance e Pipeline.CodeQLError
    then Pipeline.Exited 1
    else Pipeline.Raised e.
Proof.
  unfold Pipeline.step2_except.
  destruct e as [[] t c ch]; cbn [Pipeline.isinstance Pipeline.issubclass
    Pipeline.exc_cls Pipeline.base Pipeline.class_eqb orb];
    try apply report_and_exit_exits; reflexivity.
Qed.

Lemma step3_except_outcome (e : Pipeline.exc) (w : world) :
  Pipeline.outcome_of (Pipeline.step3_except world e w)
  = if Pipeline.isinstance e Pipeline.VulnhallaError
    then Pipeline.Exited 1
    else Pipeline.Raised e.
Proof.
  unfold Pipeline.step3_except.
  destruct e as [[] t c ch]; cbn [Pipeline.isinstance Pipeline.issubclass
    Pipeline.exc_cls Pipeline.base Pipeline.class_eqb orb];
    try apply report_and_exit_exits; reflexivity.
Qed.

Lemma step1_outcome (lang : string) (threads : Z) (repo : string)
  (w : world) :
  Pipeline.outcome_of
    (Pipeline.step1_fetch_codeql_dbs world fetch_codeql_dbs lang threads repo
       w)
  = match Pipeline.outcome_of (fetch_codeql_dbs lang threads repo w) with
    | Pipeline.Returned (Some dir) =>
        if PyStr.nonempty dir then Pipeline.Returned dir
        else Pipeline.Exited 1
    | Pipeline.Returned None => Pipeline.Exited 1
    | Pipeline.Raised e =>
        if Pipeline.isinstance e Pipeline.CodeQLError
        then Pipeline.Exited 1
        else Pipeline.Raised e
    | Pipeline.Exited code => Pipeline.Exited code
    end.
Proof.
  unfold Pipeline.step1_fetch_codeql_dbs.
  rewrite !pipeline_bind_outcome.
  cbn [Pipeline.logger Pipeline.outcome_of Pipeline.world_of fst snd].
  rewrite pipeline_try_outcome, pipeline_bind_outcome.
  fold (Pipeline.outcome_of (fetch_codeql_dbs lang threads repo w)).
  destruct (Pipeline.outcome_of (fetch_codeql_dbs lang threads repo w))
    as [[dir|]|e|code].
  - destruct (PyStr.nonempty dir);
      cbn [Pipeline.ret Pipeline.raise Pipeline.outcome_of snd];
      [reflexivity|].
    rewrite step1_except_outcome. reflexivity.
  - cbn [Pipeline.ret Pipeline.raise Pipeline.outcome_of snd].
    rewrite step1_except_outcome. reflexivity.
  - apply step1_except_outcome.
  - reflexivity.
Qed.

(** X20. [step1_fetch_codeql_dbs] hands back a path only when the fetch
    returned a non-empty one.  When the fetch returns nothing ([None] or the
    empty text) or raises a [CodeQLError] of any class, the stage does not
    raise it to its caller: the process ends with status 1.  Any other
    exception of the fetch passes through as it is. *)
Theorem step1_returns_a_path_or_exits
  (lang : string) (threads : Z) (repo : string) (w : world) :
  let fetched := Pipeline.outcome_of (fetch_codeql_dbs lang threads repo w) in
  let out :=
    Pipeline.outcome_of
      (Pipeline.step1_fetch_codeql_dbs world fetch_codeql_dbs lang threads
         repo w) in
  (forall dir,
      out = Pipeline.Returned dir <->
      fetched = Pipeline.Returned (Some dir) /\ PyStr.nonempty dir = true)
  /\ (fetched = Pipeline.Returned None
      \/ fetched = Pipeline.Returned (Some "") ->
      out = Pipeline.Exited 1)
  /\ (forall e,
         fetched = Pipeline.Raised e ->
         out = if Pipeline.isinstance e Pipeline.CodeQLError
               then Pipeline.Exited 1
               else Pipeline.Raised e)
  /\ (forall code,
         fetched = Pipeline.Exited code -> out = Pipeline.Exited code).
Proof.
  intros fetched out. subst out. rewrite step1_outcome. fold fetched.
  split; [|split; [|split]].
  - intros dir. split.
    + destruct fetched as [[dir'|]|e|code]; try discriminate.
      * destruct (PyStr.nonempty dir') eqn:En; [|discriminate].
        intros H. injection H as <-. split; [reflexivity | exact En].
      * destruct (Pipeline.isinstance e Pipeline.CodeQLError); discriminate.
    + intros [-> ->]. reflexivity.
  - intros [->| ->]; reflexivity.
  - intros e ->. reflexivity.
  - intros code ->. reflexivity.
Qed.

Lemma step2_outcome (dbs_dir lang : string) (threads : Z) (w : world) :
  Pipeline.outcome_of
    (Pipeline.step2_run_codeql_queries world get_codeql_path
       compile_and_run_codeql_queries dbs_dir lang threads w)
  = match Pipeline.outcome_of
            (Pipeline.bind world get_codeql_path
               (fun codeql_bin =>
                  compile_and_run_codeql_queries codeql_bin lang threads 300
                    dbs_dir) w) with
    | Pipeline.Raised e =>
        if Pipeline.isinstance e Pipeline.CodeQLError
        then Pipeline.Exited 1
        else Pipeline.Raised e
    | other => other
    end.
Proof.
  unfold Pipeline.step2_run_codeql_queries.
  set (inner := Pipeline.bind world get_codeql_path _).
  rewrite !pipeline_bind_outcome.
  cbn [Pipeline.logger Pipeline.outcome_of Pipeline.world_of fst snd].
  rewrite pipeline_try_outcome.
  destruct (Pipeline.outcome_of (inner w)) as [a|e|code]; try reflexivity.
  apply step2_except_outcome.
Qed.

Lemma step3_outcome (dbs_dir lang : string) (w : world) :
  Pipeline.outcome_of
    (Pipeline.step3_classify_results_with_llm world issue_analyzer_run
       dbs_dir lang w)
  = match Pipeline.outcome_of (issue_analyzer_run lang dbs_dir w) with
    | Pipeline.Raised e =>
        if Pipeline.isinstance e Pipeline.VulnhallaError
        then Pipeline.Exited 1
        else Pipeline.Raised e
    | other => other
    end.
Proof.
  unfold Pipeline.step3_classify_results_with_llm.
  rewrite !pipeline_bind_outcome.
  cbn [Pipeline.logger Pipeline.outcome_of Pipeline.world_of fst snd].
  rewrite pipeline_try_outcome.
  destruct (Pipeline.outcome_of (issue_analyzer_run lang dbs_dir w))
    as [a|e|code]; try reflexivity.
  apply step3_except_outcome.
Qed.

(** X21. [step2_run_codeql_queries] asks for the CodeQL path inside its
    [try]: a [CodeQLError] of any class, raised by [get_codeql_path] or by
    the run of the queries, ends the process with status 1 and is never
    raised to the caller; when the path cannot be had, the queries are not
    run with any path.  Other exceptions pass through, and the stage
    returns exactly when both calls return. *)
Theorem step2_exits_on_codeql_errors
  (dbs_dir lang : string) (threads : Z) (w : world) :
  let path := Pipeline.outcome_of (get_codeql_path w) in
  let run codeql_bin :=
    Pipeline.outcome_of
      (compile_and_run_codeql_queries codeql_bin lang threads 300 dbs_dir
         (Pipeline.world_of (get_codeql_path w))) in
  let out :=
    Pipeline.outcome_of
      (Pipeline.step2_run_codeql_queries world get_codeql_path
         compile_and_run_codeql_queries dbs_dir lang threads w) in
  (out = Pipeline.Returned tt <->
   exists codeql_bin,
     path = Pipeline.Returned codeql_bin
     /\ run codeql_bin = Pipeline.Returned tt)
  /\ (forall e,
         out = Pipeline.Raised e ->
         Pipeline.isinstance e Pipeline.CodeQLError = false)
  /\ (forall e,
         path = Pipeline.Raised e
         \/ (exists codeql_bin,
               path = Pipeline.Returned codeql_bin
               /\ run codeql_bin = Pipeline.Raised e) ->
         out = if Pipeline.isinstance e Pipeline.CodeQLError
               then Pipeline.Exited 1
               else Pipeline.Raised e).
Proof.
  intros path run out. subst out. rewrite step2_outcome.
  rewrite pipeline_bind_outcome. fold path.
  split; [|split].
  - split.
    + destruct path as [codeql_bin|e|code].
      * fold (run codeql_bin).
        destruct (run codeql_bin) as [[]|e|code] eqn:Er.
        -- intros _. exists codeql_bin. split; [reflexivity | exact Er].
        -- destruct (Pipeline.isinstance e Pipeline.CodeQLError);
             discriminate.
        -- discriminate.
      * destruct (Pipeline.isinstance e Pipeline.CodeQLError); discriminate.
      * discriminate.
    + intros [codeql_bin [-> Hr]]. fold (run codeql_bin). rewrite Hr.
      reflexivity.
  - intros e. destruct path as [codeql_bin|e'|code].
    + fold (run codeql_bin).
      destruct (run codeql_bin) as [[]|e'|code]; try discriminate.
      destruct (Pipeline.isinstance e' Pipeline.CodeQLError) eqn:Ei;
        [discriminate|].
      intros H. injection H as <-. exact Ei.
    + destruct (Pipeline.isinstance e' Pipeline.CodeQLError) eqn:Ei;
        [discriminate|].
      intros H. injection H as <-. exact Ei.
    + discriminate.
  - intros e [->|[codeql_bin [-> Hr]]]; [reflexivity|].
    fold (run codeql_bin). rewrite Hr. reflexivity.
Qed.

(** X22. [step3_classify_results_with_llm] ends the process with status 1
    on every exception of the hierarchy of [VulnhallaError], the errors of
    the LLM and of CodeQL among them, and so raises none of them to its
    caller; an exception outside the hierarchy passes through as it is, and
    the stage returns exactly when the analysis returns. *)
Theorem step3_exits_on_vulnhalla_errors (dbs_dir lang : string) (w : world) :
  let analysis := Pipeline.outcome_of (issue_analyzer_run lang dbs_dir w) in
  let out :=
    Pipeline.outcome_of
      (Pipeline.step3_classify_results_with_llm world issue_analyzer_run
         dbs_dir lang w) in
  (out = Pipeline.Returned tt <-> analysis = Pipeline.Returned tt)
  /\ (forall e,
         out = Pipeline.Raised e ->
         Pipeline.exc_cls e = Pipeline.OtherException)
  /\ (forall e,
         analysis = Pipeline.Raised e ->
         out = match Pipeline.exc_cls e with
               | Pipeline.OtherException => Pipeline.Raised e
               | _ => Pipeline.Exited 1
               end).
Proof.
  intros analysis out. subst out. rewrite step3_outcome. fold analysis.
  split; [|split].
  - destruct analysis as [[]|e|code]; split; intros H;
      try reflexivity; try discriminate.
    destruct (Pipeline.isinstance e Pipeline.VulnhallaError); discriminate.
  - intros e. destruct analysis as [[]|e'|code]; try discriminate.
    destruct e' as [[] t c ch]; cbn; try discriminate.
    intros H. injection H as <-. reflexivity.
  - intros e ->. destruct e as [[] t c ch]; reflexivity.
Qed.

End PipelineStages.
